(** * Bump tracking on the twisted torus: a model of [gridcells.analysis.bumps]

    The development follows [src/gridcells/analysis/bumps.py].  Python objects
    are modelled as a class tag with an attribute dictionary, exceptions as an
    error monad, [np.double] as IEEE binary64 ([PrimFloat.float]).  In-place
    mutation of a container ([self.mu.append(...)], [fit_params.err2 = ...])
    is written as explicit state passing: the method returns the updated
    object.

    What lies outside the file under study is taken as a parameter of the
    model: [np.log], [np.exp], [scipy.optimize.leastsq],
    [twisted_torus_distance] and [slidingFiringRate].

    The backing lists of a container are owned by it ([None] defaults give
    fresh lists), so they are modelled by value; a list that contains
    itself is outside the model. *)

From Stdlib Require Import Floats ZArith String Bool Lia PeanoNat Permutation
  List.
Import ListNotations.

Local Open Scope string_scope.
Local Open Scope list_scope.

(** ** Exceptions *)

Inductive exn : Type :=
| TypeError
| ValueError
| AttributeError
| IndexError
| NotImplementedError.

Inductive result (A : Type) : Type :=
| Ok (a : A)
| Raise (e : exn).

Arguments Ok {A} a.
Arguments Raise {A} e.

Definition bind {A B : Type} (c : result A) (k : A -> result B) : result B :=
  match c with
  | Ok a => k a
  | Raise e => Raise e
  end.

Notation "x <- c ;; k" := (bind c (fun x => k))
  (at level 61, c at next level, right associativity).

Definition is_ok {A : Type} (c : result A) : bool :=
  match c with Ok _ => true | Raise _ => false end.

(** ** Values *)

(** An [np.ndarray] of doubles, in C (row-major) order. *)
Record ndarray : Type := mk_ndarray { shape : list nat; data : list float }.

(** The classes of the module, [object] and [collections.Sequence]. *)
Inductive class : Type :=
| object
| Sequence
| FittingParams
| SymmetricGaussianParams
| MLFit
| MLFitList
| MLGaussianFit
| MLGaussianFitList.

Definition class_eqb (c d : class) : bool :=
  match c, d with
  | object, object | Sequence, Sequence | FittingParams, FittingParams
  | SymmetricGaussianParams, SymmetricGaussianParams | MLFit, MLFit
  | MLFitList, MLFitList | MLGaussianFit, MLGaussianFit
  | MLGaussianFitList, MLGaussianFitList => true
  | _, _ => false
  end.

#[local] Set Warnings "-register-all".

Inductive value : Type :=
| VNone
| VInt (z : Z)
| VFloat (x : float)
| VArray (a : ndarray)
| VList (l : list value)
| VTuple (l : list value)
| VBuiltin (name : string)
| VObj (c : class) (attrs : list (string * value)).

(** ** Class hierarchy *)

(** The base classes, as the [class] statements list them. *)
Definition bases (c : class) : list class :=
  match c with
  | object => []
  | Sequence => [object]
  | FittingParams => [object]
  | SymmetricGaussianParams => [FittingParams]
  | MLFit => [FittingParams]
  | MLFitList => [MLFit; Sequence]
  | MLGaussianFit => [SymmetricGaussianParams]
  | MLGaussianFitList => [MLGaussianFit; Sequence]
  end.

Fixpoint issubclass_fuel (fuel : nat) (c d : class) : bool :=
  class_eqb c d ||
  match fuel with
  | O => false
  | S fuel' => existsb (fun b => issubclass_fuel fuel' b d) (bases c)
  end.

(** The hierarchy is five classes deep. *)
Definition issubclass (c d : class) : bool := issubclass_fuel 5 c d.

Definition isinstance (v : value) (d : class) : bool :=
  match v with
  | VObj c _ => issubclass c d
  | _ => false
  end.

(** ** Attributes *)

Fixpoint lookup (k : string) (d : list (string * value)) : option value :=
  match d with
  | [] => None
  | (k', v) :: d' => if String.eqb k k' then Some v else lookup k d'
  end.

Fixpoint update (k : string) (v : value) (d : list (string * value))
  : list (string * value) :=
  match d with
  | [] => [(k, v)]
  | (k', v') :: d' =>
      if String.eqb k k' then (k, v) :: d' else (k', v') :: update k v d'
  end.

Definition getattr (o : value) (k : string) : result value :=
  match o with
  | VObj _ d =>
      match lookup k d with
      | Some v => Ok v
      | None => Raise AttributeError
      end
  | _ => Raise AttributeError
  end.

Definition setattr (o : value) (k : string) (v : value) : result value :=
  match o with
  | VObj c d => Ok (VObj c (update k v d))
  | _ => Raise AttributeError
  end.

(** ** Builtins on sequences *)

(** [len.self.mu]: attribute [self] of the builtin [len], then [mu]. *)
Definition MLFitList___len__ (self : value) : result nat :=
  f <- getattr (VBuiltin "len") "self" ;;
  n <- getattr f "mu" ;;
  match n with
  | VInt z => if (0 <=? z)%Z then Ok (Z.to_nat z) else Raise ValueError
  | _ => Raise TypeError
  end.

(** [len(v)].  A list container answers through its [__len__]; for
    [MLGaussianFitList] that is [len(self.A)]. *)
Fixpoint py_len (v : value) : result nat :=
  match v with
  | VList l => Ok (length l)
  | VTuple l => Ok (length l)
  | VArray a =>
      match shape a with
      | [] => Raise TypeError
      | n :: _ => Ok n
      end
  | VObj MLFitList _ => MLFitList___len__ v
  | VObj MLGaussianFitList d =>
      (fix find (d : list (string * value)) : result nat :=
         match d with
         | [] => Raise AttributeError
         | (k, x) :: d' => if String.eqb "A" k then py_len x else find d'
         end) d
  | _ => Raise TypeError
  end.

Definition MLGaussianFitList___len__ (self : value) : result nat :=
  a <- getattr self "A" ;; py_len a.

(** Position of Python index [z] in a sequence of length [n]. *)
Definition norm_index (z : Z) (n : nat) : option nat :=
  if (0 <=? z)%Z && (z <? Z.of_nat n)%Z then Some (Z.to_nat z)
  else if (z <? 0)%Z && (- Z.of_nat n <=? z)%Z then Some (Z.to_nat (Z.of_nat n + z))
  else None.

Definition list_item {A : Type} (l : list A) (z : Z) : result A :=
  match norm_index z (length l) with
  | Some i =>
      match nth_error l i with
      | Some x => Ok x
      | None => Raise IndexError
      end
  | None => Raise IndexError
  end.

(** [a[z]] on an array: a scalar for one dimension, else the sub-array. *)
Definition array_item (a : ndarray) (z : Z) : result value :=
  match shape a with
  | [] => Raise IndexError
  | [n] => x <- list_item (firstn n (data a)) z ;; Ok (VFloat x)
  | n :: rest =>
      match norm_index z n with
      | Some i =>
          let sz := fold_right Nat.mul 1 rest in
          Ok (VArray (mk_ndarray rest (firstn sz (skipn (i * sz) (data a)))))
      | None => Raise IndexError
      end
  end.

(** [v[key]] for the builtin sequences. *)
Definition py_index (v key : value) : result value :=
  match key with
  | VInt z =>
      match v with
      | VList l => list_item l z
      | VTuple l => list_item l z
      | VArray a => array_item a z
      | _ => Raise TypeError
      end
  | _ => Raise TypeError
  end.

(** [l.append(x)]; only a list has the method. *)
Definition list_append (l x : value) : result value :=
  match l with
  | VList xs => Ok (VList (xs ++ [x]))
  | _ => Raise AttributeError
  end.

(** [self.<name>.append(x)], the list being owned by [self]. *)
Definition append_attr (self : value) (name : string) (x : result value)
  : result value :=
  l <- getattr self name ;;
  x <- x ;;
  l' <- list_append l x ;;
  setattr self name l'.

Definition default_list (v : value) : value :=
  match v with
  | VNone => VList []
  | _ => v
  end.

(** [len(self.a) == len(self.b)] *)
Definition same_len (self : value) (a b : string) : result bool :=
  x <- getattr self a ;;
  n <- py_len x ;;
  y <- getattr self b ;;
  m <- py_len y ;;
  Ok (Nat.eqb n m).

(** Short-circuit [and]. *)
Definition and_then (p q : result bool) : result bool :=
  b <- p ;; if b then q else Ok false.

(** ** Parameter records *)

Definition FittingParams___init__ (self : value) : result value :=
  Raise NotImplementedError.

Definition SymmetricGaussianParams___init__
  (self amplitude mu_x mu_y sigma err2 : value) : result value :=
  self <- setattr self "A" amplitude ;;
  self <- setattr self "mu_x" mu_x ;;
  self <- setattr self "mu_y" mu_y ;;
  self <- setattr self "sigma" sigma ;;
  setattr self "err2" err2.

Definition new_SymmetricGaussianParams (amplitude mu_x mu_y sigma err2 : value)
  : result value :=
  SymmetricGaussianParams___init__ (VObj SymmetricGaussianParams [])
    amplitude mu_x mu_y sigma err2.

Definition MLFit___init__ (self mu sigma2 ln_lh err2 : value) : result value :=
  self <- setattr self "mu" mu ;;
  self <- setattr self "sigma2" sigma2 ;;
  self <- setattr self "ln_lh" ln_lh ;;
  setattr self "err2" err2.

Definition new_MLFit (mu sigma2 ln_lh err2 : value) : result value :=
  MLFit___init__ (VObj MLFit []) mu sigma2 ln_lh err2.

Definition MLGaussianFit___init__
  (self amplitude mu_x mu_y sigma err2 ln_lh lh_precision : value)
  : result value :=
  self <- SymmetricGaussianParams___init__ self amplitude mu_x mu_y sigma err2 ;;
  self <- setattr self "ln_lh" ln_lh ;;
  setattr self "lh_precision" lh_precision.

Definition new_MLGaussianFit
  (amplitude mu_x mu_y sigma err2 ln_lh lh_precision : value) : result value :=
  MLGaussianFit___init__ (VObj MLGaussianFit [])
    amplitude mu_x mu_y sigma err2 ln_lh lh_precision.

(** ** MLFitList *)

Definition MLFitList__consistent (self : value) : result bool :=
  and_then (same_len self "mu" "sigma2")
    (and_then (same_len self "mu" "ln_lh")
       (and_then (same_len self "mu" "err2")
          (same_len self "mu" "times"))).

Definition MLFitList___init__ (self mu sigma2 ln_lh err2 times : value)
  : result value :=
  let mu := default_list mu in
  let sigma2 := default_list sigma2 in
  let ln_lh := default_list ln_lh in
  let err2 := default_list err2 in
  let times := default_list times in
  self <- MLFit___init__ self mu sigma2 ln_lh err2 ;;
  self <- setattr self "times" times ;;
  ok <- MLFitList__consistent self ;;
  if negb ok then Raise ValueError else Ok self.

Definition new_MLFitList (mu sigma2 ln_lh err2 times : value) : result value :=
  MLFitList___init__ (VObj MLFitList []) mu sigma2 ln_lh err2 times.

Definition MLFitList___getitem__ (self key : value) : result value :=
  mu <- getattr self "mu" ;;
  mu_k <- py_index mu key ;;
  sigma2 <- getattr self "sigma2" ;;
  sigma2_k <- py_index sigma2 key ;;
  ln_lh <- getattr self "ln_lh" ;;
  ln_lh_k <- py_index ln_lh key ;;
  err2 <- getattr self "err2" ;;
  r <- new_MLFit mu_k sigma2_k ln_lh_k err2 ;;
  times <- getattr self "times" ;;
  Ok (VTuple [r; times]).

Definition MLFitList__append_data (self d t : value) : result value :=
  if negb (isinstance d MLFit) then Raise TypeError
  else
    self <- append_attr self "mu" (getattr d "mu") ;;
    self <- append_attr self "sigma2" (getattr d "sigma2") ;;
    self <- append_attr self "ln_lh" (getattr d "ln_lh") ;;
    self <- append_attr self "err2" (getattr d "err2") ;;
    append_attr self "times" (Ok t).

(** ** MLGaussianFitList *)

Definition MLGaussianFitList__consistent (self : value) : result bool :=
  and_then (same_len self "A" "mu_x")
    (and_then (same_len self "A" "mu_y")
       (and_then (same_len self "A" "sigma")
          (and_then (same_len self "A" "err2")
             (and_then (same_len self "A" "ln_lh")
                (and_then (same_len self "A" "lh_precision")
                   (same_len self "A" "times")))))).

Definition MLGaussianFitList___init__
  (self amplitude mu_x mu_y sigma err2 ln_lh lh_precision times : value)
  : result value :=
  let amplitude := default_list amplitude in
  let mu_x := default_list mu_x in
  let mu_y := default_list mu_y in
  let sigma := default_list sigma in
  let err2 := default_list err2 in
  let ln_lh := default_list ln_lh in
  let lh_precision := default_list lh_precision in
  let times := default_list times in
  self <- MLGaussianFit___init__ self amplitude mu_x mu_y sigma err2 ln_lh
            lh_precision ;;
  self <- setattr self "times" times ;;
  ok <- MLGaussianFitList__consistent self ;;
  if negb ok then Raise ValueError else Ok self.

Definition new_MLGaussianFitList
  (amplitude mu_x mu_y sigma err2 ln_lh lh_precision times : value)
  : result value :=
  MLGaussianFitList___init__ (VObj MLGaussianFitList [])
    amplitude mu_x mu_y sigma err2 ln_lh lh_precision times.

Definition MLGaussianFitList__append_data (self d t : value) : result value :=
  if negb (isinstance d MLGaussianFit) then Raise TypeError
  else
    self <- append_attr self "A" (getattr d "A") ;;
    self <- append_attr self "mu_x" (getattr d "mu_x") ;;
    self <- append_attr self "mu_y" (getattr d "mu_y") ;;
    self <- append_attr self "sigma" (getattr d "sigma") ;;
    self <- append_attr self "err2" (getattr d "err2") ;;
    self <- append_attr self "ln_lh" (getattr d "ln_lh") ;;
    self <- append_attr self "lh_precision" (getattr d "lh_precision") ;;
    append_attr self "times" (Ok t).

Definition MLGaussianFitList___getitem__ (self key : value) : result value :=
  A <- getattr self "A" ;;
  A_k <- py_index A key ;;
  mu_x <- getattr self "mu_x" ;;
  mu_x_k <- py_index mu_x key ;;
  mu_y <- getattr self "mu_y" ;;
  mu_y_k <- py_index mu_y key ;;
  sigma <- getattr self "sigma" ;;
  sigma_k <- py_index sigma key ;;
  err2 <- getattr self "err2" ;;
  err2_k <- py_index err2 key ;;
  ln_lh <- getattr self "ln_lh" ;;
  lh_precision <- getattr self "lh_precision" ;;
  r <- new_MLGaussianFit A_k mu_x_k mu_y_k sigma_k err2_k ln_lh lh_precision ;;
  _times <- getattr self "_times" ;;
  t_k <- py_index _times key ;;
  Ok (VTuple [r; t_k]).

(** ** Doubles *)

Local Open Scope float_scope.

(** Conversion of a Python integer to a double (round to nearest even). *)
Definition float_of_Z (z : Z) : float :=
  SF2Prim (binary_normalize prec emax z 0 false).

Definition float_of_nat (n : nat) : float := float_of_Z (Z.of_nat n).

Definition is_nan (x : float) : bool := negb (x =? x).

(** [np.pi] *)
Definition np_pi : float := 0x1.921fb54442d18p+1.

(** [np.inf] *)
Definition np_inf : float := infinity.

(** C's [fmod]: the exact remainder of [a / b] truncated, with the sign of
    [a]; [a] itself when it is the smaller in magnitude. *)
Definition fmod (a b : float) : float :=
  match Prim2SF a, Prim2SF b with
  | S754_nan, _ | _, S754_nan => nan
  | S754_infinity _, _ => nan
  | _, S754_zero _ => nan
  | S754_zero _, _ => a
  | S754_finite _ _ _, S754_infinity _ => a
  | S754_finite sa ma ea, S754_finite _ mb eb =>
      if abs a <? abs b then a
      else
        let e := Z.min ea eb in
        let r := Z.rem (Z.pos ma * 2 ^ (ea - e)) (Z.pos mb * 2 ^ (eb - e)) in
        SF2Prim (binary_normalize prec emax (if sa then (- r)%Z else r) e sa)
  end.

(** [a % b] on doubles, as numpy computes it: [fmod], then the divisor is
    added when the signs differ, so that the result has the sign of [b]. *)
Definition np_remainder (a b : float) : float :=
  let mod_ := fmod a b in
  if b =? 0 then mod_
  else if negb (mod_ =? 0) then
    if xorb (b <? 0) (mod_ <? 0) then mod_ + b else mod_
  else if b <? 0 then (-0) else 0.

(** numpy's pairwise summation of a flat array of doubles (the inner loop of
    [np.add.reduce]).  One more pass of the loop over blocks of eight: the
    eight running sums [r] take one item each of the next eight items of
    [l]. *)
Fixpoint add_rows (k : nat) (r l : list float) : list float * list float :=
  match k with
  | O => (r, l)
  | S k' =>
      add_rows k' (map (fun p => fst p + snd p) (combine r (firstn 8 l)))
        (skipn 8 l)
  end.

(** A block of eight or more items: the first eight items start eight
    running sums, which take the next items eight at a time; the eight sums
    are added as [((r0 + r1) + (r2 + r3)) + ((r4 + r5) + (r6 + r7))], and the
    [n mod 8] items that are left are added in index order. *)
Definition block_sum (l : list float) : float :=
  let '(r, rest) :=
    add_rows (length l / 8 - 1)%nat (firstn 8 l) (skipn 8 l) in
  let r_ := fun j => nth j r 0 in
  fold_left PrimFloat.add rest
    (((r_ 0%nat + r_ 1%nat) + (r_ 2%nat + r_ 3%nat))
     + ((r_ 4%nat + r_ 5%nat) + (r_ 6%nat + r_ 7%nat))).

(** Fewer than eight items are added in index order, starting from [-0.];
    up to 128 items make one block; a longer array is cut in two at
    [n / 2] rounded down to a multiple of eight, and the sums of the two
    parts are added.  The recursion is on [fuel], which [np_sum] gives in
    excess: each part is shorter than the whole. *)
Fixpoint pairwise_sum (fuel : nat) (l : list float) : float :=
  let n := length l in
  if (n <? 8)%nat then fold_left PrimFloat.add l (-0)
  else if (n <=? 128)%nat then block_sum l
  else
    match fuel with
    | O => block_sum l
    | S fuel' =>
        let n2 := (n / 2 - (n / 2) mod 8)%nat in
        pairwise_sum fuel' (firstn n2 l) + pairwise_sum fuel' (skipn n2 l)
    end.

(** [np.sum] of a flat array of doubles: the reduction starts from the
    identity [0.] of the addition and adds the pairwise sum of the items. *)
Definition np_sum (l : list float) : float := 0 + pairwise_sum (length l) l.

(** [np.mean]: the sum divided by the number of items. *)
Definition np_mean (l : list float) : float :=
  np_sum l / float_of_nat (length l).

(** [np.var(a, ddof=ddof)]: the mean is subtracted, the deviations are
    squared and summed, and the sum is divided by [max(n - ddof, 0)]. *)
Definition np_var_ddof (ddof : nat) (l : list float) : float :=
  let arrmean := np_sum l / float_of_nat (length l) in
  let x := map (fun v => v - arrmean) l in
  let x := map (fun v => v * v) x in
  np_sum x / float_of_nat (Nat.max (length l - ddof)%nat 0%nat).

(** [np.var(a)]: [ddof] defaults to [0]. *)
Definition np_var (l : list float) : float := np_var_ddof 0%nat l.

(** [x ** 2] *)
Definition sqr (x : float) : float := x * x.

(** [np.argmax] of a flat array of doubles: the running maximum is replaced
    when [not (x <= mp)], and a NaN ends the scan. *)
Fixpoint argmax_from (mp : float) (best i : nat) (l : list float) : nat :=
  match l with
  | [] => best
  | v :: l' =>
      if is_nan mp then best
      else if negb (v <=? mp) then argmax_from v i (S i) l'
      else argmax_from mp best (S i) l'
  end.

Definition np_argmax (l : list float) : result nat :=
  match l with
  | [] => Raise ValueError
  | v :: l' => Ok (argmax_from v 0%nat 1%nat l')
  end.

(** [np.unravel_index(k, (dy, dx))] *)
Definition np_unravel_index (k dy dx : nat) : result (nat * nat) :=
  if (k <? dy * dx)%nat then Ok (k / dx, k mod dx)%nat else Raise ValueError.

(** [sig[r, c]] on a 2D array. *)
Definition array_item2 (a : ndarray) (r c : nat) : result float :=
  match shape a with
  | [dy; dx] =>
      if ((r <? dy) && (c <? dx))%nat then
        match nth_error (data a) (r * dx + c)%nat with
        | Some v => Ok v
        | None => Raise IndexError
        end
      else Raise IndexError
  | _ => Raise IndexError
  end.

(** Conversion of a scalar to [np.double], as [np.array([...])] does. *)
Definition to_double (v : value) : result float :=
  match v with
  | VFloat x => Ok x
  | VInt z => Ok (float_of_Z z)
  | _ => Raise TypeError
  end.

Fixpoint to_doubles (l : list value) : result (list float) :=
  match l with
  | [] => Ok []
  | v :: l' => x <- to_double v ;; xs <- to_doubles l' ;; Ok (x :: xs)
  end.

(** [np.sum(v)] on a value. *)
Definition np_sum_value (v : value) : result value :=
  match v with
  | VArray a => Ok (VFloat (np_sum (data a)))
  | VFloat x => Ok (VFloat x)
  | VInt z => Ok (VInt z)
  | VList l => xs <- to_doubles l ;; Ok (VFloat (np_sum xs))
  | VTuple l => xs <- to_doubles l ;; Ok (VFloat (np_sum xs))
  | _ => Raise TypeError
  end.

(** [u - f] on flat arrays under numpy's broadcasting: the lengths are
    equal, or one of the two is one; other operands cannot be broadcast
    together. *)
Definition np_subtract (u f : list float) : result (list float) :=
  if (length u =? length f)%nat then
    Ok (map (fun p => fst p - snd p) (combine u f))
  else
    match u, f with
    | [u0], _ => Ok (map (fun v => u0 - v) f)
    | _, [f0] => Ok (map (fun v => v - f0) u)
    | _, _ => Raise ValueError
    end.

(** ** External collaborators *)

Record Pair2D (A : Type) : Type := mk_Pair2D { x_ : A; y_ : A }.
Arguments mk_Pair2D {A} _ _.
Arguments x_ {A} _.
Arguments y_ {A} _.

(** The four parameters the solver optimises: [x[0]] to [x[3]]. *)
Record vec4 : Type :=
  mk_vec4 { x_0 : float; x_1 : float; x_2 : float; x_3 : float }.

(** The population, as [SingleBumpPopulation.__init__] receives it. *)
Record SingleBumpPopulation : Type :=
  mk_SingleBumpPopulation
    { senders : list Z; spike_times : list float; sheet_size : nat * nat }.

Class Externals : Type :=
  { (** [np.log] and [np.exp] on a double *)
    np_log : float -> float;
    np_exp : float -> float;
    (** [core.common.twisted_torus_distance(a, others, dim)] *)
    twisted_torus_distance :
      Pair2D float -> Pair2D (list float) -> Pair2D nat -> list float;
    (** [scipy.optimize.leastsq(func, x0)]: the estimate and the integer
        status flag [ier]; the solution was found when the flag is 1, 2, 3
        or 4. *)
    leastsq : (vec4 -> list float) -> vec4 -> result (vec4 * Z);
    (** [spikes.TwistedTorusSpikes.slidingFiringRate]: the rate maps [F], of
        shape [(Ny, Nx, len(Ft))], and the window times [Ft]. *)
    slidingFiringRate :
      SingleBumpPopulation -> float -> float -> float -> float ->
      result (ndarray * list float) }.

(** [np.array([i.A, i.mu_x, i.mu_y, i.sigma])] *)
Definition initial_vector (i : value) : result vec4 :=
  iA <- getattr i "A" ;;
  imu_x <- getattr i "mu_x" ;;
  imu_y <- getattr i "mu_y" ;;
  isigma <- getattr i "sigma" ;;
  a0 <- to_double iA ;;
  a1 <- to_double imu_x ;;
  a2 <- to_double imu_y ;;
  a3 <- to_double isigma ;;
  Ok (mk_vec4 a0 a1 a2 a3).

(** The solver reports success with these values of [ier]. *)
Definition leastsq_converged (ier : Z) : bool :=
  (ier =? 1)%Z || (ier =? 2)%Z || (ier =? 3)%Z || (ier =? 4)%Z.

(** ** Single-snapshot fitters *)

Section Fitters.
Context {E : Externals}.

(** [np.meshgrid(np.arange(dx), np.arange(dy))], both flattened. *)
Definition meshgrid_flat (dx dy : nat) : Pair2D (list float) :=
  mk_Pair2D
    (flat_map (fun _ => map float_of_nat (seq 0%nat dx)) (seq 0%nat dy))
    (flat_map (fun r => map (fun _ => float_of_nat r) (seq 0%nat dx)) (seq 0%nat dy)).

(** The residual function handed to the solver. *)
Definition gaussian_diff (others : Pair2D (list float)) (dim : Pair2D nat)
  (f_flattened : list float) (x : vec4) : list float :=
  let a := mk_Pair2D (x_1 x) (x_2 x) in
  let dist := twisted_torus_distance a others dim in
  map (fun df => abs (x_0 x) * np_exp (- sqr (fst df) / 2 / sqr (x_3 x)) - snd df)
    (combine dist f_flattened).

(** The residual function on a signal of three or more dimensions: the
    grid has one point for each item of the first two dimensions, the
    flattened signal has every item, and the difference is broadcast. *)
Definition gaussian_diff_nd (others : Pair2D (list float)) (dim : Pair2D nat)
  (f_flattened : list float) (x : vec4) : result (list float) :=
  let a := mk_Pair2D (x_1 x) (x_2 x) in
  let dist := twisted_torus_distance a others dim in
  np_subtract
    (map (fun d => abs (x_0 x) * np_exp (- sqr d / 2 / sqr (x_3 x))) dist)
    f_flattened.

(** The shape is read at [shape[1]] and [shape[0]] only.  A signal of three
    or more dimensions passes that point; [leastsq] then calls the residual
    function on [x0] before anything else, and an exception of that call is
    the exception of the fit.  The broadcast fails or not by the lengths of
    its operands, which are the same at every [x]: once the call on [x0] has
    returned, the solver is handed the residual function, where [[]] stands
    for a call that raises. *)
Definition fit_gaussian_tt (sig_f i : value) : result value :=
  match sig_f with
  | VArray arr =>
      match shape arr with
      | [dim_y; dim_x] =>
          let f_flattened := data arr in
          let dim := mk_Pair2D dim_x dim_y in
          let others := meshgrid_flat dim_x dim_y in
          let gd := gaussian_diff others dim f_flattened in
          x0 <- initial_vector i ;;
          r <- leastsq gd x0 ;;
          let '(xest, ierr) := r in
          let err2 := map sqr (gd xest) in
          let xest1 := np_remainder (x_1 xest) (float_of_nat dim_x) in
          let xest2 := np_remainder (x_2 xest) (float_of_nat dim_y) in
          let n := float_of_nat (dim_x * dim_y)%nat in
          let aic_correction := 5 in
          let beta := 1 / np_mean err2 in
          let ln_lh :=
            - beta / 2 * np_sum err2
            + n / 2 * np_log beta
            - n / 2 * np_log (2 * np_pi)
            - aic_correction in
          new_MLGaussianFit (VFloat (x_0 xest)) (VFloat xest1) (VFloat xest2)
            (VFloat (x_3 xest)) (VArray (mk_ndarray [length err2] err2))
            (VFloat ln_lh) (VFloat beta)
      | dim_y :: dim_x :: _ :: _ =>
          let f_flattened := data arr in
          let dim := mk_Pair2D dim_x dim_y in
          let others := meshgrid_flat dim_x dim_y in
          let gd := gaussian_diff_nd others dim f_flattened in
          x0 <- initial_vector i ;;
          _ <- gd x0 ;;
          r <- leastsq
                 (fun x => match gd x with Ok e => e | Raise _ => [] end) x0 ;;
          let '(xest, ierr) := r in
          e <- gd xest ;;
          let err2 := map sqr e in
          let xest1 := np_remainder (x_1 xest) (float_of_nat dim_x) in
          let xest2 := np_remainder (x_2 xest) (float_of_nat dim_y) in
          let n := float_of_nat (dim_x * dim_y)%nat in
          let aic_correction := 5 in
          let beta := 1 / np_mean err2 in
          let ln_lh :=
            - beta / 2 * np_sum err2
            + n / 2 * np_log beta
            - n / 2 * np_log (2 * np_pi)
            - aic_correction in
          new_MLGaussianFit (VFloat (x_0 xest)) (VFloat xest1) (VFloat xest2)
            (VFloat (x_3 xest)) (VArray (mk_ndarray [length err2] err2))
            (VFloat ln_lh) (VFloat beta)
      | _ => Raise IndexError
      end
  | _ => Raise AttributeError
  end.

Definition fit_gaussian_bump_tt (sig : value) : result value :=
  match sig with
  | VArray arr =>
      match shape arr with
      | [dim_y; dim_x] =>
          k <- np_argmax (data arr) ;;
          yx <- np_unravel_index k dim_y dim_x ;;
          let '(mu0_y, mu0_x) := yx in
          a0 <- array_item2 arr mu0_y mu0_x ;;
          let sigma0 := float_of_nat (Nat.max dim_y dim_x) / 4 in
          init <- new_SymmetricGaussianParams (VFloat a0)
                    (VInt (Z.of_nat mu0_x)) (VInt (Z.of_nat mu0_y))
                    (VFloat sigma0) VNone ;;
          fit_gaussian_tt sig init
      | _ => Raise ValueError
      end
  | _ => Raise AttributeError
  end.

Definition fit_maximum_lh (sig : value) : result value :=
  match sig with
  | VArray arr =>
      let sig := data arr in
      let mu := np_mean sig in
      let sigma2 := np_var sig in
      let err2 := map (fun v => sqr (v - mu)) sig in
      let ln_lh :=
        if sigma2 =? 0 then np_inf
        else
          let n := float_of_nat (length sig) in
          let aic_correction := 2 in
          - 0.5 / sigma2 * np_sum (map (fun v => sqr (v - mu)) sig)
          - 0.5 * n * np_log sigma2
          - 0.5 * n * np_log (2 * np_pi)
          - aic_correction in
      new_MLFit (VFloat mu) (VFloat sigma2) (VFloat ln_lh)
        (VArray (mk_ndarray [length err2] err2))
  | _ => Raise AttributeError
  end.

End Fitters.

(** ** Time-series orchestrator *)

Section Orchestrator.
Context {E : Externals}.

(** [F[:, :, tIdx]] on the three-dimensional rate array. *)
Definition slice_last (F : ndarray) (tIdx : nat) : result value :=
  match shape F with
  | [ny; nx; nt] =>
      if (tIdx <? nt)%nat then
        Ok (VArray
              (mk_ndarray [ny; nx]
                 (map (fun j => nth (j * nt + tIdx)%nat (data F) 0)
                    (seq 0%nat (ny * nx)%nat))))
      else Raise IndexError
  | _ => Raise IndexError
  end.

(** [list_cls()]: the call of a class with no argument. *)
Definition instantiate (list_cls : class) : result value :=
  match list_cls with
  | MLFitList => new_MLFitList VNone VNone VNone VNone VNone
  | MLGaussianFitList =>
      new_MLGaussianFitList VNone VNone VNone VNone VNone VNone VNone VNone
  | FittingParams => FittingParams___init__ (VObj FittingParams [])
  | object => Ok (VObj object [])
  | _ => Raise TypeError
  end.

(** [res._append_data(d, t)]: the method of the class of [res]. *)
Definition call__append_data (res d t : value) : result value :=
  match res with
  | VObj MLFitList _ => MLFitList__append_data res d t
  | VObj MLGaussianFitList _ => MLGaussianFitList__append_data res d t
  | _ => Raise AttributeError
  end.

(** The body of the loop over [tIdx]. *)
Definition fit_window (fit_callable : value -> result value)
  (full_err : bool) (F : ndarray) (Ft : list float) (res : value)
  (tIdx : nat) : result value :=
  snapshot <- slice_last F tIdx ;;
  fit_params <- fit_callable snapshot ;;
  fit_params <-
    (if negb full_err then
       e <- getattr fit_params "err2" ;;
       s <- np_sum_value e ;;
       setattr fit_params "err2" s
     else Ok fit_params) ;;
  t <- list_item Ft (Z.of_nat tIdx) ;;
  call__append_data res fit_params (VFloat t).

Fixpoint for_each (idx : list nat) (body : value -> nat -> result value)
  (res : value) : result value :=
  match idx with
  | [] => Ok res
  | tIdx :: idx' => res <- body res tIdx ;; for_each idx' body res
  end.

Definition SingleBumpPopulation__perform_fit (self : SingleBumpPopulation)
  (tstart tend dt win_len : float) (fit_callable : value -> result value)
  (list_cls : class) (full_err : bool) : result value :=
  FFt <- slidingFiringRate self tstart tend dt win_len ;;
  let '(F, Ft) := FFt in
  res <- instantiate list_cls ;;
  for_each (seq 0%nat (length Ft))
    (fit_window fit_callable full_err F Ft) res.

Definition bump_position (self : SingleBumpPopulation)
  (tstart tend dt win_len : float) (full_err : bool) : result value :=
  SingleBumpPopulation__perform_fit self tstart tend dt win_len
    fit_gaussian_bump_tt MLGaussianFitList full_err.

Definition uniform_fit (self : SingleBumpPopulation)
  (tstart tend dt win_len : float) (full_err : bool) : result value :=
  SingleBumpPopulation__perform_fit self tstart tend dt win_len
    fit_maximum_lh MLFitList full_err.

End Orchestrator.

(** ** States of the objects, for the statements *)

(** The object that [MLFit(mu, sigma2, ln_lh, err2)] builds. *)
Definition mk_MLFit (mu sigma2 ln_lh err2 : value) : value :=
  VObj MLFit
    [("mu", mu); ("sigma2", sigma2); ("ln_lh", ln_lh); ("err2", err2)].

(** The object that [SymmetricGaussianParams(...)] builds. *)
Definition mk_SymmetricGaussianParams (A mu_x mu_y sigma err2 : value)
  : value :=
  VObj SymmetricGaussianParams
    [("A", A); ("mu_x", mu_x); ("mu_y", mu_y); ("sigma", sigma);
     ("err2", err2)].

(** The object that [MLGaussianFit(...)] builds. *)
Definition mk_MLGaussianFit
  (A mu_x mu_y sigma err2 ln_lh lh_precision : value) : value :=
  VObj MLGaussianFit
    [("A", A); ("mu_x", mu_x); ("mu_y", mu_y); ("sigma", sigma);
     ("err2", err2); ("ln_lh", ln_lh); ("lh_precision", lh_precision)].

(** An [MLFitList] whose backing arrays are the given Python lists. *)
Definition mk_MLFitList (mu sigma2 ln_lh err2 times : list value) : value :=
  VObj MLFitList
    [("mu", VList mu); ("sigma2", VList sigma2); ("ln_lh", VList ln_lh);
     ("err2", VList err2); ("times", VList times)].

(** An [MLGaussianFitList] whose backing arrays are the given lists. *)
Definition mk_MLGaussianFitList
  (A mu_x mu_y sigma err2 ln_lh lh_precision times : list value) : value :=
  VObj MLGaussianFitList
    [("A", VList A); ("mu_x", VList mu_x); ("mu_y", VList mu_y);
     ("sigma", VList sigma); ("err2", VList err2); ("ln_lh", VList ln_lh);
     ("lh_precision", VList lh_precision); ("times", VList times)].

(** The value of attribute [k], [None] when the object has none. *)
Definition attr (k : string) (o : value) : value :=
  match getattr o k with
  | Ok v => v
  | Raise _ => VNone
  end.

(** The object has each of the attributes [ks]. *)
Definition has_attrs (ks : list string) (o : value) : bool :=
  forallb (fun k => is_ok (getattr o k)) ks.

(** [_append_data] over a sequence of records and times, in order. *)
Fixpoint append_all (append : value -> value -> value -> result value)
  (self : value) (dts : list (value * value)) : result value :=
  match dts with
  | [] => Ok self
  | (d, t) :: dts' =>
      self <- append self d t ;; append_all append self dts'
  end.

(** The order in which [np.argmax] looks for a maximum: the order of the
    doubles, with NaN above every other value. *)
Definition np_le (x y : float) : bool := is_nan y || (x <=? y)%float.

Definition np_lt (x y : float) : bool := negb (np_le y x).

(** An environment for the examples: the solver answers [sol x0], the rate
    service answers [rates]; the distance is zero and [np.log], [np.exp]
    are the identity. *)
Definition example_externals (sol : vec4 -> result (vec4 * Z))
  (rates : result (ndarray * list float)) : Externals :=
  {| np_log := fun v => v;
     np_exp := fun v => v;
     twisted_torus_distance :=
       fun _ others _ => map (fun _ => 0%float) (x_ others);
     leastsq := fun _ x0 => sol x0;
     slidingFiringRate := fun _ _ _ _ _ => rates |}.

(** ** The moments as numpy computes them *)

(** [np.mean(sig)]: numpy's sum of the samples over their number. *)
Definition sample_mean (sig : list float) : float :=
  (np_sum sig / float_of_nat (length sig))%float.

(** The squared deviations from that mean. *)
Definition residuals (sig : list float) : list float :=
  map (fun v => sqr (v - sample_mean sig)) sig.

(** numpy's sum of the squared deviations over the number [n] of samples. *)
Definition population_variance (sig : list float) : float :=
  (np_sum (residuals sig) / float_of_nat (length sig))%float.

(** The same sum with divisor [n - 1], which the fit does not use. *)
Definition unbiased_variance (sig : list float) : float :=
  (np_sum (residuals sig) / float_of_nat (length sig - 1))%float.

(** ** The statistics of the specification *)

(** [s] is a sum of the items of [l] in binary64 arithmetic: every item is
    used once, the additions are made in some order and some grouping, each
    of them rounded, and an empty sum is a zero.  The order and the grouping
    are left open: the outcome of every summation algorithm is such a sum. *)
Inductive is_sum_of : list float -> float -> Prop :=
| sum_of_none (z : float) : (z =? 0)%float = true -> is_sum_of [] z
| sum_of_one (x : float) : is_sum_of [x] x
| sum_of_add (l l1 l2 : list float) (s1 s2 : float) :
    is_sum_of l1 s1 -> is_sum_of l2 s2 -> Permutation l (l1 ++ l2) ->
    is_sum_of l (s1 + s2)%float.

(** [mu] is a sample mean of [sig]: a sum of the samples divided by their
    number. *)
Definition is_sample_mean (sig : list float) (mu : float) : Prop :=
  exists s, is_sum_of sig s /\ mu = (s / float_of_nat (length sig))%float.

(** The squared deviations of the samples from [mu]. *)
Definition squared_deviations (sig : list float) (mu : float) : list float :=
  map (fun v => sqr (v - mu)) sig.

(** [v] is a population variance of [sig] about [mu]: a sum of the squared
    deviations divided by the number [n] of samples (not by [n - 1]). *)
Definition is_population_variance (sig : list float) (mu v : float) : Prop :=
  exists s,
    is_sum_of (squared_deviations sig mu) s
    /\ v = (s / float_of_nat (length sig))%float.

(** ** The windows of a run *)

(** The outcomes of [body] on the indices, in order, up to the first that
    raises. *)
Fixpoint collect (body : nat -> result value) (idx : list nat)
  : result (list value) :=
  match idx with
  | [] => Ok []
  | k :: idx' => d <- body k ;; ds <- collect body idx' ;; Ok (d :: ds)
  end.

(** The fits of the first [n] windows of [F]. *)
Definition window_fits (fit_callable : value -> result value) (F : ndarray)
  (n : nat) : result (list value) :=
  collect (fun tIdx => s <- slice_last F tIdx ;; fit_callable s) (seq 0 n).

(** [np.sum] of the [err2] attribute of a record. *)
Definition err2_sum (d : value) : value :=
  match np_sum_value (attr "err2" d) with
  | Ok v => v
  | Raise _ => VNone
  end.

(** [np.isfinite]: neither NaN nor an infinity. *)
Definition is_finite (x : float) : bool := (abs x <? infinity)%float.

(** ** Records and arrays of the statements *)

(** The attributes [MLFit.__init__] sets. *)
Definition MLFit_attrs : list string := ["mu"; "sigma2"; "ln_lh"; "err2"].

(** The attributes [MLGaussianFit.__init__] sets. *)
Definition MLGaussianFit_attrs : list string :=
  ["A"; "mu_x"; "mu_y"; "sigma"; "err2"; "ln_lh"; "lh_precision"].

(** A record that [MLFitList._append_data] accepts. *)
Definition MLFit_record (d : value) : Prop :=
  isinstance d MLFit = true /\ has_attrs MLFit_attrs d = true.

(** A record that [MLGaussianFitList._append_data] accepts. *)
Definition MLGaussianFit_record (d : value) : Prop :=
  isinstance d MLGaussianFit = true /\ has_attrs MLGaussianFit_attrs d = true.

(** The backing arrays of the two lists. *)
Definition MLFitList_arrays : list string :=
  ["mu"; "sigma2"; "ln_lh"; "err2"; "times"].

Definition MLGaussianFitList_arrays : list string :=
  ["A"; "mu_x"; "mu_y"; "sigma"; "err2"; "ln_lh"; "lh_precision"; "times"].

(** A Gaussian fit record whose [err2] is an array. *)
Definition Gaussian_fit (d : value) : Prop :=
  exists A mu_x mu_y sigma e ln_lh lh_precision,
    d = mk_MLGaussianFit A mu_x mu_y sigma (VArray e) ln_lh lh_precision.

(** A uniform fit record whose [err2] is an array. *)
Definition uniform_fit_record (d : value) : Prop :=
  exists mu sigma2 e ln_lh, d = mk_MLFit mu sigma2 ln_lh (VArray e).

Section Statements.
Context {E : Externals}.

(** The residual function of a snapshot of shape [(dim_y, dim_x)]. *)
Definition residual_function (arr : ndarray) (dim_y dim_x : nat)
: vec4 -> list float :=
gaussian_diff (meshgrid_flat dim_x dim_y) (mk_Pair2D dim_x dim_y)
  (data arr).

(** The log-likelihood of the branch taken when the variance is not zero. *)
Definition ln_lh_formula (sig : list float) : float :=
(- 0.5 / np_var sig * np_sum (residuals sig)
 - 0.5 * float_of_nat (length sig) * np_log (np_var sig)
 - 0.5 * float_of_nat (length sig) * np_log (2 * np_pi)
 - 2)%float.

End Statements.

(** ** Order and magnitude of the doubles *)

Module FloatOrder.

(** A key whose lexicographic order is the order [SFcompare] decides; NaN
  is given the largest key. *)
Definition rank (f : spec_float) : Z * Z * Z :=
match f with
| S754_infinity true => (-2, 0, 0)%Z
| S754_finite true m e => (-1, - e, Z.neg m)%Z
| S754_zero _ => (0, 0, 0)%Z
| S754_finite false m e => (1, e, Z.pos m)%Z
| S754_infinity false => (2, 0, 0)%Z
| S754_nan => (3, 0, 0)%Z
end.

Definition lex3 (a b : Z * Z * Z) : comparison :=
match (fst (fst a) ?= fst (fst b))%Z with
| Eq =>
    match (snd (fst a) ?= snd (fst b))%Z with
    | Eq => (snd a ?= snd b)%Z
    | c => c
    end
| c => c
end.

Definition is_nanSF (f : spec_float) : bool :=
match f with S754_nan => true | _ => false end.

(** [x < y] and [x <= y] on the keys. *)
Definition klt (a b : Z * Z * Z) : Prop := lex3 a b = Lt.

Definition kle (a b : Z * Z * Z) : Prop := lex3 a b <> Gt.

(** The key of a double. *)
Definition key (x : float) : Z * Z * Z := rank (Prim2SF x).

End FloatOrder.

(** The value of a finite double in units of [2^-1074]. *)
Definition scaled (m : positive) (e : Z) : Z := (Z.pos m * 2 ^ (e + 1074))%Z.

(** [fm] is a zero, or a finite double no larger in magnitude than the
    finite [fb]. *)
Definition below (fm fb : spec_float) : Prop :=
  match fm with
  | S754_zero _ => True
  | S754_finite _ m e =>
      bounded prec emax m e = true
      /\ match fb with
         | S754_finite _ mb eb => (scaled m e <= scaled mb eb)%Z
         | _ => True
         end
  | _ => False
  end.

(** ** Signs *)

(** The sign bit of [f] is clear, or [f] is NaN. *)
Definition sign_clear (f : spec_float) : bool :=
  match f with
  | S754_nan => true
  | S754_zero s | S754_infinity s | S754_finite s _ _ => negb s
  end.

(** [x] is [+0], a positive double, [+inf] or NaN. *)
Definition not_negative (x : float) : bool := sign_clear (Prim2SF x).

(** ** Inputs of the examples *)

(** A record and its Gaussian counterpart. *)
Definition d0 : value :=
  mk_MLFit (VFloat 1) (VFloat 2) (VFloat 3)
    (VArray (mk_ndarray [2%nat] [4; 5]%float)).

Definition g0 : value :=
  mk_MLGaussianFit (VFloat 1) (VFloat 2) (VFloat 3) (VFloat 1)
    (VArray (mk_ndarray [2%nat] [4; 5]%float)) (VFloat 7) (VFloat 8).

(** A 2 x 3 snapshot whose largest value occurs twice. *)
Definition snapshot23 : ndarray :=
  mk_ndarray [2%nat; 3%nat] [1; 7; 2; 7; 0; 3]%float.

(** A guess on the 2 x 3 snapshot. *)
Definition guess23 : value :=
  mk_SymmetricGaussianParams (VFloat 7) (VInt 1) (VInt 0) (VFloat 0.75) VNone.

(** A solver that stops where it started and reports that the number of
    calls reached its limit ([ier = 5]). *)
Definition stalled : vec4 -> result (vec4 * Z) := fun v => Ok (v, 5%Z).

(** A solver that has converged at once on its initial guess. *)
Definition converged_at_guess : vec4 -> result (vec4 * Z) :=
  fun v => Ok (v, 1%Z).

(** The double nearest to [0.1]. *)
Definition tenth : float := 0x1.999999999999ap-4.

(** [tenth] scaled by [2^-600]. *)
Definition tiny_tenth : float := 0x1.999999999999ap-604.

(** The double nearest to [-1e-20]. *)
Definition tiny_negative : float := (-0x1.79ca10c924223p-67)%float.

(** A guess whose centre lies just left of the seam of the torus. *)
Definition guess_left_of_seam : value :=
  mk_SymmetricGaussianParams (VFloat 7) (VFloat tiny_negative) (VInt 0)
    (VFloat 0.75) VNone.

(** Two windows of a 1 x 2 sheet, [[1, 3]] and [[2, 4]]. *)
Definition rates12 : ndarray :=
  mk_ndarray [1%nat; 2%nat; 2%nat] [1; 2; 3; 4]%float.

Definition population12 : SingleBumpPopulation :=
  mk_SingleBumpPopulation [0; 1]%Z [0.5; 1]%float (2%nat, 1%nat).

Definition externals12 : Externals :=
  example_externals stalled (Ok (rates12, [0.5; 1]%float)).

(** The lists that hold the record [d0], and [g0], at the time [0.5]. *)
Definition list_of_d0 : value :=
  mk_MLFitList [VFloat 1] [VFloat 2] [VFloat 3]
    [VArray (mk_ndarray [2%nat] [4; 5]%float)] [VFloat 0.5].

Definition list_of_g0 : value :=
  mk_MLGaussianFitList [VFloat 1] [VFloat 2] [VFloat 3] [VFloat 1]
    [VArray (mk_ndarray [2%nat] [4; 5]%float)] [VFloat 7] [VFloat 8]
    [VFloat 0.5].

(** A 1 x 2 snapshot of zeros and a guess of amplitude zero on it. *)
Definition zeros12 : ndarray := mk_ndarray [1%nat; 2%nat] [0; 0]%float.

Definition flat_guess : value :=
  mk_SymmetricGaussianParams (VFloat 0) (VInt 0) (VInt 0) (VFloat 1) VNone.

(** A solver that raises. *)
Definition failing_solver : vec4 -> result (vec4 * Z) :=
  fun _ => Raise ValueError.

(** Rates with two windows and three window times. *)
Definition externals_short : Externals :=
  example_externals stalled (Ok (rates12, [0.5; 1; 1.5]%float)).

(** The rates of [externals12] with a solver that raises. *)
Definition externals_failing : Externals :=
  example_externals failing_solver (Ok (rates12, [0.5; 1]%float)).

(** A rate service that raises. *)
Definition externals_no_rates : Externals :=
  example_externals stalled (Raise ValueError).

Local Close Scope float_scope.

(** * Proofs *)

Local Open Scope string_scope.
Local Open Scope list_scope.
Local Open Scope nat_scope.

(** * Containers *)

Lemma issubclass_MLFit (c : class) :
  issubclass c MLFit = match c with MLFit | MLFitList => true | _ => false end.
Proof. destruct c; reflexivity. Qed.

Lemma issubclass_MLGaussianFit (c : class) :
  issubclass c MLGaussianFit =
  match c with MLGaussianFit | MLGaussianFitList => true | _ => false end.
Proof. destruct c; reflexivity. Qed.

Lemma new_MLFit_eq (mu sigma2 ln_lh err2 : value) :
  new_MLFit mu sigma2 ln_lh err2 = Ok (mk_MLFit mu sigma2 ln_lh err2).
Proof. reflexivity. Qed.

Lemma new_MLGaussianFit_eq (A mu_x mu_y sigma err2 ln_lh lh_precision : value) :
  new_MLGaussianFit A mu_x mu_y sigma err2 ln_lh lh_precision =
  Ok (mk_MLGaussianFit A mu_x mu_y sigma err2 ln_lh lh_precision).
Proof. reflexivity. Qed.

Lemma new_SymmetricGaussianParams_eq (A mu_x mu_y sigma err2 : value) :
  new_SymmetricGaussianParams A mu_x mu_y sigma err2 =
  Ok (mk_SymmetricGaussianParams A mu_x mu_y sigma err2).
Proof. reflexivity. Qed.

Lemma new_MLFitList_empty :
  new_MLFitList VNone VNone VNone VNone VNone = Ok (mk_MLFitList [] [] [] [] []).
Proof. reflexivity. Qed.

Lemma new_MLGaussianFitList_empty :
  new_MLGaussianFitList VNone VNone VNone VNone VNone VNone VNone VNone =
  Ok (mk_MLGaussianFitList [] [] [] [] [] [] [] []).
Proof. reflexivity. Qed.

(** A result that is neither a value nor a [TypeError]... *)
Lemma bind_Ok {A B : Type} (a : A) (k : A -> result B) :
  (x <- Ok a ;; k x) = k a.
Proof. reflexivity. Qed.

Lemma append_attr_not_TypeError (self : value) (name : string)
  (x : result value) :
  x <> Raise TypeError -> append_attr self name x <> Raise TypeError.
Proof.
  intros Hx. unfold append_attr, getattr.
  destruct self; simpl; try discriminate.
  destruct (lookup name attrs) as [l|]; simpl; [|discriminate].
  destruct x as [v|e]; simpl; [|congruence].
  destruct l; simpl; discriminate.
Qed.

Lemma getattr_not_TypeError (o : value) (k : string) :
  getattr o k <> Raise TypeError.
Proof.
  unfold getattr. destruct o; try discriminate.
  destruct (lookup k attrs); discriminate.
Qed.

Lemma bind_not_TypeError {A B : Type} (c : result A) (k : A -> result B) :
  c <> Raise TypeError -> (forall a, k a <> Raise TypeError) ->
  bind c k <> Raise TypeError.
Proof. intros Hc Hk. destruct c as [a|e]; simpl; [apply Hk | congruence]. Qed.

Lemma MLFitList__append_data_TypeError (self d t : value) :
  MLFitList__append_data self d t = Raise TypeError <->
  isinstance d MLFit = false.
Proof.
  unfold MLFitList__append_data.
  destruct (isinstance d MLFit); simpl; split; try reflexivity; try discriminate.
  intros H; exfalso; revert H.
  repeat (apply bind_not_TypeError;
          [apply append_attr_not_TypeError, getattr_not_TypeError | intros ?]).
  apply append_attr_not_TypeError. discriminate.
Qed.

Lemma MLGaussianFitList__append_data_TypeError (self d t : value) :
  MLGaussianFitList__append_data self d t = Raise TypeError <->
  isinstance d MLGaussianFit = false.
Proof.
  unfold MLGaussianFitList__append_data.
  destruct (isinstance d MLGaussianFit); simpl; split;
    try reflexivity; try discriminate.
  intros H; exfalso; revert H.
  repeat (apply bind_not_TypeError;
          [apply append_attr_not_TypeError, getattr_not_TypeError | intros ?]).
  apply append_attr_not_TypeError. discriminate.
Qed.

Lemma getattr_attr (o : value) (k : string) :
  is_ok (getattr o k) = true -> getattr o k = Ok (attr k o).
Proof. unfold attr. destruct (getattr o k); [reflexivity | discriminate]. Qed.

Ltac use_attrs H :=
  unfold has_attrs in H; simpl in H;
  repeat (apply andb_prop in H; destruct H as [?H H]);
  repeat match goal with
    | Hk : is_ok (getattr _ _) = true |- _ =>
        apply getattr_attr in Hk; rewrite ?Hk; clear Hk
    end.

Lemma MLFitList__append_data_ok (mu sigma2 ln_lh err2 times : list value)
  (d t : value) :
  isinstance d MLFit = true ->
  has_attrs MLFit_attrs d = true ->
  MLFitList__append_data (mk_MLFitList mu sigma2 ln_lh err2 times) d t =
  Ok (mk_MLFitList (mu ++ [attr "mu" d]) (sigma2 ++ [attr "sigma2" d])
        (ln_lh ++ [attr "ln_lh" d]) (err2 ++ [attr "err2" d]) (times ++ [t])).
Proof.
  intros Hi Ha.
  unfold MLFitList__append_data, append_attr. rewrite Hi.
  use_attrs Ha. reflexivity.
Qed.

Lemma MLGaussianFitList__append_data_ok
  (A mu_x mu_y sigma err2 ln_lh lh_precision times : list value)
  (d t : value) :
  isinstance d MLGaussianFit = true ->
  has_attrs MLGaussianFit_attrs d = true ->
  MLGaussianFitList__append_data
    (mk_MLGaussianFitList A mu_x mu_y sigma err2 ln_lh lh_precision times) d t =
  Ok (mk_MLGaussianFitList (A ++ [attr "A" d]) (mu_x ++ [attr "mu_x" d])
        (mu_y ++ [attr "mu_y" d]) (sigma ++ [attr "sigma" d])
        (err2 ++ [attr "err2" d]) (ln_lh ++ [attr "ln_lh" d])
        (lh_precision ++ [attr "lh_precision" d]) (times ++ [t])).
Proof.
  intros Hi Ha.
  unfold MLGaussianFitList__append_data, append_attr. rewrite Hi.
  use_attrs Ha. reflexivity.
Qed.

Lemma append_all_MLFitList (dts : list (value * value)) :
  Forall (fun dt => MLFit_record (fst dt)) dts ->
  forall mu sigma2 ln_lh err2 times,
    append_all MLFitList__append_data
      (mk_MLFitList mu sigma2 ln_lh err2 times) dts =
    Ok (mk_MLFitList
          (mu ++ map (fun dt => attr "mu" (fst dt)) dts)
          (sigma2 ++ map (fun dt => attr "sigma2" (fst dt)) dts)
          (ln_lh ++ map (fun dt => attr "ln_lh" (fst dt)) dts)
          (err2 ++ map (fun dt => attr "err2" (fst dt)) dts)
          (times ++ map snd dts)).
Proof.
  induction 1 as [|[d t] dts [Hi Ha] _ IH]; intros; simpl.
  - now rewrite !app_nil_r.
  - simpl in Hi, Ha. rewrite MLFitList__append_data_ok by assumption. simpl.
    rewrite IH. now rewrite <- !app_assoc.
Qed.

Lemma append_all_MLGaussianFitList (dts : list (value * value)) :
  Forall (fun dt => MLGaussianFit_record (fst dt)) dts ->
  forall A mu_x mu_y sigma err2 ln_lh lh_precision times,
    append_all MLGaussianFitList__append_data
      (mk_MLGaussianFitList A mu_x mu_y sigma err2 ln_lh lh_precision times)
      dts =
    Ok (mk_MLGaussianFitList
          (A ++ map (fun dt => attr "A" (fst dt)) dts)
          (mu_x ++ map (fun dt => attr "mu_x" (fst dt)) dts)
          (mu_y ++ map (fun dt => attr "mu_y" (fst dt)) dts)
          (sigma ++ map (fun dt => attr "sigma" (fst dt)) dts)
          (err2 ++ map (fun dt => attr "err2" (fst dt)) dts)
          (ln_lh ++ map (fun dt => attr "ln_lh" (fst dt)) dts)
          (lh_precision ++ map (fun dt => attr "lh_precision" (fst dt)) dts)
          (times ++ map snd dts)).
Proof.
  induction 1 as [|[d t] dts [Hi Ha] _ IH]; intros; simpl.
  - now rewrite !app_nil_r.
  - simpl in Hi, Ha. rewrite MLGaussianFitList__append_data_ok by assumption.
    simpl. rewrite IH. now rewrite <- !app_assoc.
Qed.

Lemma list_item_map {A B : Type} (f : A -> B) (l : list A) (k : nat) (d : A) :
  k < length l ->
  list_item (map f l) (Z.of_nat k) = Ok (f (nth k l d)).
Proof.
  intros Hk. unfold list_item, norm_index. rewrite length_map.
  replace (0 <=? Z.of_nat k)%Z with true by (symmetry; apply Z.leb_le; lia).
  replace (Z.of_nat k <? Z.of_nat (length l))%Z with true
    by (symmetry; apply Z.ltb_lt; lia).
  simpl. rewrite Nat2Z.id, nth_error_map.
  rewrite (nth_error_nth' l d Hk). reflexivity.
Qed.

Lemma MLFitList_after_appends (dts : list (value * value)) (k : nat) :
  Forall (fun dt => MLFit_record (fst dt)) dts ->
  k < length dts ->
  exists lst,
    append_all MLFitList__append_data (mk_MLFitList [] [] [] [] []) dts = Ok lst
    /\ Forall (fun name => py_len (attr name lst) = Ok (length dts))
         MLFitList_arrays
    /\ MLFitList___getitem__ lst (VInt (Z.of_nat k)) =
       Ok (VTuple
             [mk_MLFit (attr "mu" (fst (nth k dts (VNone, VNone))))
                (attr "sigma2" (fst (nth k dts (VNone, VNone))))
                (attr "ln_lh" (fst (nth k dts (VNone, VNone))))
                (VList (map (fun dt => attr "err2" (fst dt)) dts));
              VList (map snd dts)]).
Proof.
  intros Hd Hk. eexists. split; [apply append_all_MLFitList, Hd|]. split.
  - repeat constructor; cbn; now rewrite length_map.
  - unfold MLFitList___getitem__. cbn [app getattr mk_MLFitList lookup String.eqb
      Ascii.eqb Bool.eqb bind py_index].
    rewrite !(list_item_map _ dts k (VNone, VNone) Hk). reflexivity.
Qed.

Lemma MLGaussianFitList_after_appends (dts : list (value * value)) (k : nat) :
  Forall (fun dt => MLGaussianFit_record (fst dt)) dts ->
  k < length dts ->
  exists lst,
    append_all MLGaussianFitList__append_data
      (mk_MLGaussianFitList [] [] [] [] [] [] [] []) dts = Ok lst
    /\ Forall (fun name => py_len (attr name lst) = Ok (length dts))
         MLGaussianFitList_arrays
    /\ MLGaussianFitList___getitem__ lst (VInt (Z.of_nat k)) =
       Raise AttributeError.
Proof.
  intros Hd Hk. eexists. split; [apply append_all_MLGaussianFitList, Hd|]. split.
  - repeat constructor; cbn; now rewrite length_map.
  - unfold MLGaussianFitList___getitem__.
    cbn [app getattr mk_MLGaussianFitList lookup String.eqb
      Ascii.eqb Bool.eqb bind py_index].
    rewrite !(list_item_map _ dts k (VNone, VNone) Hk). reflexivity.
Qed.

(** C1 (the code departs from the claim).  After [n] accepted appends to a
    list created empty every backing array, [times] included, has length [n].
    Indexing at [k < n] does not give back the [k]-th record with its
    timestamp: [MLFitList.__getitem__] answers with the [k]-th [mu], [sigma2]
    and [ln_lh] but with the whole [err2] list and the whole [times] list,
    and [MLGaussianFitList.__getitem__] raises [AttributeError] on
    [self._times]. *)
Theorem getitem_after_appends :
  (forall dts k,
      Forall (fun dt => MLFit_record (fst dt)) dts ->
      k < length dts ->
      exists lst,
        append_all MLFitList__append_data (mk_MLFitList [] [] [] [] []) dts
        = Ok lst
        /\ Forall (fun name => py_len (attr name lst) = Ok (length dts))
             MLFitList_arrays
        /\ MLFitList___getitem__ lst (VInt (Z.of_nat k)) =
           Ok (VTuple
                 [mk_MLFit (attr "mu" (fst (nth k dts (VNone, VNone))))
                    (attr "sigma2" (fst (nth k dts (VNone, VNone))))
                    (attr "ln_lh" (fst (nth k dts (VNone, VNone))))
                    (VList (map (fun dt => attr "err2" (fst dt)) dts));
                  VList (map snd dts)]))
  /\ (forall dts k,
         Forall (fun dt => MLGaussianFit_record (fst dt)) dts ->
         k < length dts ->
         exists lst,
           append_all MLGaussianFitList__append_data
             (mk_MLGaussianFitList [] [] [] [] [] [] [] []) dts = Ok lst
           /\ Forall (fun name => py_len (attr name lst) = Ok (length dts))
                MLGaussianFitList_arrays
           /\ MLGaussianFitList___getitem__ lst (VInt (Z.of_nat k)) =
              Raise AttributeError).
Proof.
  split; intros dts k Hd Hk.
  - now apply MLFitList_after_appends.
  - now apply MLGaussianFitList_after_appends.
Qed.

Lemma getitem_after_appends_witness :
  exists lst,
    append_all MLFitList__append_data (mk_MLFitList [] [] [] [] [])
      [(d0, VFloat 0.5)] = Ok lst
    /\ Forall (fun name => py_len (attr name lst) = Ok 1) MLFitList_arrays
    /\ MLFitList___getitem__ lst (VInt 0) =
       Ok (VTuple
             [mk_MLFit (VFloat 1) (VFloat 2) (VFloat 3)
                (VList [VArray (mk_ndarray [2] [4%float; 5%float])]);
              VList [VFloat 0.5]]).
Proof.
  apply (proj1 getitem_after_appends [(d0, VFloat 0.5)] 0).
  - repeat constructor.
  - simpl. apply Nat.lt_0_succ.
Defined.

(** What the claim expects at that input, and what the code returns. *)
Example getitem_failing_input :
  (lst <- new_MLFitList VNone VNone VNone VNone VNone ;;
   lst <- MLFitList__append_data lst d0 (VFloat 0.5) ;;
   MLFitList___getitem__ lst (VInt 0))
  <> Ok (VTuple [d0; VFloat 0.5])
  /\ (lst <- new_MLGaussianFitList VNone VNone VNone VNone VNone VNone VNone
              VNone ;;
      lst <- MLGaussianFitList__append_data lst g0 (VFloat 0.5) ;;
      MLGaussianFitList___getitem__ lst (VInt 0))
     = Raise AttributeError.
Proof. split; [discriminate | reflexivity]. Qed.

(** ** Construction and length *)

Lemma same_len_obj (c : class) (d : list (string * value)) (a b : string)
  (x y : value) (n m : nat) :
  lookup a d = Some x -> lookup b d = Some y ->
  py_len x = Ok n -> py_len y = Ok m ->
  same_len (VObj c d) a b = Ok (n =? m).
Proof.
  intros Ha Hb Hx Hy. unfold same_len, getattr.
  rewrite Ha. simpl. rewrite Hx. simpl. rewrite Hb. simpl. rewrite Hy.
  reflexivity.
Qed.

(** Construction from components that have a length: it succeeds when the
    lengths agree and raises [ValueError] otherwise. *)
Lemma new_MLFitList_spec (mu sigma2 ln_lh err2 times : value)
  (n1 n2 n3 n4 n5 : nat) :
  py_len (default_list mu) = Ok n1 ->
  py_len (default_list sigma2) = Ok n2 ->
  py_len (default_list ln_lh) = Ok n3 ->
  py_len (default_list err2) = Ok n4 ->
  py_len (default_list times) = Ok n5 ->
  new_MLFitList mu sigma2 ln_lh err2 times =
  if (n1 =? n2) && (n1 =? n3) && (n1 =? n4) && (n1 =? n5)
  then Ok (VObj MLFitList
             [("mu", default_list mu); ("sigma2", default_list sigma2);
              ("ln_lh", default_list ln_lh); ("err2", default_list err2);
              ("times", default_list times)])
  else Raise ValueError.
Proof.
  intros H1 H2 H3 H4 H5.
  unfold new_MLFitList, MLFitList___init__, MLFit___init__. simpl.
  unfold MLFitList__consistent.
  rewrite (same_len_obj _ _ "mu" "sigma2" _ _ n1 n2) by (reflexivity || assumption).
  rewrite (same_len_obj _ _ "mu" "ln_lh" _ _ n1 n3) by (reflexivity || assumption).
  rewrite (same_len_obj _ _ "mu" "err2" _ _ n1 n4) by (reflexivity || assumption).
  rewrite (same_len_obj _ _ "mu" "times" _ _ n1 n5) by (reflexivity || assumption).
  unfold and_then. simpl.
  destruct (n1 =? n2), (n1 =? n3), (n1 =? n4), (n1 =? n5); reflexivity.
Qed.

Lemma new_MLGaussianFitList_spec
  (A mu_x mu_y sigma err2 ln_lh lh_precision times : value)
  (n1 n2 n3 n4 n5 n6 n7 n8 : nat) :
  py_len (default_list A) = Ok n1 ->
  py_len (default_list mu_x) = Ok n2 ->
  py_len (default_list mu_y) = Ok n3 ->
  py_len (default_list sigma) = Ok n4 ->
  py_len (default_list err2) = Ok n5 ->
  py_len (default_list ln_lh) = Ok n6 ->
  py_len (default_list lh_precision) = Ok n7 ->
  py_len (default_list times) = Ok n8 ->
  new_MLGaussianFitList A mu_x mu_y sigma err2 ln_lh lh_precision times =
  if (n1 =? n2) && (n1 =? n3) && (n1 =? n4) && (n1 =? n5) && (n1 =? n6)
     && (n1 =? n7) && (n1 =? n8)
  then Ok (VObj MLGaussianFitList
             [("A", default_list A); ("mu_x", default_list mu_x);
              ("mu_y", default_list mu_y); ("sigma", default_list sigma);
              ("err2", default_list err2); ("ln_lh", default_list ln_lh);
              ("lh_precision", default_list lh_precision);
              ("times", default_list times)])
  else Raise ValueError.
Proof.
  intros H1 H2 H3 H4 H5 H6 H7 H8.
  unfold new_MLGaussianFitList, MLGaussianFitList___init__,
    MLGaussianFit___init__, SymmetricGaussianParams___init__. simpl.
  unfold MLGaussianFitList__consistent.
  rewrite (same_len_obj _ _ "A" "mu_x" _ _ n1 n2) by (reflexivity || assumption).
  rewrite (same_len_obj _ _ "A" "mu_y" _ _ n1 n3) by (reflexivity || assumption).
  rewrite (same_len_obj _ _ "A" "sigma" _ _ n1 n4) by (reflexivity || assumption).
  rewrite (same_len_obj _ _ "A" "err2" _ _ n1 n5) by (reflexivity || assumption).
  rewrite (same_len_obj _ _ "A" "ln_lh" _ _ n1 n6) by (reflexivity || assumption).
  rewrite (same_len_obj _ _ "A" "lh_precision" _ _ n1 n7)
    by (reflexivity || assumption).
  rewrite (same_len_obj _ _ "A" "times" _ _ n1 n8) by (reflexivity || assumption).
  unfold and_then. simpl.
  destruct (n1 =? n2), (n1 =? n3), (n1 =? n4), (n1 =? n5), (n1 =? n6),
    (n1 =? n7), (n1 =? n8); reflexivity.
Qed.

(** [len] of an [MLGaussianFitList] is [len(self.A)]. *)
Lemma py_len_MLGaussianFitList (d : list (string * value)) :
  py_len (VObj MLGaussianFitList d) =
  MLGaussianFitList___len__ (VObj MLGaussianFitList d).
Proof.
  unfold MLGaussianFitList___len__, getattr.
  induction d as [|[k x] d IH]; [reflexivity|].
  change (py_len (VObj MLGaussianFitList ((k, x) :: d)))
    with (if String.eqb "A" k then py_len x
          else py_len (VObj MLGaussianFitList d)).
  change (lookup "A" ((k, x) :: d))
    with (if String.eqb "A" k then Some x else lookup "A" d).
  destruct (String.eqb "A" k); [reflexivity | exact IH].
Qed.

Lemma new_MLGaussianFitList_len
  (A mu_x mu_y sigma err2 ln_lh lh_precision times self : value) (n : nat) :
  py_len (default_list A) = Ok n ->
  new_MLGaussianFitList A mu_x mu_y sigma err2 ln_lh lh_precision times
  = Ok self ->
  py_len self = Ok n.
Proof.
  intros HA. unfold new_MLGaussianFitList, MLGaussianFitList___init__,
    MLGaussianFit___init__, SymmetricGaussianParams___init__. simpl.
  destruct (MLGaussianFitList__consistent _) as [[|]|]; simpl; try discriminate.
  intros [= <-]. exact HA.
Qed.

Lemma new_MLFitList_class (mu sigma2 ln_lh err2 times self : value) :
  new_MLFitList mu sigma2 ln_lh err2 times = Ok self ->
  exists d, self = VObj MLFitList d.
Proof.
  unfold new_MLFitList, MLFitList___init__, MLFit___init__. simpl.
  destruct (MLFitList__consistent _) as [[|]|]; simpl; try discriminate.
  intros [= <-]. eexists. reflexivity.
Qed.

(** C2 (the code departs from the claim).  Whatever components an
    [MLFitList] was built from, asking for its length does not return their
    common length: [__len__] evaluates [len.self.mu] and raises
    [AttributeError]. *)
Theorem MLFitList_len_raises (mu sigma2 ln_lh err2 times self : value) :
  new_MLFitList mu sigma2 ln_lh err2 times = Ok self ->
  py_len self = Raise AttributeError.
Proof.
  intros H. apply new_MLFitList_class in H. destruct H as [d ->]. reflexivity.
Qed.

Lemma MLFitList_len_raises_witness :
  new_MLFitList (VList [VFloat 1]) (VList [VFloat 2]) (VList [VFloat 3])
    (VList [VFloat 4]) (VList [VFloat 5])
  = Ok (mk_MLFitList [VFloat 1] [VFloat 2] [VFloat 3] [VFloat 4] [VFloat 5])
  /\ py_len
       (mk_MLFitList [VFloat 1] [VFloat 2] [VFloat 3] [VFloat 4] [VFloat 5])
     = Raise AttributeError.
Proof.
  split; [reflexivity|].
  apply (MLFitList_len_raises (VList [VFloat 1]) (VList [VFloat 2])
           (VList [VFloat 3]) (VList [VFloat 4]) (VList [VFloat 5])).
  reflexivity.
Defined.

(** C10.  [_append_data] raises [TypeError] exactly when the record is not an
    instance of [MLFit] (of [MLGaussianFit] for the Gaussian list).  An
    instance of the class or of a subclass that carries the attributes of the
    record is appended; a list container, being such an instance, is
    accepted too and its backing lists become the appended items. *)
Theorem append_data_type_check :
  (forall self d t,
      MLFitList__append_data self d t = Raise TypeError
      <-> isinstance d MLFit = false)
  /\ (forall self d t,
         MLGaussianFitList__append_data self d t = Raise TypeError
         <-> isinstance d MLGaussianFit = false)
  /\ (forall mu sigma2 ln_lh err2 times d t,
         isinstance d MLFit = true ->
         has_attrs MLFit_attrs d = true ->
         MLFitList__append_data (mk_MLFitList mu sigma2 ln_lh err2 times) d t
         = Ok (mk_MLFitList (mu ++ [attr "mu" d])
                 (sigma2 ++ [attr "sigma2" d]) (ln_lh ++ [attr "ln_lh" d])
                 (err2 ++ [attr "err2" d]) (times ++ [t])))
  /\ (forall A mu_x mu_y sigma err2 ln_lh lh_precision times d t,
         isinstance d MLGaussianFit = true ->
         has_attrs MLGaussianFit_attrs d = true ->
         MLGaussianFitList__append_data
           (mk_MLGaussianFitList A mu_x mu_y sigma err2 ln_lh lh_precision
              times) d t
         = Ok (mk_MLGaussianFitList (A ++ [attr "A" d])
                 (mu_x ++ [attr "mu_x" d]) (mu_y ++ [attr "mu_y" d])
                 (sigma ++ [attr "sigma" d]) (err2 ++ [attr "err2" d])
                 (ln_lh ++ [attr "ln_lh" d])
                 (lh_precision ++ [attr "lh_precision" d]) (times ++ [t])))
  /\ (forall mu sigma2 ln_lh err2 times,
         isinstance (mk_MLFitList mu sigma2 ln_lh err2 times) MLFit = true
         /\ has_attrs MLFit_attrs (mk_MLFitList mu sigma2 ln_lh err2 times)
            = true)
  /\ (forall A mu_x mu_y sigma err2 ln_lh lh_precision times,
         isinstance
           (mk_MLGaussianFitList A mu_x mu_y sigma err2 ln_lh lh_precision
              times) MLGaussianFit = true
         /\ has_attrs MLGaussianFit_attrs
              (mk_MLGaussianFitList A mu_x mu_y sigma err2 ln_lh lh_precision
                 times) = true).
Proof.
  split; [exact MLFitList__append_data_TypeError|].
  split; [exact MLGaussianFitList__append_data_TypeError|].
  split; [exact MLFitList__append_data_ok|].
  split; [exact MLGaussianFitList__append_data_ok|].
  split; intros; split; reflexivity.
Qed.

(** A list container appended to a list container. *)
Lemma append_data_type_check_witness :
  MLFitList__append_data (mk_MLFitList [] [] [] [] [])
    (mk_MLFitList [VFloat 1] [VFloat 2] [VFloat 3] [VFloat 4] [VFloat 5])
    (VFloat 0.5)
  = Ok (mk_MLFitList [VList [VFloat 1]] [VList [VFloat 2]] [VList [VFloat 3]]
          [VList [VFloat 4]] [VFloat 0.5]).
Proof.
  apply (proj1 (proj2 (proj2 append_data_type_check)) [] [] [] [] []
           (mk_MLFitList [VFloat 1] [VFloat 2] [VFloat 3] [VFloat 4]
              [VFloat 5]) (VFloat 0.5)).
  - reflexivity.
  - reflexivity.
Defined.

(** * Order of the doubles *)

Module FloatOrderFacts.
Import FloatOrder.

Lemma SFcompare_rank (f g : spec_float) :
  is_nanSF f = false -> is_nanSF g = false ->
  SFcompare f g = Some (lex3 (rank f) (rank g)).
Proof.
  destruct f as [[|]|[|]| |[|] m1 e1], g as [[|]|[|]| |[|] m2 e2];
    simpl; intros; try discriminate; try reflexivity;
    unfold lex3; simpl.
  rewrite Z.compare_opp, (Z.compare_antisym e1 e2).
  destruct (e1 ?= e2)%Z; reflexivity.
Qed.

Lemma lex3_Lt (a b : Z * Z * Z) :
  lex3 a b = Lt <->
  (fst (fst a) < fst (fst b)
   \/ fst (fst a) = fst (fst b)
      /\ (snd (fst a) < snd (fst b)
          \/ snd (fst a) = snd (fst b) /\ snd a < snd b))%Z.
Proof.
  unfold lex3.
  destruct (Z.compare_spec (fst (fst a)) (fst (fst b)));
    destruct (Z.compare_spec (snd (fst a)) (snd (fst b)));
    destruct (Z.compare_spec (snd a) (snd b));
    split; intros; try discriminate; try reflexivity; lia.
Qed.

Lemma lex3_Eq (a b : Z * Z * Z) : lex3 a b = Eq <-> a = b.
Proof.
  unfold lex3. destruct a as [[a1 a2] a3], b as [[b1 b2] b3]. simpl.
  destruct (Z.compare_spec a1 b1); destruct (Z.compare_spec a2 b2);
    destruct (Z.compare_spec a3 b3);
    split; intros H'; try discriminate; try reflexivity;
    try (injection H'; intros; lia); subst; reflexivity.
Qed.

Lemma lex3_Gt (a b : Z * Z * Z) : lex3 a b = Gt <-> lex3 b a = Lt.
Proof.
  unfold lex3.
  rewrite (Z.compare_antisym (fst (fst a)) (fst (fst b))),
    (Z.compare_antisym (snd (fst a)) (snd (fst b))),
    (Z.compare_antisym (snd a) (snd b)).
  destruct (fst (fst a) ?= fst (fst b))%Z; simpl;
    destruct (snd (fst a) ?= snd (fst b))%Z; simpl;
    destruct (snd a ?= snd b)%Z; simpl; split; congruence.
Qed.

Lemma kle_cases (a b : Z * Z * Z) : kle a b <-> klt a b \/ a = b.
Proof.
  unfold kle, klt. rewrite <- lex3_Eq.
  destruct (lex3 a b); split; intros; try tauto; try congruence.
  - destruct H; discriminate.
Qed.

Lemma klt_trans (a b c : Z * Z * Z) : klt a b -> klt b c -> klt a c.
Proof. unfold klt. rewrite !lex3_Lt. lia. Qed.

Lemma klt_irrefl (a : Z * Z * Z) : ~ klt a a.
Proof. unfold klt. rewrite lex3_Lt. lia. Qed.

Lemma kle_trans (a b c : Z * Z * Z) : kle a b -> kle b c -> kle a c.
Proof.
  rewrite !kle_cases. intros [H1| ->] [H2| ->]; auto.
  left. eapply klt_trans; eauto.
Qed.

Lemma kle_klt_trans (a b c : Z * Z * Z) : kle a b -> klt b c -> klt a c.
Proof. rewrite kle_cases. intros [H1| ->] H2; auto. eapply klt_trans; eauto. Qed.

Lemma klt_kle_trans (a b c : Z * Z * Z) : klt a b -> kle b c -> klt a c.
Proof. rewrite kle_cases. intros H1 [H2| <-]; auto. eapply klt_trans; eauto. Qed.

Lemma not_kle (a b : Z * Z * Z) : ~ kle a b <-> klt b a.
Proof.
  unfold kle, klt. rewrite <- lex3_Gt.
  destruct (lex3 a b); split; intros; try congruence; try tauto.
  - exfalso; apply H; discriminate.
  - exfalso; apply H; discriminate.
Qed.

Lemma klt_kle (a b : Z * Z * Z) : klt a b -> kle a b.
Proof. rewrite kle_cases. auto. Qed.

Lemma kle_refl (a : Z * Z * Z) : kle a a.
Proof. rewrite kle_cases. auto. Qed.

Lemma is_nan_spec (x : float) : is_nan x = is_nanSF (Prim2SF x).
Proof.
  unfold is_nan. rewrite FloatAxioms.eqb_spec. unfold SFeqb.
  destruct (is_nanSF (Prim2SF x)) eqn:Hn.
  - destruct (Prim2SF x); try discriminate. reflexivity.
  - rewrite SFcompare_rank by assumption.
    replace (lex3 _ _) with Eq by (symmetry; now apply lex3_Eq).
    reflexivity.
Qed.

Lemma SFcompare_nan_l (f g : spec_float) :
  is_nanSF f = true -> SFcompare f g = None.
Proof. destruct f; try discriminate. reflexivity. Qed.

Lemma SFcompare_nan_r (f g : spec_float) :
  is_nanSF g = true -> SFcompare f g = None.
Proof. destruct g; try discriminate. destruct f; reflexivity. Qed.

Lemma leb_true (x y : float) :
  (x <=? y)%float = true <->
  is_nan x = false /\ is_nan y = false /\ kle (key x) (key y).
Proof.
  rewrite FloatAxioms.leb_spec, !is_nan_spec. unfold SFleb, kle, key.
  destruct (is_nanSF (Prim2SF x)) eqn:Hx.
  { rewrite SFcompare_nan_l by assumption. split; [discriminate|].
    intros [? _]; discriminate. }
  destruct (is_nanSF (Prim2SF y)) eqn:Hy.
  { rewrite SFcompare_nan_r by assumption. split; [discriminate|].
    intros [_ [? _]]; discriminate. }
  rewrite SFcompare_rank by assumption.
  destruct (lex3 _ _); intuition congruence.
Qed.

Lemma ltb_true (x y : float) :
  (x <? y)%float = true <->
  is_nan x = false /\ is_nan y = false /\ klt (key x) (key y).
Proof.
  rewrite FloatAxioms.ltb_spec, !is_nan_spec. unfold SFltb, klt, key.
  destruct (is_nanSF (Prim2SF x)) eqn:Hx.
  { rewrite SFcompare_nan_l by assumption. split; [discriminate|].
    intros [? _]; discriminate. }
  destruct (is_nanSF (Prim2SF y)) eqn:Hy.
  { rewrite SFcompare_nan_r by assumption. split; [discriminate|].
    intros [_ [? _]]; discriminate. }
  rewrite SFcompare_rank by assumption.
  destruct (lex3 _ _); intuition congruence.
Qed.

Lemma eqb_true (x y : float) :
  (x =? y)%float = true <->
  is_nan x = false /\ is_nan y = false /\ key x = key y.
Proof.
  rewrite FloatAxioms.eqb_spec, !is_nan_spec. unfold SFeqb, key.
  destruct (is_nanSF (Prim2SF x)) eqn:Hx.
  { rewrite SFcompare_nan_l by assumption. split; [discriminate|].
    intros [? _]; discriminate. }
  destruct (is_nanSF (Prim2SF y)) eqn:Hy.
  { rewrite SFcompare_nan_r by assumption. split; [discriminate|].
    intros [_ [? _]]; discriminate. }
  rewrite SFcompare_rank by assumption. rewrite <- lex3_Eq.
  destruct (lex3 _ _); intuition congruence.
Qed.

(** Among doubles that are not NaN, [not (x <= y)] is [y < x]. *)
Lemma leb_false (x y : float) :
  is_nan x = false -> is_nan y = false ->
  (x <=? y)%float = false -> (y <? x)%float = true.
Proof.
  intros Hx Hy H. apply ltb_true. repeat split; try assumption.
  apply not_kle. intros Hk.
  assert ((x <=? y)%float = true) by (apply leb_true; auto).
  congruence.
Qed.

(** A NaN on either side makes [x <= y] false. *)
Lemma leb_nan_l (x y : float) : is_nan x = true -> (x <=? y)%float = false.
Proof.
  intros H. destruct (x <=? y)%float eqn:E; [|reflexivity].
  apply leb_true in E. destruct E as [E _]. congruence.
Qed.

Lemma leb_nan_r (x y : float) : is_nan y = true -> (x <=? y)%float = false.
Proof.
  intros H. destruct (x <=? y)%float eqn:E; [|reflexivity].
  apply leb_true in E. destruct E as [_ [E _]]. congruence.
Qed.

End FloatOrderFacts.

Import FloatOrder FloatOrderFacts.

(** * The initial guess of [fit_gaussian_bump_tt] *)

Lemma key_nan (x : float) : is_nan x = true -> key x = (3, 0, 0)%Z.
Proof.
  rewrite is_nan_spec. unfold key. destruct (Prim2SF x); try discriminate.
  reflexivity.
Qed.

Lemma key_top (x : float) : kle (key x) (3, 0, 0)%Z.
Proof.
  unfold key, kle. rewrite lex3_Gt, lex3_Lt.
  destruct (Prim2SF x) as [s|[|]| |[|] m e]; simpl; lia.
Qed.

Lemma key_below_top (x : float) :
  is_nan x = false -> klt (key x) (3, 0, 0)%Z.
Proof.
  rewrite is_nan_spec. unfold key, klt. rewrite lex3_Lt.
  destruct (Prim2SF x) as [s|[|]| |[|] m e]; simpl; intros; try discriminate;
    lia.
Qed.

Lemma np_le_true (x y : float) : np_le x y = true <-> kle (key x) (key y).
Proof.
  unfold np_le. destruct (is_nan y) eqn:Hy; simpl.
  - rewrite (key_nan y Hy). split; [intros _; apply key_top | reflexivity].
  - rewrite leb_true. split.
    + intros [_ [_ H]]; exact H.
    + intros H. repeat split; try assumption.
      destruct (is_nan x) eqn:Hx; [|reflexivity].
      exfalso. rewrite (key_nan x Hx) in H.
      apply (klt_irrefl (key y)).
      eapply klt_kle_trans; [apply key_below_top, Hy | exact H].
Qed.

Lemma np_lt_true (x y : float) : np_lt x y = true <-> klt (key x) (key y).
Proof.
  unfold np_lt. rewrite negb_true_iff, <- not_true_iff_false, np_le_true.
  apply not_kle.
Qed.

(** Without NaN the order is the order of the doubles. *)
Lemma np_le_leb (x y : float) :
  is_nan x = false -> is_nan y = false -> np_le x y = (x <=? y)%float.
Proof. intros _ Hy. unfold np_le. now rewrite Hy. Qed.

Lemma np_lt_ltb (x y : float) :
  is_nan x = false -> is_nan y = false -> np_lt x y = (x <? y)%float.
Proof.
  intros Hx Hy. apply eq_true_iff_eq. rewrite np_lt_true, ltb_true. tauto.
Qed.

Lemma argmax_from_spec (l : list float) :
  forall (mp : float) (best i : nat),
    best < i ->
    let k := argmax_from mp best i l in
    let val := fun j => if j =? best then mp else nth (j - i) l nan in
    (k = best \/ i <= k < i + length l)
    /\ kle (key mp) (key (val k))
    /\ (k <> best -> klt (key mp) (key (val k)))
    /\ (forall j, j < length l -> kle (key (nth j l nan)) (key (val k)))
    /\ (forall j, i + j < k -> klt (key (nth j l nan)) (key (val k))).
Proof.
  induction l as [|x r IH]; intros mp best i Hb; cbn zeta.
  - simpl. rewrite Nat.eqb_refl. repeat split.
    + now left.
    + apply kle_refl.
    + congruence.
    + intros j Hj. inversion Hj.
    + intros j Hj. lia.
  - cbn [argmax_from]. destruct (is_nan mp) eqn:Hm.
    { rewrite Nat.eqb_refl. rewrite (key_nan mp Hm). repeat split.
      - now left.
      - apply kle_refl.
      - congruence.
      - intros. apply key_top.
      - intros j Hj. lia. }
    destruct (x <=? mp)%float eqn:Hx; cbn [negb].
    + (* the maximum is kept *)
      assert (Hxm : kle (key x) (key mp)) by (apply leb_true in Hx; tauto).
      specialize (IH mp best (S i) (Nat.lt_lt_succ_r _ _ Hb)). cbn zeta in IH.
      set (k := argmax_from mp best (S i) r) in *.
      destruct IH as (Hk & Hge & Hgt & Hall & Hbefore).
      assert (Hval : (if k =? best then mp else nth (k - i) (x :: r) nan)
                     = (if k =? best then mp else nth (k - S i) r nan)).
      { destruct (Nat.eqb_spec k best); [reflexivity|].
        destruct Hk as [?|Hk]; [contradiction|].
        replace (k - i) with (S (k - S i)) by lia. reflexivity. }
      rewrite Hval. repeat split.
      * destruct Hk; [now left | right; simpl; lia].
      * exact Hge.
      * exact Hgt.
      * intros [|j] Hj; simpl.
        -- eapply kle_trans; eauto.
        -- apply Hall. simpl in Hj. lia.
      * intros [|j] Hj; simpl.
        -- eapply kle_klt_trans; [exact Hxm|]. apply Hgt. lia.
        -- apply Hbefore. lia.
    + (* a larger value, or a NaN, replaces the maximum *)
      assert (Hmx : klt (key mp) (key x)).
      { apply np_lt_true. unfold np_lt, np_le. now rewrite Hm, Hx. }
      specialize (IH x i (S i) (Nat.lt_succ_diag_r i)). cbn zeta in IH.
      set (k := argmax_from x i (S i) r) in *.
      destruct IH as (Hk & Hge & Hgt & Hall & Hbefore).
      assert (Hkb : k <> best) by lia.
      assert (Hval : (if k =? best then mp else nth (k - i) (x :: r) nan)
                     = (if k =? i then x else nth (k - S i) r nan)).
      { destruct (Nat.eqb_spec k best); [contradiction|].
        destruct (Nat.eqb_spec k i) as [->|Hki].
        - now rewrite Nat.sub_diag.
        - replace (k - i) with (S (k - S i)) by lia. reflexivity. }
      rewrite Hval. repeat split.
      * right. simpl. lia.
      * apply klt_kle. eapply klt_kle_trans; eauto.
      * intros _. eapply klt_kle_trans; eauto.
      * intros [|j] Hj; simpl.
        -- exact Hge.
        -- apply Hall. simpl in Hj. lia.
      * intros [|j] Hj; simpl.
        -- apply Hgt. lia.
        -- apply Hbefore. lia.
Qed.

(** [np.argmax] returns the first position of a maximum. *)
Lemma np_argmax_spec (l : list float) :
  l <> [] ->
  exists k,
    np_argmax l = Ok k
    /\ k < length l
    /\ (forall j, j < length l -> np_le (nth j l nan) (nth k l nan) = true)
    /\ (forall j, j < k -> np_lt (nth j l nan) (nth k l nan) = true).
Proof.
  destruct l as [|v l]; [congruence|]. intros _.
  exists (argmax_from v 0 1 l). split; [reflexivity|].
  destruct (argmax_from_spec l v 0 1 Nat.lt_0_1) as (Hk & Hge & Hgt & Hall & Hbefore).
  cbn zeta in *. set (k := argmax_from v 0 1 l) in *.
  assert (Hval : (if k =? 0 then v else nth (k - 1) l nan) = nth k (v :: l) nan).
  { destruct k as [|k]; simpl; [reflexivity|]. now rewrite Nat.sub_0_r. }
  rewrite Hval in *. repeat split.
  - simpl. destruct Hk; lia.
  - intros [|j] Hj; apply np_le_true; simpl.
    + exact Hge.
    + apply Hall. simpl in Hj. lia.
  - intros [|j] Hj; apply np_lt_true; simpl.
    + apply Hgt. lia.
    + apply Hbefore. lia.
Qed.

Section InitialGuess.
Context {E : Externals}.

(** C8.  On a non-empty two-dimensional snapshot [fit_gaussian_bump_tt]
    calls [fit_gaussian_tt] with the guess [(a0, mu0_x, mu0_y, sigma0,
    None)] where [mu0_y * width + mu0_x] is the position [np.argmax]
    finds in the flattened snapshot (row-major), that is the first
    position of the largest value, [a0] is the value there and
    [sigma0 = max(height, width) / 4]. *)
Theorem fit_gaussian_bump_tt_initial_guess
  (arr : ndarray) (dim_y dim_x : nat) :
  shape arr = [dim_y; dim_x] ->
  length (data arr) = dim_y * dim_x ->
  data arr <> [] ->
  exists (mu0_x mu0_y : nat) (a0 : float),
    mu0_x < dim_x /\ mu0_y < dim_y
    /\ np_argmax (data arr) = Ok (mu0_y * dim_x + mu0_x)
    /\ array_item2 arr mu0_y mu0_x = Ok a0
    /\ (forall j, j < length (data arr) ->
                  np_le (nth j (data arr) nan) a0 = true)
    /\ (forall j, j < mu0_y * dim_x + mu0_x ->
                  np_lt (nth j (data arr) nan) a0 = true)
    /\ (Forall (fun v => is_nan v = false) (data arr) ->
        (forall j, j < length (data arr) ->
                   (nth j (data arr) nan <=? a0)%float = true)
        /\ (forall j, j < mu0_y * dim_x + mu0_x ->
                      (nth j (data arr) nan <? a0)%float = true))
    /\ fit_gaussian_bump_tt (VArray arr) =
       fit_gaussian_tt (VArray arr)
         (mk_SymmetricGaussianParams (VFloat a0) (VInt (Z.of_nat mu0_x))
            (VInt (Z.of_nat mu0_y))
            (VFloat (float_of_nat (Nat.max dim_y dim_x) / 4)) VNone).
Proof.
  intros Hs Hl Hne.
  destruct (np_argmax_spec (data arr) Hne) as (k & Hk & Hlt & Hmax & Hfirst).
  assert (Hx : dim_x <> 0) by (intros ->; lia).
  assert (Hkk : k / dim_x * dim_x + k mod dim_x = k).
  { rewrite (Nat.div_mod_eq k dim_x) at 3. lia. }
  assert (Hmx : k mod dim_x < dim_x) by (apply Nat.mod_upper_bound, Hx).
  assert (Hmy : k / dim_x < dim_y).
  { apply Nat.Div0.div_lt_upper_bound. lia. }
  assert (Hitem : array_item2 arr (k / dim_x) (k mod dim_x)
                  = Ok (nth k (data arr) nan)).
  { unfold array_item2. rewrite Hs.
    apply Nat.ltb_lt in Hmx, Hmy. rewrite Hmx, Hmy. simpl.
    rewrite Hkk. now rewrite (nth_error_nth' _ nan Hlt). }
  exists (k mod dim_x), (k / dim_x), (nth k (data arr) nan).
  rewrite Hkk.
  split; [exact Hmx|]. split; [exact Hmy|]. split; [exact Hk|].
  split; [exact Hitem|]. split; [exact Hmax|]. split; [exact Hfirst|]. split.
  - intros Hnan.
    assert (Hn : forall j, j < length (data arr) ->
                           is_nan (nth j (data arr) nan) = false).
    { intros j Hj. now apply (proj1 (Forall_nth _ _) Hnan). }
    split; intros j Hj.
    + rewrite <- np_le_leb by (apply Hn; lia). now apply Hmax.
    + rewrite <- np_lt_ltb by (apply Hn; lia). now apply Hfirst.
  - unfold fit_gaussian_bump_tt. rewrite Hs, Hk. cbn [bind].
    unfold np_unravel_index.
    replace (k <? dim_y * dim_x) with true
      by (symmetry; apply Nat.ltb_lt; lia).
    cbn [bind]. rewrite Hitem. reflexivity.
Qed.

End InitialGuess.

Lemma fit_gaussian_bump_tt_initial_guess_witness :
  exists (mu0_x mu0_y : nat) (a0 : float),
    mu0_x < 3 /\ mu0_y < 2
    /\ np_argmax (data snapshot23) = Ok (mu0_y * 3 + mu0_x)
    /\ array_item2 snapshot23 mu0_y mu0_x = Ok a0
    /\ (forall j, j < length (data snapshot23) ->
                  np_le (nth j (data snapshot23) nan) a0 = true)
    /\ (forall j, j < mu0_y * 3 + mu0_x ->
                  np_lt (nth j (data snapshot23) nan) a0 = true)
    /\ (Forall (fun v => is_nan v = false) (data snapshot23) ->
        (forall j, j < length (data snapshot23) ->
                   (nth j (data snapshot23) nan <=? a0)%float = true)
        /\ (forall j, j < mu0_y * 3 + mu0_x ->
                      (nth j (data snapshot23) nan <? a0)%float = true))
    /\ @fit_gaussian_bump_tt
         (example_externals (fun v => Ok (v, 1%Z)) (Raise ValueError))
         (VArray snapshot23) =
       @fit_gaussian_tt
         (example_externals (fun v => Ok (v, 1%Z)) (Raise ValueError))
         (VArray snapshot23)
         (mk_SymmetricGaussianParams (VFloat a0) (VInt (Z.of_nat mu0_x))
            (VInt (Z.of_nat mu0_y))
            (VFloat (float_of_nat (Nat.max 2 3) / 4)) VNone).
Proof.
  apply (@fit_gaussian_bump_tt_initial_guess
           (example_externals (fun v => Ok (v, 1%Z)) (Raise ValueError))
           snapshot23 2 3).
  - reflexivity.
  - reflexivity.
  - discriminate.
Defined.

(** On that snapshot the guess is the first of the two maxima, at
    [(x, y) = (1, 0)], with amplitude [7] and width [3 / 4]. *)
Example fit_gaussian_bump_tt_snapshot23 :
  np_argmax (data snapshot23) = Ok 1
  /\ @fit_gaussian_bump_tt
       (example_externals (fun v => Ok (v, 1%Z)) (Raise ValueError))
       (VArray snapshot23) =
     @fit_gaussian_tt
       (example_externals (fun v => Ok (v, 1%Z)) (Raise ValueError))
       (VArray snapshot23)
       (mk_SymmetricGaussianParams (VFloat 7) (VInt 1) (VInt 0)
          (VFloat 0.75) VNone).
Proof. split; vm_compute; reflexivity. Qed.

Section Rounding.
Local Open Scope Z_scope.

(** * Rounding of binary64 sums *)

Lemma fexp_eq (e : Z) : fexp prec emax e = Z.max (e - 53) (-1074).
Proof. reflexivity. Qed.

Lemma digits2_bounds (m : positive) :
  2 ^ (Z.pos (digits2_pos m) - 1) <= Z.pos m < 2 ^ Z.pos (digits2_pos m).
Proof.
  induction m as [m IH|m IH|]; cbn [digits2_pos].
  - rewrite Pos2Z.inj_succ, (Pos2Z.inj_xI m).
    replace (Z.succ (Z.pos (digits2_pos m)) - 1) with
      (Z.succ (Z.pos (digits2_pos m) - 1)) by lia.
    rewrite !Z.pow_succ_r by lia.
    set (u := 2 ^ (Z.pos (digits2_pos m) - 1)) in *.
    set (v := 2 ^ Z.pos (digits2_pos m)) in *. clearbody u v. lia.
  - rewrite Pos2Z.inj_succ, (Pos2Z.inj_xO m).
    replace (Z.succ (Z.pos (digits2_pos m)) - 1) with
      (Z.succ (Z.pos (digits2_pos m) - 1)) by lia.
    rewrite !Z.pow_succ_r by lia.
    set (u := 2 ^ (Z.pos (digits2_pos m) - 1)) in *.
    set (v := 2 ^ Z.pos (digits2_pos m)) in *. clearbody u v. lia.
  - simpl. lia.
Qed.

Lemma digits2_unique (m : positive) (k : Z) :
  2 ^ (k - 1) <= Z.pos m < 2 ^ k -> Z.pos (digits2_pos m) = k.
Proof.
  intros [Hl Hu]. pose proof (digits2_bounds m) as [Hl' Hu'].
  assert (Hk : 0 < k).
  { destruct (Z_lt_le_dec 0 k); [assumption|].
    exfalso. destruct (Z.eq_dec k 0) as [->|].
    - simpl in Hu. lia.
    - rewrite (Z.pow_neg_r 2 k) in Hu by lia. lia. }
  destruct (Z.lt_trichotomy (Z.pos (digits2_pos m)) k) as [H|[H|H]]; [|exact H|].
  - exfalso.
    assert (2 ^ Z.pos (digits2_pos m) <= 2 ^ (k - 1))
      by (apply Z.pow_le_mono_r; lia). lia.
  - exfalso.
    assert (2 ^ k <= 2 ^ (Z.pos (digits2_pos m) - 1))
      by (apply Z.pow_le_mono_r; lia). lia.
Qed.

(** A canonical mantissa has at most 53 bits, and exactly 53 above the
    least exponent. *)
Lemma canonical_inv (m : positive) (e : Z) :
  canonical_mantissa prec emax m e = true ->
  -1074 <= e /\ Z.pos (digits2_pos m) <= 53
  /\ (e = -1074 \/ Z.pos (digits2_pos m) = 53).
Proof.
  unfold canonical_mantissa. rewrite fexp_eq. intros H.
  apply Z.eqb_eq in H. lia.
Qed.

Lemma canonical_bounds (m : positive) (e : Z) :
  canonical_mantissa prec emax m e = true ->
  -1074 <= e /\ Z.pos m < 2 ^ 53 /\ (e = -1074 \/ 2 ^ 52 <= Z.pos m).
Proof.
  intros Hc. apply canonical_inv in Hc. destruct Hc as (H1 & H2 & H3).
  pose proof (digits2_bounds m) as [Hl Hu].
  split; [lia|]. split.
  - assert (2 ^ Z.pos (digits2_pos m) <= 2 ^ 53)
      by (apply Z.pow_le_mono_r; lia). lia.
  - destruct H3 as [->|H3]; [now left | right].
    rewrite H3 in Hl. exact Hl.
Qed.

Lemma bounded_canonical (m : positive) (e : Z) :
  bounded prec emax m e = true ->
  canonical_mantissa prec emax m e = true /\ e <= 971.
Proof.
  unfold bounded. intros H. apply andb_prop in H. destruct H as [Hc He].
  apply Z.leb_le in He. change (emax - prec) with 971 in He. now split.
Qed.

Lemma scaled_pos (m : positive) (e : Z) : -1074 <= e -> 0 < scaled m e.
Proof.
  intros He. unfold scaled.
  assert (0 < 2 ^ (e + 1074)) by (apply Z.pow_pos_nonneg; lia). lia.
Qed.

(** Between canonical doubles the order of exponent then mantissa is the
    order of the values. *)
Lemma scaled_lt_of_lex (m1 m2 : positive) (e1 e2 : Z) :
  canonical_mantissa prec emax m1 e1 = true ->
  canonical_mantissa prec emax m2 e2 = true ->
  e1 < e2 \/ e1 = e2 /\ Z.pos m1 < Z.pos m2 ->
  scaled m1 e1 < scaled m2 e2.
Proof.
  intros H1 H2 Hlex. apply canonical_bounds in H1, H2.
  destruct H1 as (He1 & Hm1 & Hn1), H2 as (He2 & Hm2 & Hn2).
  unfold scaled.
  assert (Hp1 : 0 < 2 ^ (e1 + 1074)) by (apply Z.pow_pos_nonneg; lia).
  destruct Hlex as [Hlt|[-> Hlt]].
  - destruct Hn2 as [->|Hn2]; [lia|].
    assert (Hpow : 2 * 2 ^ (e1 + 1074) <= 2 ^ (e2 + 1074)).
    { rewrite <- Z.pow_succ_r by lia. apply Z.pow_le_mono_r; lia. }
    assert (Z.pos m1 * 2 ^ (e1 + 1074) < 2 ^ 53 * 2 ^ (e1 + 1074))
      by (apply Z.mul_lt_mono_pos_r; lia).
    assert (2 ^ 52 * 2 ^ (e2 + 1074) <= Z.pos m2 * 2 ^ (e2 + 1074))
      by (apply Z.mul_le_mono_nonneg_r; lia).
    change (2 ^ 53) with (2 ^ 52 * 2) in *. nia.
  - apply Z.mul_lt_mono_pos_r; lia.
Qed.

Lemma scaled_le_iff_lex (m1 m2 : positive) (e1 e2 : Z) :
  canonical_mantissa prec emax m1 e1 = true ->
  canonical_mantissa prec emax m2 e2 = true ->
  (scaled m1 e1 <= scaled m2 e2 <->
   e1 < e2 \/ e1 = e2 /\ Z.pos m1 <= Z.pos m2).
Proof.
  intros H1 H2. split.
  - intros Hle.
    destruct (Z.lt_trichotomy e1 e2) as [H|[H|H]]; [now left| |].
    + right. split; [exact H|]. subst e2.
      destruct (Z_le_gt_dec (Z.pos m1) (Z.pos m2)); [assumption|].
      exfalso.
      assert (scaled m2 e1 < scaled m1 e1)
        by (apply scaled_lt_of_lex; auto; right; split; lia). lia.
    + exfalso.
      assert (scaled m2 e2 < scaled m1 e1)
        by (apply scaled_lt_of_lex; auto). lia.
  - intros [H|[-> H]].
    + apply Z.lt_le_incl, scaled_lt_of_lex; auto.
    + unfold scaled. apply Z.mul_le_mono_nonneg_r; [|exact H].
      apply Z.pow_nonneg. lia.
Qed.

(** ** Shifts *)

Lemma shr_1_m (mrs : shr_record) :
  0 <= shr_m mrs -> shr_m (shr_1 mrs) = shr_m mrs / 2.
Proof.
  destruct mrs as [m r s]. cbn [shr_m]. intros Hm.
  rewrite <- Z.div2_div.
  destruct m as [|[p|p|]|p]; try reflexivity. lia.
Qed.

Lemma shr_1_nonneg (mrs : shr_record) : 0 <= shr_m mrs -> 0 <= shr_m (shr_1 mrs).
Proof.
  intros H. rewrite shr_1_m by assumption. apply Z.div_pos; lia.
Qed.

Lemma iter_shr_m (p : positive) :
  forall mrs, 0 <= shr_m mrs ->
              shr_m (SpecFloat.iter_pos shr_1 p mrs) = shr_m mrs / 2 ^ Z.pos p.
Proof.
  induction p as [p IH|p IH|]; intros mrs Hm; cbn [SpecFloat.iter_pos].
  - assert (H1 : 0 <= shr_m (shr_1 mrs)) by now apply shr_1_nonneg.
    assert (H2 : 0 <= shr_m (SpecFloat.iter_pos shr_1 p (shr_1 mrs))).
    { rewrite IH by assumption. apply Z.div_pos; [assumption|].
      apply Z.pow_pos_nonneg; lia. }
    rewrite (IH _ H2), (IH _ H1), shr_1_m by assumption.
    rewrite !Z.div_div by (try apply Z.pow_pos_nonneg; lia).
    f_equal. rewrite Pos2Z.inj_xI.
    rewrite <- Z.pow_add_r, <- Z.pow_succ_r by lia. f_equal. lia.
  - assert (H2 : 0 <= shr_m (SpecFloat.iter_pos shr_1 p mrs)).
    { rewrite IH by assumption. apply Z.div_pos; [assumption|].
      apply Z.pow_pos_nonneg; lia. }
    rewrite (IH _ H2), (IH _ Hm).
    rewrite !Z.div_div by (try apply Z.pow_pos_nonneg; lia).
    f_equal. rewrite Pos2Z.inj_xO.
    rewrite <- Z.pow_add_r by lia. f_equal. lia.
  - rewrite shr_1_m by assumption. reflexivity.
Qed.

Lemma iter_xO (k : positive) (m : positive) :
  Z.pos (Pos.iter xO m k) = Z.pos m * 2 ^ Z.pos k.
Proof.
  induction k as [|k IH] using Pos.peano_ind.
  - simpl. lia.
  - rewrite Pos.iter_succ, Pos2Z.inj_xO, IH, Pos2Z.inj_succ.
    rewrite Z.pow_succ_r by lia. lia.
Qed.

Lemma round_nearest_even_bounds (m : Z) (l : location) :
  m <= round_nearest_even m l <= m + 1.
Proof.
  destruct l as [|[| |]]; simpl; try lia. destruct (Z.even m); lia.
Qed.

(** ** Rounding to a double *)

Lemma shr_fexp_canonical (m : positive) (e : Z) :
  canonical_mantissa prec emax m e = true ->
  shr_fexp prec emax (Z.pos m) e loc_Exact =
  ({| shr_m := Z.pos m; shr_r := false; shr_s := false |}, e).
Proof.
  unfold canonical_mantissa, shr_fexp. intros H. apply Z.eqb_eq in H.
  cbn [Zdigits2]. rewrite H, Z.sub_diag. reflexivity.
Qed.

Lemma binary_round_aux_canonical (s : bool) (m : positive) (e : Z) :
  canonical_mantissa prec emax m e = true ->
  binary_round_aux prec emax s (Z.pos m) e loc_Exact =
  if e <=? emax - prec then S754_finite s m e else S754_infinity s.
Proof.
  intros H. unfold binary_round_aux.
  rewrite (shr_fexp_canonical m e H).
  cbn [shr_m loc_of_shr_record round_nearest_even].
  rewrite (shr_fexp_canonical m e H). reflexivity.
Qed.

Lemma pow2_split (a b : Z) : 0 <= a -> 0 <= b -> 2 ^ (a + b) = 2 ^ a * 2 ^ b.
Proof. intros. now rewrite Z.pow_add_r. Qed.

Lemma pow2_pos (a : Z) : 0 <= a -> 0 < 2 ^ a.
Proof. intros. apply Z.pow_pos_nonneg; lia. Qed.

(** A mantissa of at most 53 bits is normalised without rounding. *)
Lemma binary_round_small (s : bool) (M : positive) (e : Z) :
  -1074 <= e ->
  Z.pos (digits2_pos M) <= 53 ->
  exists m' e',
    scaled m' e' = scaled M e
    /\ canonical_mantissa prec emax m' e' = true
    /\ binary_round prec emax s M e =
       if e' <=? 971 then S754_finite s m' e' else S754_infinity s.
Proof.
  intros He Hd. unfold binary_round, shl_align.
  pose proof (digits2_bounds M) as [Hl Hu].
  remember (Z.pos (digits2_pos M)) as d eqn:Hdd.
  assert (Hd0 : 0 < d) by lia.
  remember (fexp prec emax (d + e)) as e0 eqn:He0.
  assert (He0' : -1074 <= e0 <= e) by (rewrite He0, fexp_eq; lia).
  destruct (e0 - e) as [|k|k] eqn:Hk.
  - exists M, e. split; [reflexivity|].
    assert (Hc : canonical_mantissa prec emax M e = true).
    { unfold canonical_mantissa. rewrite <- Hdd, <- He0. apply Z.eqb_eq. lia. }
    split; [exact Hc|]. now rewrite binary_round_aux_canonical.
  - exfalso. lia.
  - assert (Hke : Z.pos k = e - e0) by lia.
    exists (Pos.iter xO M k), e0.
    assert (Hs : scaled (Pos.iter xO M k) e0 = scaled M e).
    { unfold scaled. rewrite iter_xO, Hke.
      replace (e + 1074) with ((e - e0) + (e0 + 1074)) by lia.
      rewrite (pow2_split (e - e0) (e0 + 1074)) by lia. ring. }
    assert (Hc : canonical_mantissa prec emax (Pos.iter xO M k) e0 = true).
    { unfold canonical_mantissa. apply Z.eqb_eq.
      rewrite (digits2_unique (Pos.iter xO M k) (d + Z.pos k)).
      - replace (d + Z.pos k + e0) with (d + e) by lia. now rewrite <- He0.
      - rewrite iter_xO.
        replace (d + Z.pos k - 1) with ((d - 1) + Z.pos k) by lia.
        rewrite (pow2_split (d - 1) (Z.pos k)), (pow2_split d (Z.pos k))
          by lia.
        pose proof (pow2_pos (Z.pos k) ltac:(lia)).
        split; [apply Z.mul_le_mono_nonneg_r | apply Z.mul_lt_mono_pos_r]; lia. }
    split; [exact Hs|]. split; [exact Hc|].
    now rewrite binary_round_aux_canonical.
Qed.

(** A longer mantissa is cut to 53 bits and moves up by at most one unit. *)
Lemma binary_round_large (s : bool) (M : positive) (e : Z) :
  -1074 <= e ->
  53 < Z.pos (digits2_pos M) ->
  exists m' e' r,
    Z.pos M / 2 ^ (Z.pos (digits2_pos M) - 53) <= r
    /\ r <= Z.pos M / 2 ^ (Z.pos (digits2_pos M) - 53) + 1
    /\ scaled m' e' = r * 2 ^ (e + (Z.pos (digits2_pos M) - 53) + 1074)
    /\ canonical_mantissa prec emax m' e' = true
    /\ binary_round prec emax s M e =
       if e' <=? 971 then S754_finite s m' e' else S754_infinity s.
Proof.
  intros He Hd. pose proof (digits2_bounds M) as [Hl Hu].
  unfold binary_round, shl_align.
  remember (Z.pos (digits2_pos M)) as d eqn:Hdd.
  assert (Hf : fexp prec emax (d + e) - e = d - 53) by (rewrite fexp_eq; lia).
  assert (Hp : exists p, d - 53 = Z.pos p).
  { destruct (d - 53) as [|p|p] eqn:Hp; try lia. now exists p. }
  destruct Hp as [p Hp]. rewrite Hp in Hf |- *. rewrite Hf.
  unfold binary_round_aux. unfold shr_fexp at 1. cbn [Zdigits2].
  rewrite <- Hdd, Hf. unfold shr at 1. cbn [shr_record_of_loc].
  set (mrs' := SpecFloat.iter_pos shr_1 p _).
  assert (Hq : shr_m mrs' = Z.pos M / 2 ^ Z.pos p).
  { unfold mrs'. rewrite iter_shr_m; cbn [shr_m]; [reflexivity | lia]. }
  pose proof (round_nearest_even_bounds (shr_m mrs') (loc_of_shr_record mrs'))
    as [Hr1 Hr2].
  remember (round_nearest_even (shr_m mrs') (loc_of_shr_record mrs')) as r
    eqn:Hr.
  rewrite Hq in Hr1, Hr2. clear Hr Hq mrs'.
  assert (Hpp : 0 < 2 ^ Z.pos p) by (apply pow2_pos; lia).
  assert (Hq1 : 2 ^ 52 <= Z.pos M / 2 ^ Z.pos p).
  { apply Z.div_le_lower_bound; [exact Hpp|].
    replace (d - 1) with (Z.pos p + 52) in Hl by lia.
    rewrite (pow2_split (Z.pos p) 52) in Hl by lia. exact Hl. }
  assert (Hq2 : Z.pos M / 2 ^ Z.pos p < 2 ^ 53).
  { apply Z.div_lt_upper_bound; [exact Hpp|].
    replace d with (Z.pos p + 53) in Hu by lia.
    rewrite (pow2_split (Z.pos p) 53) in Hu by lia. exact Hu. }
  remember (Z.pos M / 2 ^ Z.pos p) as q eqn:Hq.
  change (2 ^ 52) with 4503599627370496 in Hq1.
  change (2 ^ 53) with 9007199254740992 in Hq2.
  destruct r as [|pr|pr]; try lia.
  destruct (Z_lt_le_dec (Z.pos pr) 9007199254740992) as [Hlt|Hge].
  - assert (Hc : canonical_mantissa prec emax pr (e + Z.pos p) = true).
    { unfold canonical_mantissa. apply Z.eqb_eq.
      rewrite (digits2_unique pr 53)
        by (change (2 ^ (53 - 1)) with 4503599627370496;
            change (2 ^ 53) with 9007199254740992; lia).
      rewrite fexp_eq. lia. }
    rewrite (shr_fexp_canonical pr _ Hc). cbn [shr_m].
    exists pr, (e + Z.pos p), (Z.pos pr).
    split; [lia|]. split; [lia|]. split; [reflexivity|]. split; [exact Hc|].
    reflexivity.
  - assert (Hpr : pr = 9007199254740992%positive) by lia. subst pr.
    unfold shr_fexp. cbn [Zdigits2].
    change (Z.pos (digits2_pos 9007199254740992)) with 54.
    assert (Hf2 : fexp prec emax (54 + (e + Z.pos p)) - (e + Z.pos p) = 1)
      by (rewrite fexp_eq; lia).
    rewrite Hf2. cbn [shr shr_record_of_loc SpecFloat.iter_pos shr_1 shr_m].
    exists 4503599627370496%positive, (e + Z.pos p + 1), 9007199254740992.
    split; [lia|]. split; [lia|]. split.
    { unfold scaled.
      replace (e + Z.pos p + 1 + 1074) with (Z.succ (e + Z.pos p + 1074))
        by lia.
      rewrite Z.pow_succ_r by lia. ring. }
    split; [|reflexivity].
    unfold canonical_mantissa. apply Z.eqb_eq.
    change (Z.pos (digits2_pos 4503599627370496)) with 53.
    rewrite fexp_eq. lia.
Qed.

(** The rounded value stays below a double that lies above the exact one. *)
Lemma binary_round_bound (s : bool) (M : positive) (e : Z) (mg : positive)
  (eg : Z) :
  -1074 <= e ->
  bounded prec emax mg eg = true ->
  scaled M e < scaled mg eg ->
  exists m' e',
    binary_round prec emax s M e = S754_finite s m' e'
    /\ bounded prec emax m' e' = true
    /\ scaled m' e' <= scaled mg eg.
Proof.
  intros He Hg Hlt. apply bounded_canonical in Hg. destruct Hg as [Hcg Heg].
  assert (Hfin : forall m' e',
             canonical_mantissa prec emax m' e' = true ->
             scaled m' e' <= scaled mg eg ->
             binary_round prec emax s M e =
             (if e' <=? 971 then S754_finite s m' e' else S754_infinity s) ->
             exists m'' e'',
               binary_round prec emax s M e = S754_finite s m'' e''
               /\ bounded prec emax m'' e'' = true
               /\ scaled m'' e'' <= scaled mg eg).
  { intros m' e' Hc Hle Hbr.
    assert (He' : e' <= eg).
    { destruct (Z_le_gt_dec e' eg); [assumption|]. exfalso.
      assert (scaled mg eg < scaled m' e')
        by (apply scaled_lt_of_lex; auto; left; lia). lia. }
    exists m', e'. rewrite Hbr.
    replace (e' <=? 971) with true by (symmetry; apply Z.leb_le; lia).
    split; [reflexivity|]. split; [|exact Hle].
    unfold bounded. rewrite Hc. apply Z.leb_le.
    change (emax - prec) with 971. lia. }
  destruct (Z_le_gt_dec (Z.pos (digits2_pos M)) 53) as [Hd|Hd].
  - destruct (binary_round_small s M e He Hd) as (m' & e' & Hs & Hc & Hbr).
    apply (Hfin m' e' Hc); [lia | exact Hbr].
  - destruct (binary_round_large s M e He ltac:(lia))
      as (m' & e' & r & Hr1 & Hr2 & Hs & Hc & Hbr).
    apply (Hfin m' e' Hc); [|exact Hbr]. rewrite Hs. clear Hfin Hbr Hs Hc.
    pose proof (digits2_bounds M) as [Hl Hu].
    remember (Z.pos (digits2_pos M)) as d eqn:Hdd.
    remember (d - 53) as p eqn:Hp.
    assert (Hp0 : 0 < p) by lia.
    assert (Hpp : 0 < 2 ^ p) by (apply pow2_pos; lia).
    remember (Z.pos M / 2 ^ p) as q eqn:Hq.
    assert (Hq1 : 2 ^ 52 <= q).
    { rewrite Hq. apply Z.div_le_lower_bound; [exact Hpp|].
      replace (d - 1) with (p + 52) in Hl by lia.
      rewrite (pow2_split p 52) in Hl by lia. exact Hl. }
    assert (HqM : 2 ^ p * q <= Z.pos M)
      by (rewrite Hq; apply Z.mul_div_le; exact Hpp).
    apply canonical_bounds in Hcg. destruct Hcg as (Heg1 & Hmg & _).
    unfold scaled in *.
    assert (He1 : e + p <= eg).
    { destruct (Z_le_gt_dec (e + p) eg); [assumption|]. exfalso.
      assert (H1 : 2 * 2 ^ (eg + 1074) <= 2 ^ (e + p + 1074)).
      { rewrite <- Z.pow_succ_r by lia. apply Z.pow_le_mono_r; lia. }
      assert (H2 : 2 ^ (e + p + 1074) = 2 ^ p * 2 ^ (e + 1074)).
      { replace (e + p + 1074) with (p + (e + 1074)) by lia.
        apply pow2_split; lia. }
      assert (H3 : 0 < 2 ^ (eg + 1074)) by (apply pow2_pos; lia).
      assert (H4 : 0 < 2 ^ (e + 1074)) by (apply pow2_pos; lia).
      assert (H5 : Z.pos mg * 2 ^ (eg + 1074) < 2 ^ 53 * 2 ^ (eg + 1074))
        by (apply Z.mul_lt_mono_pos_r; lia).
      assert (H6 : 2 ^ 52 * 2 ^ (e + p + 1074) <= q * 2 ^ (e + p + 1074))
        by (apply Z.mul_le_mono_nonneg_r; lia).
      assert (H7 : q * 2 ^ (e + p + 1074) <= Z.pos M * 2 ^ (e + 1074)).
      { rewrite H2. rewrite Z.mul_assoc.
        apply Z.mul_le_mono_nonneg_r; lia. }
      change (2 ^ 53) with (2 ^ 52 * 2) in H5.
      change (2 ^ 52) with 4503599627370496 in *.
      clear - Hlt H1 H3 H5 H6 H7. nia. }
    assert (HG : 2 ^ (eg + 1074) = 2 ^ (eg - (e + p)) * 2 ^ (e + p + 1074)).
    { replace (eg + 1074) with ((eg - (e + p)) + (e + p + 1074)) by lia.
      apply pow2_split; lia. }
    assert (H2 : 2 ^ (e + p + 1074) = 2 ^ p * 2 ^ (e + 1074)).
    { replace (e + p + 1074) with (p + (e + 1074)) by lia.
      apply pow2_split; lia. }
    assert (H4 : 0 < 2 ^ (e + 1074)) by (apply pow2_pos; lia).
    assert (H8 : 0 < 2 ^ (e + p + 1074)) by (apply pow2_pos; lia).
    remember (Z.pos mg * 2 ^ (eg - (e + p))) as Gq eqn:HGq.
    assert (HGe : Z.pos mg * 2 ^ (eg + 1074) = Gq * 2 ^ (e + p + 1074))
      by (rewrite HG, HGq; ring).
    rewrite HGe in *.
    assert (HM : Z.pos M < 2 ^ p * Gq).
    { rewrite H2 in Hlt.
      assert (Hx : Z.pos M * 2 ^ (e + 1074) < (2 ^ p * Gq) * 2 ^ (e + 1074)).
      { replace ((2 ^ p * Gq) * 2 ^ (e + 1074))
          with (Gq * (2 ^ p * 2 ^ (e + 1074))) by ring. exact Hlt. }
      exact (proj2 (Z.mul_lt_mono_pos_r _ _ _ H4) Hx). }
    assert (HqG : q < Gq)
      by (rewrite Hq; apply Z.div_lt_upper_bound; assumption).
    apply Z.mul_le_mono_nonneg_r; lia.
Qed.

(** ** The sum of a negative and a larger positive double *)

Lemma shl_align_fst (m : positive) (e ez : Z) :
  ez <= e ->
  Z.pos (fst (shl_align m e ez)) = Z.pos m * 2 ^ (e - ez).
Proof.
  intros H. unfold shl_align.
  destruct (ez - e) as [|k|k] eqn:Hk.
  - replace (e - ez) with 0 by lia. simpl. lia.
  - lia.
  - cbn [fst]. rewrite iter_xO. f_equal. f_equal. lia.
Qed.

Lemma scaled_shift (m : positive) (e ez : Z) :
  -1074 <= ez <= e ->
  scaled m e = (Z.pos m * 2 ^ (e - ez)) * 2 ^ (ez + 1074).
Proof.
  intros H. unfold scaled.
  replace (e + 1074) with ((e - ez) + (ez + 1074)) by lia.
  rewrite (pow2_split (e - ez) (ez + 1074)) by lia. ring.
Qed.

Lemma SFadd_neg_pos (mx : positive) (ex : Z) (mb : positive) (eb : Z) :
  bounded prec emax mx ex = true ->
  bounded prec emax mb eb = true ->
  scaled mx ex <= scaled mb eb ->
  SFadd prec emax (S754_finite true mx ex) (S754_finite false mb eb)
  = S754_zero false
  \/ exists m' e',
      SFadd prec emax (S754_finite true mx ex) (S754_finite false mb eb)
      = S754_finite false m' e'
      /\ bounded prec emax m' e' = true
      /\ scaled m' e' <= scaled mb eb.
Proof.
  intros Hx Hb Hle.
  pose proof (bounded_canonical _ _ Hx) as [Hcx _].
  pose proof (bounded_canonical _ _ Hb) as [Hcb _].
  apply canonical_bounds in Hcx, Hcb.
  destruct Hcx as (Hex & _), Hcb as (Heb & _).
  cbn [SFadd cond_Zopp].
  remember (Z.min ex eb) as ez eqn:Hez.
  assert (Hz : -1074 <= ez <= ex /\ ez <= eb) by lia.
  rewrite (scaled_shift mx ex ez), (scaled_shift mb eb ez) in Hle by lia.
  rewrite <- (shl_align_fst mx ex ez), <- (shl_align_fst mb eb ez) in Hle
    by lia.
  assert (Hb' : scaled mb eb
                = Z.pos (fst (shl_align mb eb ez)) * 2 ^ (ez + 1074)).
  { rewrite (scaled_shift mb eb ez), shl_align_fst by lia. reflexivity. }
  remember (fst (shl_align mx ex ez)) as X eqn:HX.
  remember (fst (shl_align mb eb ez)) as B eqn:HB.
  assert (Hp : 0 < 2 ^ (ez + 1074)) by (apply pow2_pos; lia).
  assert (HXB : Z.pos X <= Z.pos B).
  { destruct (Z_le_gt_dec (Z.pos X) (Z.pos B)); [assumption|]. exfalso.
    assert (Z.pos B * 2 ^ (ez + 1074) < Z.pos X * 2 ^ (ez + 1074))
      by (apply Z.mul_lt_mono_pos_r; lia). lia. }
  destruct (- Z.pos X + Z.pos B) as [|M|M] eqn:HS; cbn [binary_normalize].
  - now left.
  - right.
    destruct (binary_round_bound false M ez mb eb) as (m' & e' & H1 & H2 & H3);
      [lia | exact Hb | | eauto].
    rewrite Hb'. unfold scaled.
    apply Z.mul_lt_mono_pos_r; [exact Hp | lia].
  - lia.
Qed.

(** ** Comparisons of canonical doubles *)

Lemma SFleb_pos_finite (m1 : positive) (e1 : Z) (m2 : positive) (e2 : Z) :
  canonical_mantissa prec emax m1 e1 = true ->
  canonical_mantissa prec emax m2 e2 = true ->
  scaled m1 e1 <= scaled m2 e2 ->
  SFleb (S754_finite false m1 e1) (S754_finite false m2 e2) = true.
Proof.
  intros H1 H2 Hle. apply (scaled_le_iff_lex m1 m2 e1 e2 H1 H2) in Hle.
  unfold SFleb, SFcompare. destruct Hle as [Hlt|[-> Hm]].
  - apply Z.compare_lt_iff in Hlt. now rewrite Hlt.
  - rewrite Z.compare_refl.
    change (Pos.compare_cont Eq m1 m2) with (m1 ?= m2)%positive.
    destruct (m1 ?= m2)%positive eqn:Hc; try reflexivity.
    exfalso. apply Hm. exact Hc.
Qed.

Lemma SFltb_pos_finite_inv (m1 : positive) (e1 : Z) (m2 : positive) (e2 : Z) :
  canonical_mantissa prec emax m1 e1 = true ->
  canonical_mantissa prec emax m2 e2 = true ->
  SFltb (S754_finite false m1 e1) (S754_finite false m2 e2) = true ->
  scaled m1 e1 < scaled m2 e2.
Proof.
  intros H1 H2. unfold SFltb, SFcompare. intros H.
  apply scaled_lt_of_lex; try assumption.
  destruct (Z.compare_spec e1 e2) as [->|Hlt|Hgt]; try discriminate.
  - right. split; [reflexivity|]. cbv beta iota in H.
    change (Pos.compare_cont Eq m1 m2) with (m1 ?= m2)%positive in H.
    destruct (m1 ?= m2)%positive eqn:Hc; try discriminate.
    exact Hc.
  - now left.
Qed.

(** ** The remainder by a positive double *)

Lemma Prim2SF_zero : Prim2SF 0 = S754_zero false.
Proof. reflexivity. Qed.

Lemma Prim2SF_infinity : Prim2SF infinity = S754_infinity false.
Proof. reflexivity. Qed.

Lemma is_finite_SF (a : float) :
  is_finite a = true ->
  (exists s, Prim2SF a = S754_zero s)
  \/ (exists s m e, Prim2SF a = S754_finite s m e
                    /\ bounded prec emax m e = true).
Proof.
  unfold is_finite. rewrite FloatAxioms.ltb_spec, abs_spec, Prim2SF_infinity.
  pose proof (Prim2SF_valid a) as Hv.
  destruct (Prim2SF a) as [s|s| |s m e]; cbn; try discriminate; intros _.
  - left. now exists s.
  - right. exists s, m, e. split; [reflexivity | exact Hv].
Qed.

Lemma positive_SF (b : float) :
  (0 <? b)%float = true ->
  Prim2SF b = S754_infinity false
  \/ (exists m e, Prim2SF b = S754_finite false m e
                  /\ bounded prec emax m e = true).
Proof.
  rewrite FloatAxioms.ltb_spec, Prim2SF_zero.
  pose proof (Prim2SF_valid b) as Hv.
  destruct (Prim2SF b) as [s|[|]| |[|] m e]; cbn; try discriminate; intros _.
  - now left.
  - right. exists m, e. split; [reflexivity | exact Hv].
Qed.

Lemma np_remainder_positive (a b : float) :
  (0 <? b)%float = true ->
  np_remainder a b =
  if (fmod a b =? 0)%float then 0%float
  else if (fmod a b <? 0)%float then (fmod a b + b)%float else fmod a b.
Proof.
  intros Hb. unfold np_remainder.
  assert (H1 : (b =? 0)%float = false /\ (b <? 0)%float = false).
  { rewrite FloatAxioms.eqb_spec, FloatAxioms.ltb_spec, Prim2SF_zero.
    destruct (positive_SF b Hb) as [->|(m & e & -> & _)]; now split. }
  destruct H1 as [-> ->].
  destruct (fmod a b =? 0)%float, (fmod a b <? 0)%float; reflexivity.
Qed.

Lemma fmod_below (a b : float) :
  is_finite a = true -> (0 <? b)%float = true ->
  below (Prim2SF (fmod a b)) (Prim2SF b).
Proof.
  intros Ha Hb. unfold fmod.
  destruct (is_finite_SF a Ha) as [[s Ea]|(sa & ma & ea & Ea & Hba)];
    destruct (positive_SF b Hb) as [Eb|(mb & eb & Eb & Hbb)];
    rewrite Ea, Eb.
  - rewrite Ea. exact I.
  - rewrite Ea. exact I.
  - rewrite Ea. split; [exact Hba | exact I].
  - pose proof (bounded_canonical _ _ Hba) as [Hca _].
    pose proof (bounded_canonical _ _ Hbb) as [Hcb _].
    destruct (abs a <? abs b)%float eqn:Hab.
    + rewrite Ea. split; [exact Hba|].
      rewrite FloatAxioms.ltb_spec, !abs_spec, Ea, Eb in Hab. cbn [SFabs] in Hab.
      apply Z.lt_le_incl. now apply SFltb_pos_finite_inv.
    + pose proof (canonical_bounds _ _ Hca) as (Hea & _).
      pose proof (canonical_bounds _ _ Hcb) as (Heb & _).
      remember (Z.min ea eb) as e eqn:He.
      assert (Hpa : 0 < Z.pos ma * 2 ^ (ea - e))
        by (pose proof (pow2_pos (ea - e) ltac:(lia)); lia).
      assert (Hpb : 0 < Z.pos mb * 2 ^ (eb - e))
        by (pose proof (pow2_pos (eb - e) ltac:(lia)); lia).
      pose proof (Z.rem_bound_pos (Z.pos ma * 2 ^ (ea - e))
                    (Z.pos mb * 2 ^ (eb - e)) ltac:(lia) Hpb) as [Hr0 Hr1].
      remember (Z.rem (Z.pos ma * 2 ^ (ea - e)) (Z.pos mb * 2 ^ (eb - e)))
        as R eqn:HR.
      assert (Hp : 0 < 2 ^ (e + 1074)) by (apply pow2_pos; lia).
      assert (Hlt : forall M, R = Z.pos M -> scaled M e < scaled mb eb).
      { intros M HM. rewrite (scaled_shift mb eb e) by lia. unfold scaled.
        apply Z.mul_lt_mono_pos_r; [exact Hp | lia]. }
      destruct R as [|M|M]; [| |lia].
      * assert (Hz : (if sa then (- 0)%Z else 0%Z) = 0%Z) by now destruct sa.
        rewrite Hz. cbn [binary_normalize].
        rewrite Prim2SF_SF2Prim by reflexivity. exact I.
      * destruct (binary_round_bound sa M e mb eb ltac:(lia) Hbb
                    (Hlt M eq_refl)) as (m' & e' & H1 & H2 & H3).
        assert (Hn : binary_normalize prec emax
                       (if sa then (- Z.pos M)%Z else Z.pos M) e sa
                     = S754_finite sa m' e').
        { destruct sa; cbn [Z.opp binary_normalize]; exact H1. }
        rewrite Hn, Prim2SF_SF2Prim by exact H2.
        split; [exact H2 | exact H3].
Qed.

Lemma leb_of_SF (x y : float) :
  SFleb (Prim2SF x) (Prim2SF y) = true -> (x <=? y)%float = true.
Proof. now rewrite FloatAxioms.leb_spec. Qed.

Lemma zero_leb_positive (b : float) :
  (0 <? b)%float = true -> (0 <=? b)%float = true.
Proof.
  intros Hb. apply leb_of_SF. rewrite Prim2SF_zero.
  destruct (positive_SF b Hb) as [->|(m & e & -> & _)]; reflexivity.
Qed.

Lemma below_leb (r b : float) (m : positive) (e : Z) :
  (0 <? b)%float = true ->
  Prim2SF r = S754_finite false m e ->
  below (Prim2SF r) (Prim2SF b) ->
  (0 <=? r)%float = true /\ (r <=? b)%float = true.
Proof.
  intros Hb Er Hbel. split; apply leb_of_SF.
  - rewrite Prim2SF_zero, Er. reflexivity.
  - rewrite Er in *. destruct Hbel as [Hbm Hle].
    destruct (positive_SF b Hb) as [Eb|(mb & eb & Eb & Hbb)]; rewrite Eb in *.
    + reflexivity.
    + apply SFleb_pos_finite; try assumption;
        now apply bounded_canonical.
Qed.

(** The remainder of a finite double by a positive one lies between zero
    and the divisor, both included. *)
Theorem np_remainder_range (a b : float) :
  is_finite a = true -> (0 <? b)%float = true ->
  (0 <=? np_remainder a b)%float = true
  /\ (np_remainder a b <=? b)%float = true.
Proof.
  intros Ha Hb. rewrite (np_remainder_positive a b Hb).
  pose proof (fmod_below a b Ha Hb) as Hbel.
  rewrite FloatAxioms.eqb_spec, FloatAxioms.ltb_spec, Prim2SF_zero.
  destruct (Prim2SF (fmod a b)) as [s|s| |[|] m e] eqn:Ef;
    try contradiction.
  - (* the remainder is a zero *)
    replace (SFeqb (S754_zero s) (S754_zero false)) with true
      by now destruct s.
    split; [reflexivity | now apply zero_leb_positive].
  - (* a negative remainder: the divisor is added *)
    cbn [SFeqb SFltb SFcompare]. destruct Hbel as [Hbm Hle].
    destruct (positive_SF b Hb) as [Eb|(mb & eb & Eb & Hbb)].
    + split; apply leb_of_SF; rewrite add_spec, Ef, Eb; reflexivity.
    + rewrite Eb in Hle.
      destruct (SFadd_neg_pos m e mb eb Hbm Hbb Hle)
        as [Hz|(m' & e' & Hs & Hb' & Hle')].
      * split; apply leb_of_SF; rewrite add_spec, Ef, Eb; unfold SF64add;
          rewrite Hz; reflexivity.
      * apply (below_leb _ b m' e' Hb).
        -- rewrite add_spec, Ef, Eb. exact Hs.
        -- rewrite add_spec, Ef, Eb. unfold SF64add. rewrite Hs.
           split; [exact Hb' | exact Hle'].
  - (* a positive remainder is kept *)
    cbn [SFeqb SFltb SFcompare].
    apply (below_leb _ b m e Hb Ef). now rewrite Ef.
Qed.

(** A double already in [[0, b)] is its own remainder. *)
Lemma np_remainder_in_range (a b : float) :
  (0 <=? a)%float = true -> (a <? b)%float = true ->
  (np_remainder a b =? a)%float = true
  /\ (np_remainder a b <? b)%float = true.
Proof.
  intros H0 Hab.
  assert (Hb : (0 <? b)%float = true).
  { apply FloatOrderFacts.ltb_true. apply FloatOrderFacts.leb_true in H0.
    apply FloatOrderFacts.ltb_true in Hab.
    destruct H0 as (? & ? & ?), Hab as (? & ? & ?). repeat split; auto.
    eapply FloatOrderFacts.kle_klt_trans; eauto. }
  rewrite (np_remainder_positive a b Hb).
  pose proof H0 as H0'.
  rewrite FloatAxioms.leb_spec, Prim2SF_zero in H0.
  pose proof Hab as Hab'. rewrite FloatAxioms.ltb_spec in Hab'.
  assert (Hf : fmod a b = a).
  { unfold fmod. pose proof (abs_spec a) as Haa. pose proof (abs_spec b) as Hbb.
    destruct (Prim2SF a) as [s|[|]| |[|] m e] eqn:Ea; try discriminate;
      destruct (positive_SF b Hb) as [Eb|(mb & eb & Eb & _)];
      rewrite Eb in *; try reflexivity; try discriminate.
    replace (abs a <? abs b)%float with true; [reflexivity|].
    rewrite FloatAxioms.ltb_spec, Haa, Hbb. cbn [SFabs]. now rewrite Hab'. }
  rewrite Hf. apply FloatOrderFacts.leb_true in H0'. destruct H0' as (_ & Hna & Hk).
  destruct (a =? 0)%float eqn:Ez.
  - split; [|exact Hb].
    apply FloatOrderFacts.eqb_true in Ez. apply FloatOrderFacts.eqb_true.
    destruct Ez as (? & ? & ?). repeat split; auto.
  - destruct (a <? 0)%float eqn:El.
    + exfalso. apply FloatOrderFacts.ltb_true in El. destruct El as (_ & _ & El).
      apply (FloatOrderFacts.klt_irrefl (FloatOrder.key a)).
      eapply FloatOrderFacts.klt_kle_trans; eauto.
    + split; [|exact Hab].
      unfold is_nan in Hna. now apply negb_false_iff in Hna.
Qed.

(** The remainder of a NaN or of an infinity is NaN. *)
Lemma np_remainder_not_finite (a b : float) :
  is_nan a = true \/ (abs a =? infinity)%float = true ->
  is_nan (np_remainder a b) = true.
Proof.
  intros Ha.
  assert (Hf : fmod a b = nan).
  { unfold fmod. destruct Ha as [Ha|Ha].
    - rewrite FloatOrderFacts.is_nan_spec in Ha.
      destruct (Prim2SF a); try discriminate. reflexivity.
    - rewrite FloatAxioms.eqb_spec, abs_spec, Prim2SF_infinity in Ha.
      destruct (Prim2SF a) as [s|s| |s m e]; try discriminate;
        destruct (Prim2SF b); reflexivity. }
  unfold np_remainder. rewrite Hf.
  assert (Hn : forall y, is_nan (nan + y)%float = true).
  { intros y. rewrite FloatOrderFacts.is_nan_spec, add_spec. reflexivity. }
  destruct (b =? 0)%float; [reflexivity|].
  change (negb (nan =? 0)%float) with true. cbv iota.
  change (nan <? 0)%float with false.
  destruct (b <? 0)%float; cbn [xorb]; [apply Hn | reflexivity].
Qed.

Lemma float_of_nat_positive (n : nat) :
  (0 < n)%nat -> (0 <? float_of_nat n)%float = true.
Proof.
  intros Hn. unfold float_of_nat, float_of_Z.
  destruct (Z.of_nat n) as [|p|p] eqn:Hp; try lia.
  cbn [binary_normalize].
  assert (H : exists m' e',
             canonical_mantissa prec emax m' e' = true
             /\ binary_round prec emax false p 0 =
                if e' <=? 971 then S754_finite false m' e'
                else S754_infinity false).
  { destruct (Z_le_gt_dec (Z.pos (digits2_pos p)) 53) as [Hd|Hd].
    - destruct (binary_round_small false p 0 ltac:(lia) Hd)
        as (m' & e' & _ & Hc & Hbr). eauto.
    - destruct (binary_round_large false p 0 ltac:(lia) ltac:(lia))
        as (m' & e' & r & _ & _ & _ & Hc & Hbr). eauto. }
  destruct H as (m' & e' & Hc & ->).
  rewrite FloatAxioms.ltb_spec, Prim2SF_zero.
  destruct (e' <=? 971) eqn:He.
  - rewrite Prim2SF_SF2Prim; [reflexivity|].
    cbn [valid_binary]. unfold bounded. now rewrite Hc.
  - rewrite Prim2SF_SF2Prim; reflexivity.
Qed.

End Rounding.

(** * The Gaussian fit: solver status and wrapping *)

Section GaussianFit.
Context {E : Externals}.

Lemma fit_gaussian_tt_eq (arr : ndarray) (dim_y dim_x : nat) (i : value)
  (x0 xest : vec4) (ier : Z) :
  shape arr = [dim_y; dim_x] ->
  initial_vector i = Ok x0 ->
  leastsq (residual_function arr dim_y dim_x) x0 = Ok (xest, ier) ->
  let err2 := map sqr (residual_function arr dim_y dim_x xest) in
  let beta := (1 / np_mean err2)%float in
  fit_gaussian_tt (VArray arr) i =
  Ok (mk_MLGaussianFit (VFloat (x_0 xest))
        (VFloat (np_remainder (x_1 xest) (float_of_nat dim_x)))
        (VFloat (np_remainder (x_2 xest) (float_of_nat dim_y)))
        (VFloat (x_3 xest))
        (VArray (mk_ndarray [length err2] err2))
        (VFloat
           (- beta / 2 * np_sum err2
            + float_of_nat (dim_x * dim_y) / 2 * np_log beta
            - float_of_nat (dim_x * dim_y) / 2 * np_log (2 * np_pi)
            - 5)%float)
        (VFloat beta)).
Proof.
  intros Hs Hx0 Hsol. unfold fit_gaussian_tt. rewrite Hs, Hx0. cbn [bind].
  unfold residual_function in Hsol. rewrite Hsol. reflexivity.
Qed.

(** C3 (amended).  [fit_gaussian_tt] never looks at the status flag of the
    solver: whatever [ier] is, also a value that reports non-convergence,
    it returns the [MLGaussianFit] built from the parameters the solver
    handed back.  It fails only when the solver itself raises, the guess
    has no numeric parameters or the snapshot is not two-dimensional. *)
Theorem fit_gaussian_tt_ignores_ier
  (arr : ndarray) (dim_y dim_x : nat) (i : value) (x0 xest : vec4)
  (ier : Z) :
  shape arr = [dim_y; dim_x] ->
  initial_vector i = Ok x0 ->
  leastsq (residual_function arr dim_y dim_x) x0 = Ok (xest, ier) ->
  exists r,
    fit_gaussian_tt (VArray arr) i = Ok r
    /\ isinstance r MLGaussianFit = true
    /\ attr "A" r = VFloat (x_0 xest)
    /\ attr "mu_x" r = VFloat (np_remainder (x_1 xest) (float_of_nat dim_x))
    /\ attr "mu_y" r = VFloat (np_remainder (x_2 xest) (float_of_nat dim_y))
    /\ attr "sigma" r = VFloat (x_3 xest)
    /\ attr "err2" r =
       VArray (mk_ndarray
                 [length (residual_function arr dim_y dim_x xest)]
                 (map sqr (residual_function arr dim_y dim_x xest))).
Proof.
  intros Hs Hx0 Hsol. eexists. split.
  - apply (fit_gaussian_tt_eq arr dim_y dim_x i x0 xest ier Hs Hx0 Hsol).
  - repeat split; try reflexivity. cbn. now rewrite length_map.
Qed.

(** When the solver raises, so does the fit. *)
Lemma fit_gaussian_tt_solver_raises (arr : ndarray) (dim_y dim_x : nat)
  (i : value) (x0 : vec4) (e : exn) :
  shape arr = [dim_y; dim_x] ->
  initial_vector i = Ok x0 ->
  leastsq (residual_function arr dim_y dim_x) x0 = Raise e ->
  fit_gaussian_tt (VArray arr) i = Raise e.
Proof.
  intros Hs Hx0 Hsol. unfold fit_gaussian_tt. rewrite Hs, Hx0. cbn [bind].
  unfold residual_function in Hsol. rewrite Hsol. reflexivity.
Qed.

End GaussianFit.

Lemma fit_gaussian_tt_ignores_ier_witness :
  exists r,
    @fit_gaussian_tt (example_externals stalled (Raise ValueError))
      (VArray snapshot23) guess23 = Ok r
    /\ isinstance r MLGaussianFit = true
    /\ attr "A" r = VFloat 7
    /\ attr "mu_x" r = VFloat (np_remainder 1 (float_of_nat 3))
    /\ attr "mu_y" r = VFloat (np_remainder 0 (float_of_nat 2))
    /\ attr "sigma" r = VFloat 0.75
    /\ attr "err2" r =
       VArray (mk_ndarray
                 [length
                    (@residual_function
                       (example_externals stalled (Raise ValueError))
                       snapshot23 2 3 (mk_vec4 7 1 0 0.75))]
                 (map sqr
                    (@residual_function
                       (example_externals stalled (Raise ValueError))
                       snapshot23 2 3 (mk_vec4 7 1 0 0.75)))).
Proof.
  apply (@fit_gaussian_tt_ignores_ier
           (example_externals stalled (Raise ValueError))
           snapshot23 2 3 guess23 (mk_vec4 7 1 0 0.75) (mk_vec4 7 1 0 0.75) 5%Z).
  - reflexivity.
  - reflexivity.
  - reflexivity.
Defined.

(** C3 (counterexample).  The solver reports non-convergence and the fit
    returns a record all the same. *)
Lemma fit_gaussian_tt_returns_on_nonconvergence :
  leastsq_converged 5 = false
  /\ @leastsq (example_externals stalled (Raise ValueError))
       (@residual_function (example_externals stalled (Raise ValueError))
          snapshot23 2 3) (mk_vec4 7 1 0 0.75)
     = Ok (mk_vec4 7 1 0 0.75, 5%Z)
  /\ is_ok (@fit_gaussian_tt (example_externals stalled (Raise ValueError))
              (VArray snapshot23) guess23) = true.
Proof. repeat split. Qed.

(** * Sums *)

(** The outcome of the pairwise summation is a sum of the items, whatever
    the number of items. *)

Lemma is_sum_of_perm (l l' : list float) (s : float) :
  is_sum_of l s -> Permutation l l' -> is_sum_of l' s.
Proof.
  intros H Hp. destruct H as [z Hz|x|l l1 l2 s1 s2 H1 H2 Hl].
  - apply Permutation_nil in Hp. subst l'. now apply sum_of_none.
  - apply Permutation_length_1_inv in Hp. subst l'. apply sum_of_one.
  - apply (sum_of_add l' l1 l2 s1 s2 H1 H2).
    now transitivity l; [symmetry|].
Qed.

Lemma is_sum_of_fold (l : list float) :
  forall (pre : list float) (acc : float),
    is_sum_of pre acc ->
    is_sum_of (pre ++ l) (fold_left PrimFloat.add l acc).
Proof.
  induction l as [|v l IH]; intros pre acc H; cbn [fold_left].
  - now rewrite app_nil_r.
  - replace (pre ++ v :: l) with ((pre ++ [v]) ++ l)
      by now rewrite <- app_assoc.
    apply IH.
    exact (sum_of_add _ pre [v] acc v H (sum_of_one v) (Permutation_refl _)).
Qed.

(** One pass over a block of eight: each running sum takes one item. *)
Lemma add_row_is_sum (cols : list (list float)) (r : list float) :
  Forall2 is_sum_of cols r ->
  forall ch : list float,
    length ch = length r ->
    exists cols',
      Forall2 is_sum_of cols'
        (map (fun p => (fst p + snd p)%float) (combine r ch))
      /\ Permutation (concat cols ++ ch) (concat cols').
Proof.
  induction 1 as [|c x cols r Hc _ IH]; intros ch Hlen.
  - destruct ch; [|discriminate]. exists []. split; constructor.
  - destruct ch as [|a ch]; [discriminate|].
    destruct (IH ch) as (cols' & HF & HP); [now injection Hlen|].
    exists ((c ++ [a]) :: cols'). split.
    + cbn [combine map fst snd]. constructor; [|exact HF].
      exact (sum_of_add _ c [a] x a Hc (sum_of_one a) (Permutation_refl _)).
    + cbn [concat]. rewrite <- !app_assoc. apply Permutation_app_head.
      cbn [app]. rewrite <- HP.
      symmetry. apply Permutation_middle.
Qed.

Lemma add_rows_is_sum (k : nat) :
  forall (r l : list float) (cols : list (list float)) (pre : list float),
    Forall2 is_sum_of cols r ->
    Permutation pre (concat cols) ->
    length r = 8 ->
    8 * k <= length l ->
    exists cols' done,
      Forall2 is_sum_of cols' (fst (add_rows k r l))
      /\ l = done ++ snd (add_rows k r l)
      /\ Permutation (pre ++ done) (concat cols')
      /\ length (fst (add_rows k r l)) = 8.
Proof.
  induction k as [|k IH]; intros r l cols pre HF HP Hr Hl.
  - exists cols, []. cbn [add_rows fst snd app]. rewrite app_nil_r.
    now repeat split.
  - cbn [add_rows].
    assert (Hch : length (firstn 8 l) = 8) by (rewrite length_firstn; lia).
    destruct (add_row_is_sum cols r HF (firstn 8 l)) as (cols1 & HF1 & HP1);
      [now rewrite Hch, Hr|].
    destruct (IH (map (fun p => (fst p + snd p)%float)
                    (combine r (firstn 8 l)))
                (skipn 8 l) cols1 (pre ++ firstn 8 l) HF1)
      as (cols' & done & HF' & Hl' & HP' & Hlen').
    + rewrite <- HP1. now apply Permutation_app_tail.
    + rewrite length_map, length_combine, Hch, Hr. reflexivity.
    + rewrite length_skipn. lia.
    + exists cols', (firstn 8 l ++ done). split; [exact HF'|]. split.
      * rewrite <- app_assoc, <- Hl'. symmetry. apply firstn_skipn.
      * split; [|exact Hlen']. now rewrite app_assoc.
Qed.

Lemma block_sum_is_sum (l : list float) :
  8 <= length l -> is_sum_of l (block_sum l).
Proof.
  intros Hl. unfold block_sum.
  assert (H8 : length (firstn 8 l) = 8) by (rewrite length_firstn; lia).
  assert (HF : Forall2 is_sum_of (map (fun x => [x]) (firstn 8 l))
                 (firstn 8 l)).
  { generalize (firstn 8 l). intros r.
    induction r as [|x r IH]; constructor; [apply sum_of_one | exact IH]. }
  assert (HP : Permutation (firstn 8 l)
                 (concat (map (fun x => [x]) (firstn 8 l)))).
  { generalize (firstn 8 l). intros r.
    induction r as [|x r IH]; cbn; [constructor | now constructor]. }
  destruct (add_rows_is_sum (length l / 8 - 1) (firstn 8 l) (skipn 8 l)
              _ (firstn 8 l) HF HP H8)
    as (cols & done & HF' & Hsk & HP' & Hlen).
  { rewrite length_skipn.
    pose proof (Nat.Div0.mul_div_le (length l) 8). lia. }
  destruct (add_rows (length l / 8 - 1) (firstn 8 l) (skipn 8 l))
    as [r rest]. cbn [fst snd] in *.
  destruct r as [|r0 [|r1 [|r2 [|r3 [|r4 [|r5 [|r6 [|r7 [|? ?]]]]]]]]];
    try discriminate Hlen.
  cbn [nth].
  inversion HF' as [|c0 ? cs0 ? S0 HF0]; subst.
  inversion HF0 as [|c1 ? cs1 ? S1 HF1]; subst.
  inversion HF1 as [|c2 ? cs2 ? S2 HF2]; subst.
  inversion HF2 as [|c3 ? cs3 ? S3 HF3]; subst.
  inversion HF3 as [|c4 ? cs4 ? S4 HF4]; subst.
  inversion HF4 as [|c5 ? cs5 ? S5 HF5]; subst.
  inversion HF5 as [|c6 ? cs6 ? S6 HF6]; subst.
  inversion HF6 as [|c7 ? cs7 ? S7 HF7]; subst.
  inversion HF7; subst.
  rewrite <- (firstn_skipn 8 l) at 1. rewrite Hsk, app_assoc.
  apply is_sum_of_fold.
  apply (is_sum_of_perm
           (((c0 ++ c1) ++ (c2 ++ c3)) ++ ((c4 ++ c5) ++ (c6 ++ c7)))).
  - repeat (eapply sum_of_add; [| |apply Permutation_refl]);
      assumption.
  - rewrite HP'. cbn [concat]. rewrite app_nil_r, <- !app_assoc.
    apply Permutation_refl.
Qed.

Lemma pairwise_sum_eq (fuel : nat) (l : list float) :
  pairwise_sum fuel l =
  if length l <? 8 then fold_left PrimFloat.add l (-0)%float
  else if length l <=? 128 then block_sum l
  else
    match fuel with
    | O => block_sum l
    | S fuel' =>
        (pairwise_sum fuel'
           (firstn (length l / 2 - (length l / 2) mod 8) l)
         + pairwise_sum fuel'
             (skipn (length l / 2 - (length l / 2) mod 8) l))%float
    end.
Proof. destruct fuel; reflexivity. Qed.

Lemma pairwise_sum_is_sum (fuel : nat) :
  forall l : list float, is_sum_of l (pairwise_sum fuel l).
Proof.
  induction fuel as [|fuel IH]; intros l; rewrite pairwise_sum_eq;
    destruct (length l <? 8) eqn:E8;
    try (apply (is_sum_of_fold l []); now apply sum_of_none);
    apply Nat.ltb_ge in E8;
    destruct (length l <=? 128);
    try (now apply block_sum_is_sum).
  apply (sum_of_add l _ _ _ _ (IH _) (IH _)).
  now rewrite firstn_skipn.
Qed.

(** [np.sum] returns a sum of the items of the array. *)
Lemma np_sum_is_sum (l : list float) : is_sum_of l (np_sum l).
Proof.
  unfold np_sum.
  exact (sum_of_add l [] l _ _ (sum_of_none 0%float eq_refl)
           (pairwise_sum_is_sum (length l) l) (Permutation_refl l)).
Qed.

(** The fuel of [np_sum] is enough: with at least as much fuel as there are
    items, the outcome does not depend on the fuel. *)
Lemma pairwise_sum_fuel (fuel : nat) :
  forall (l : list float) (fuel' : nat),
    length l <= fuel -> length l <= fuel' ->
    pairwise_sum fuel l = pairwise_sum fuel' l.
Proof.
  induction fuel as [|fuel IH]; intros l fuel' Hf Hf';
    rewrite (pairwise_sum_eq _ l), (pairwise_sum_eq fuel' l);
    destruct (length l <? 8) eqn:E8; try reflexivity;
    destruct (length l <=? 128) eqn:E128; try reflexivity;
    apply Nat.ltb_ge in E8; apply Nat.leb_gt in E128.
  - lia.
  - destruct fuel' as [|fuel']; [lia|].
    pose proof (Nat.mod_upper_bound (length l / 2) 8) as Hm.
    pose proof (Nat.Div0.mul_div_le (length l) 2) as Hd.
    assert (Hd2 : 64 <= length l / 2).
    { apply (Nat.Div0.div_le_mono 128 (length l) 2). lia. }
    f_equal; apply IH; rewrite ?length_firstn, ?length_skipn; lia.
Qed.

(** Fewer than eight items: the sum is the accumulation in index order
    from [-0.], then added to [0.]. *)
Lemma np_sum_small (l : list float) :
  length l < 8 ->
  np_sum l = (0 + fold_left PrimFloat.add l (-0))%float.
Proof.
  intros H. unfold np_sum. rewrite pairwise_sum_eq.
  now replace (length l <? 8) with true by (symmetry; now apply Nat.ltb_lt).
Qed.

(** Eight copies of [0.1] make one block: the running sums are the items,
    added in pairs to [0.8], so that the mean is [0.1] and the variance
    zero.  Ten copies sum to [1]; added one after the other they would sum
    to the double below [1]. *)
Example np_sum_of_tenths :
  np_sum (repeat tenth 8) = 0x1.999999999999ap-1%float
  /\ np_mean (repeat tenth 8) = tenth
  /\ np_var (repeat tenth 8) = 0%float
  /\ np_sum (repeat tenth 10) = 1%float
  /\ fold_left PrimFloat.add (repeat tenth 10) 0%float
     = 0x1.fffffffffffffp-1%float.
Proof. repeat split. Qed.

(** * The uniform maximum-likelihood fit *)

Lemma np_mean_sample_mean (sig : list float) : np_mean sig = sample_mean sig.
Proof. reflexivity. Qed.

Lemma np_var_population_variance (sig : list float) :
  np_var sig = population_variance sig.
Proof.
  unfold np_var, np_var_ddof, population_variance, residuals, np_sum.
  rewrite map_map, Nat.sub_0_r, Nat.max_0_r. reflexivity.
Qed.

Lemma residuals_nth (sig : list float) (k : nat) :
  k < length sig ->
  nth k (residuals sig) nan = sqr (nth k sig nan - sample_mean sig).
Proof.
  intros Hk. unfold residuals.
  rewrite (nth_indep _ nan (sqr (nan - sample_mean sig)))
    by now rewrite length_map.
  now rewrite (map_nth (fun v => sqr (v - sample_mean sig)) sig nan k).
Qed.

Lemma attr_MLFit_sigma2 (mu sigma2 ln_lh err2 : value) :
  attr "sigma2" (mk_MLFit mu sigma2 ln_lh err2) = sigma2.
Proof. reflexivity. Qed.

Lemma attr_MLFit_err2 (mu sigma2 ln_lh err2 : value) :
  attr "err2" (mk_MLFit mu sigma2 ln_lh err2) = err2.
Proof. reflexivity. Qed.

Section UniformFit.
Context {E : Externals}.

Lemma fit_maximum_lh_eq (arr : ndarray) :
  fit_maximum_lh (VArray arr) =
  Ok (mk_MLFit (VFloat (np_mean (data arr))) (VFloat (np_var (data arr)))
        (VFloat (if (np_var (data arr) =? 0)%float then np_inf
                 else ln_lh_formula (data arr)))
        (VArray (mk_ndarray [length (residuals (data arr))]
                   (residuals (data arr))))).
Proof. reflexivity. Qed.

(** C4 (amended).  [fit_maximum_lh] raises on no array, empty or not: it
    always returns an [MLFit].  For an empty array the record holds NaN as
    mean and variance and an empty [err2]. *)
Theorem fit_maximum_lh_total (arr : ndarray) :
  exists r,
    fit_maximum_lh (VArray arr) = Ok r
    /\ isinstance r MLFit = true
    /\ has_attrs ["mu"; "sigma2"; "ln_lh"; "err2"] r = true
    /\ (data arr = [] ->
        attr "mu" r = VFloat nan /\ attr "sigma2" r = VFloat nan
        /\ attr "err2" r = VArray (mk_ndarray [0] [])).
Proof.
  eexists. split; [apply fit_maximum_lh_eq|].
  split; [reflexivity|]. split; [reflexivity|].
  intros H0. rewrite H0. repeat split.
Qed.

(** C5.  [fit_maximum_lh] returns as [mu] a sample mean of the flattened
    input, a sum of the samples divided by their number; as [sigma2] a
    population variance about that mean, a sum of the squared deviations
    divided by [n] (not by [n - 1]); and as [err2] one squared deviation
    [(sig[k] - mu)^2] per sample.  The sums are binary64 sums of all the
    items, whose order of additions the statement leaves open.  On
    [[1, 2, 3, 4, 5]] these are [mu = 3] and [sigma2 = 2] (the divisor
    [n - 1] would give [2.5]). *)
Theorem fit_maximum_lh_moments :
  (forall arr : ndarray,
      exists r mu sigma2 err2,
        fit_maximum_lh (VArray arr) = Ok r
        /\ attr "mu" r = VFloat mu
        /\ attr "sigma2" r = VFloat sigma2
        /\ attr "err2" r = VArray (mk_ndarray [length (data arr)] err2)
        /\ is_sample_mean (data arr) mu
        /\ err2 = squared_deviations (data arr) mu
        /\ length err2 = length (data arr)
        /\ (forall k, k < length (data arr) ->
                      nth k err2 nan = sqr (nth k (data arr) nan - mu)%float)
        /\ is_population_variance (data arr) mu sigma2)
  /\ (exists r,
         fit_maximum_lh (VArray (mk_ndarray [5] [1; 2; 3; 4; 5]%float))
         = Ok r
         /\ attr "mu" r = VFloat 3 /\ attr "sigma2" r = VFloat 2)
  /\ unbiased_variance [1; 2; 3; 4; 5]%float = 2.5%float.
Proof.
  split; [|split].
  - intros arr.
    exists
      (mk_MLFit (VFloat (np_mean (data arr))) (VFloat (np_var (data arr)))
         (VFloat (if (np_var (data arr) =? 0)%float then np_inf
                  else ln_lh_formula (data arr)))
         (VArray (mk_ndarray [length (residuals (data arr))]
                    (residuals (data arr))))),
      (np_mean (data arr)), (np_var (data arr)), (residuals (data arr)).
    split; [apply fit_maximum_lh_eq|].
    split; [reflexivity|]. split; [reflexivity|].
    split; [rewrite attr_MLFit_err2; unfold residuals;
            now rewrite length_map|].
    split; [exists (np_sum (data arr)); split;
            [apply np_sum_is_sum | reflexivity]|].
    split; [reflexivity|].
    split; [unfold residuals; now rewrite length_map|].
    split; [intros k Hk; now apply residuals_nth|].
    exists (np_sum (residuals (data arr))). split.
    + apply (np_sum_is_sum (residuals (data arr))).
    + now rewrite np_var_population_variance.
  - eexists. split; [apply fit_maximum_lh_eq|].
    split; vm_compute; reflexivity.
  - vm_compute. reflexivity.
Qed.

End UniformFit.

(** C4 (counterexample).  On a zero-length array the fit returns a record,
    whose mean and variance are NaN. *)
Lemma fit_maximum_lh_empty_returns :
  exists r,
    @fit_maximum_lh (example_externals stalled (Raise ValueError))
      (VArray (mk_ndarray [0] [])) = Ok r
    /\ attr "mu" r = VFloat nan /\ attr "sigma2" r = VFloat nan.
Proof. eexists. split; [reflexivity|]. split; reflexivity. Qed.

Lemma fit_maximum_lh_total_witness :
  exists r,
    @fit_maximum_lh (example_externals stalled (Raise ValueError))
      (VArray (mk_ndarray [0] [])) = Ok r
    /\ isinstance r MLFit = true
    /\ has_attrs ["mu"; "sigma2"; "ln_lh"; "err2"] r = true
    /\ (@nil float = [] ->
        attr "mu" r = VFloat nan /\ attr "sigma2" r = VFloat nan
        /\ attr "err2" r = VArray (mk_ndarray [0] [])).
Proof.
  exact (@fit_maximum_lh_total (example_externals stalled (Raise ValueError))
           (mk_ndarray [0] [])).
Defined.

(** C6 (counterexample).  The three elements are equal, yet their computed
    mean is one unit in the last place above them, the variance is [2^-112]
    and not zero, and [ln_lh] is what the formula with the logarithm
    gives. *)
Lemma fit_maximum_lh_constant_nonzero_variance :
  Forall (fun v => v = tenth) [tenth; tenth; tenth]
  /\ np_mean [tenth; tenth; tenth] = 0x1.999999999999bp-4%float
  /\ np_var [tenth; tenth; tenth] = 0x1p-112%float
  /\ (0x1p-112 =? 0)%float = false
  /\ exists r,
      @fit_maximum_lh (example_externals stalled (Raise ValueError))
        (VArray (mk_ndarray [3] [tenth; tenth; tenth])) = Ok r
      /\ attr "sigma2" r = VFloat 0x1p-112
      /\ attr "ln_lh" r =
         VFloat (@ln_lh_formula
                   (example_externals stalled (Raise ValueError))
                   [tenth; tenth; tenth]).
Proof.
  split; [repeat constructor|].
  split; [reflexivity|]. split; [reflexivity|]. split; [reflexivity|].
  eexists. split; [reflexivity|]. split; reflexivity.
Qed.

(** * The orchestrator *)

Lemma list_item_nat {A : Type} (l : list A) (k : nat) (d : A) :
  k < length l -> list_item l (Z.of_nat k) = Ok (nth k l d).
Proof.
  intros Hk. rewrite <- (map_id l) at 1.
  now rewrite (list_item_map (fun x => x) l k d Hk).
Qed.

Lemma collect_cons_inv (body : nat -> result value) (k : nat)
  (idx : list nat) (ds : list value) :
  collect body (k :: idx) = Ok ds ->
  exists d ds', body k = Ok d /\ collect body idx = Ok ds' /\ ds = d :: ds'.
Proof.
  simpl. destruct (body k) as [d|]; simpl; [|discriminate].
  destruct (collect body idx) as [ds'|]; simpl; [|discriminate].
  intros [= <-]. eauto.
Qed.

Lemma bind_Ok_inv {A B : Type} (c : result A) (k : A -> result B) (b : B) :
  bind c k = Ok b -> exists a, c = Ok a /\ k a = Ok b.
Proof. destruct c as [a|]; simpl; [eauto | discriminate]. Qed.

Section Orchestration.
Context {E : Externals}.

Lemma fit_window_Gaussian (fit_callable : value -> result value)
  (full_err : bool) (F : ndarray) (Ft : list float) (k : nat) (d : value)
  (A mu_x mu_y sigma err2 ln_lh lh_precision times : list value) :
  (s <- slice_last F k ;; fit_callable s) = Ok d ->
  Gaussian_fit d ->
  k < length Ft ->
  fit_window fit_callable full_err F Ft
    (mk_MLGaussianFitList A mu_x mu_y sigma err2 ln_lh lh_precision times) k
  = Ok (mk_MLGaussianFitList (A ++ [attr "A" d]) (mu_x ++ [attr "mu_x" d])
          (mu_y ++ [attr "mu_y" d]) (sigma ++ [attr "sigma" d])
          (err2 ++ [if full_err then attr "err2" d else err2_sum d])
          (ln_lh ++ [attr "ln_lh" d])
          (lh_precision ++ [attr "lh_precision" d])
          (times ++ [VFloat (nth k Ft 0%float)])).
Proof.
  intros Hfit (a & mx & my & sg & e & l & p & ->) Hk.
  apply bind_Ok_inv in Hfit. destruct Hfit as (s & Hs & Hfit).
  unfold fit_window. rewrite Hs. cbn [bind]. rewrite Hfit. cbn [bind].
  rewrite (list_item_nat Ft k 0%float Hk).
  destruct full_err; reflexivity.
Qed.

Lemma fit_window_uniform (fit_callable : value -> result value)
  (full_err : bool) (F : ndarray) (Ft : list float) (k : nat) (d : value)
  (mu sigma2 ln_lh err2 times : list value) :
  (s <- slice_last F k ;; fit_callable s) = Ok d ->
  uniform_fit_record d ->
  k < length Ft ->
  fit_window fit_callable full_err F Ft
    (mk_MLFitList mu sigma2 ln_lh err2 times) k
  = Ok (mk_MLFitList (mu ++ [attr "mu" d]) (sigma2 ++ [attr "sigma2" d])
          (ln_lh ++ [attr "ln_lh" d])
          (err2 ++ [if full_err then attr "err2" d else err2_sum d])
          (times ++ [VFloat (nth k Ft 0%float)])).
Proof.
  intros Hfit (m & s2 & e & l & ->) Hk.
  apply bind_Ok_inv in Hfit. destruct Hfit as (s & Hs & Hfit).
  unfold fit_window. rewrite Hs. cbn [bind]. rewrite Hfit. cbn [bind].
  rewrite (list_item_nat Ft k 0%float Hk).
  destruct full_err; reflexivity.
Qed.

Lemma for_each_Gaussian (fit_callable : value -> result value)
  (full_err : bool) (F : ndarray) (Ft : list float) (idx : list nat) :
  forall (ds : list value)
         (A mu_x mu_y sigma err2 ln_lh lh_precision times : list value),
    collect (fun k => s <- slice_last F k ;; fit_callable s) idx = Ok ds ->
    Forall Gaussian_fit ds ->
    Forall (fun k => k < length Ft) idx ->
    for_each idx (fit_window fit_callable full_err F Ft)
      (mk_MLGaussianFitList A mu_x mu_y sigma err2 ln_lh lh_precision times)
    = Ok (mk_MLGaussianFitList (A ++ map (attr "A") ds)
            (mu_x ++ map (attr "mu_x") ds) (mu_y ++ map (attr "mu_y") ds)
            (sigma ++ map (attr "sigma") ds)
            (err2 ++ map (fun d => if full_err then attr "err2" d
                                   else err2_sum d) ds)
            (ln_lh ++ map (attr "ln_lh") ds)
            (lh_precision ++ map (attr "lh_precision") ds)
            (times ++ map (fun k => VFloat (nth k Ft 0%float)) idx)).
Proof.
  induction idx as [|k idx IH]; intros ds A mu_x mu_y sigma err2 ln_lh
    lh_precision times Hc Hg Hi.
  - injection Hc as <-. simpl. now rewrite !app_nil_r.
  - apply collect_cons_inv in Hc. destruct Hc as (d & ds' & Hd & Hc & ->).
    inversion Hg as [|? ? Hgd Hg']; subst.
    inversion Hi as [|? ? Hk Hi']; subst.
    cbn [for_each].
    rewrite (fit_window_Gaussian _ _ _ _ _ d) by assumption. cbn [bind].
    rewrite (IH ds') by assumption. cbn [map].
    now rewrite <- !app_assoc.
Qed.

Lemma for_each_uniform (fit_callable : value -> result value)
  (full_err : bool) (F : ndarray) (Ft : list float) (idx : list nat) :
  forall (ds : list value) (mu sigma2 ln_lh err2 times : list value),
    collect (fun k => s <- slice_last F k ;; fit_callable s) idx = Ok ds ->
    Forall uniform_fit_record ds ->
    Forall (fun k => k < length Ft) idx ->
    for_each idx (fit_window fit_callable full_err F Ft)
      (mk_MLFitList mu sigma2 ln_lh err2 times)
    = Ok (mk_MLFitList (mu ++ map (attr "mu") ds)
            (sigma2 ++ map (attr "sigma2") ds)
            (ln_lh ++ map (attr "ln_lh") ds)
            (err2 ++ map (fun d => if full_err then attr "err2" d
                                   else err2_sum d) ds)
            (times ++ map (fun k => VFloat (nth k Ft 0%float)) idx)).
Proof.
  induction idx as [|k idx IH]; intros ds mu sigma2 ln_lh err2 times
    Hc Hg Hi.
  - injection Hc as <-. simpl. now rewrite !app_nil_r.
  - apply collect_cons_inv in Hc. destruct Hc as (d & ds' & Hd & Hc & ->).
    inversion Hg as [|? ? Hgd Hg']; subst.
    inversion Hi as [|? ? Hk Hi']; subst.
    cbn [for_each].
    rewrite (fit_window_uniform _ _ _ _ _ d) by assumption. cbn [bind].
    rewrite (IH ds') by assumption. cbn [map].
    now rewrite <- !app_assoc.
Qed.

Lemma map_nth_seq (Ft : list float) :
  map (fun k => VFloat (nth k Ft 0%float)) (seq 0 (length Ft))
  = map VFloat Ft.
Proof.
  rewrite <- (map_map (fun k => nth k Ft 0%float) VFloat).
  f_equal. apply nth_ext with (d := 0%float) (d' := 0%float).
  - now rewrite length_map, length_seq.
  - intros n Hn. rewrite length_map, length_seq in Hn.
    rewrite (nth_indep _ 0%float (nth 0 Ft 0%float))
      by now rewrite length_map, length_seq.
    rewrite (map_nth (fun k => nth k Ft 0%float) (seq 0 (length Ft)) 0 n).
    now rewrite seq_nth.
Qed.

Lemma seq_bound (n : nat) : Forall (fun k => k < n) (seq 0 n).
Proof. apply Forall_forall. intros k Hk. apply in_seq in Hk. lia. Qed.

(** The records [fit_gaussian_tt] returns. *)
Lemma fit_gaussian_tt_record (sig_f i d : value) :
  fit_gaussian_tt sig_f i = Ok d -> Gaussian_fit d.
Proof.
  unfold fit_gaussian_tt. destruct sig_f as [| | |arr| | | |]; try discriminate.
  destruct (shape arr) as [|dy [|dx [|? ?]]]; try discriminate.
  - destruct (initial_vector i) as [x0|]; [|discriminate]. cbn [bind].
    destruct (leastsq _ x0) as [[xest ier]|]; [|discriminate]. cbn [bind].
    rewrite new_MLGaussianFit_eq. intros [= <-].
    unfold Gaussian_fit. do 7 eexists. reflexivity.
  - destruct (initial_vector i) as [x0|]; [|discriminate]. cbn [bind].
    destruct (gaussian_diff_nd _ _ _ x0) as [e0|]; [|discriminate].
    cbn [bind].
    destruct (leastsq _ x0) as [[xest ier]|]; [|discriminate]. cbn [bind].
    destruct (gaussian_diff_nd _ _ _ xest) as [e|]; [|discriminate].
    cbn [bind].
    rewrite new_MLGaussianFit_eq. intros [= <-].
    unfold Gaussian_fit. do 7 eexists. reflexivity.
Qed.

Lemma fit_gaussian_bump_tt_record (sig d : value) :
  fit_gaussian_bump_tt sig = Ok d -> Gaussian_fit d.
Proof.
  unfold fit_gaussian_bump_tt. destruct sig as [| | |arr| | | |]; try discriminate.
  destruct (shape arr) as [|dy [|dx [|? ?]]]; try discriminate.
  destruct (np_argmax (data arr)) as [k|]; [|discriminate]. cbn [bind].
  destruct (np_unravel_index k dy dx) as [[y x]|]; [|discriminate]. cbn [bind].
  destruct (array_item2 arr y x) as [a0|]; [|discriminate]. cbn [bind].
  rewrite new_SymmetricGaussianParams_eq. cbn [bind].
  apply fit_gaussian_tt_record.
Qed.

Lemma fit_maximum_lh_record (sig d : value) :
  fit_maximum_lh sig = Ok d -> uniform_fit_record d.
Proof.
  destruct sig as [| | |arr| | | |]; try discriminate.
  rewrite fit_maximum_lh_eq. intros [= <-].
  unfold uniform_fit_record. do 4 eexists. reflexivity.
Qed.

Lemma collect_Forall (P : value -> Prop) (body : nat -> result value)
  (idx : list nat) :
  (forall k d, body k = Ok d -> P d) ->
  forall ds, collect body idx = Ok ds -> Forall P ds.
Proof.
  intros HP. induction idx as [|k idx IH]; intros ds Hc.
  - injection Hc as <-. constructor.
  - apply collect_cons_inv in Hc. destruct Hc as (d & ds' & Hd & Hc & ->).
    constructor; eauto.
Qed.

Lemma window_fits_Gaussian (F : ndarray) (n : nat) (ds : list value) :
  window_fits fit_gaussian_bump_tt F n = Ok ds -> Forall Gaussian_fit ds.
Proof.
  apply collect_Forall. intros k d H.
  apply bind_Ok_inv in H. destruct H as (s & _ & H).
  eapply fit_gaussian_bump_tt_record; eauto.
Qed.

Lemma window_fits_uniform (F : ndarray) (n : nat) (ds : list value) :
  window_fits fit_maximum_lh F n = Ok ds -> Forall uniform_fit_record ds.
Proof.
  apply collect_Forall. intros k d H.
  apply bind_Ok_inv in H. destruct H as (s & _ & H).
  eapply fit_maximum_lh_record; eauto.
Qed.




(** A window whose fit raises makes the run raise: no window is skipped. *)
Lemma for_each_raises (fit_callable : value -> result value)
  (full_err : bool) (F : ndarray) (Ft : list float) (idx : list nat)
  (res r : value) :
  for_each idx (fit_window fit_callable full_err F Ft) res = Ok r ->
  exists ds,
    collect (fun k => s <- slice_last F k ;; fit_callable s) idx = Ok ds.
Proof.
  revert res. induction idx as [|k idx IH]; intros res H.
  - now exists [].
  - cbn [for_each] in H. apply bind_Ok_inv in H.
    destruct H as (res' & Hw & H). apply IH in H. destruct H as (ds & Hds).
    unfold fit_window in Hw.
    apply bind_Ok_inv in Hw. destruct Hw as (s & Hs & Hw).
    apply bind_Ok_inv in Hw. destruct Hw as (d & Hd & _).
    exists (d :: ds). cbn [collect]. rewrite Hs. cbn [bind].
    rewrite Hd. cbn [bind]. rewrite Hds. reflexivity.
Qed.

End Orchestration.


(** * The wrapped centre *)

Section WrappedCentre.
Context {E : Externals}.

(** C7 (amended).  The centre stored by [fit_gaussian_tt] is the centre the
    solver returned, reduced by numpy's floating-point remainder with the
    width and the height of the snapshot.  For a finite raw coordinate and
    a non-empty dimension [W] the stored coordinate lies in the closed
    interval [[0, W]]; a raw coordinate already in [[0, W)] is stored as it
    is (hence below [W]); a raw coordinate that is NaN or infinite is
    stored as NaN. *)
Theorem fit_gaussian_tt_wraps_center
  (arr : ndarray) (dim_y dim_x : nat) (i : value) (x0 xest : vec4)
  (ier : Z) :
  shape arr = [dim_y; dim_x] ->
  initial_vector i = Ok x0 ->
  leastsq (residual_function arr dim_y dim_x) x0 = Ok (xest, ier) ->
  exists r mu_x mu_y,
    fit_gaussian_tt (VArray arr) i = Ok r
    /\ attr "mu_x" r = VFloat mu_x /\ attr "mu_y" r = VFloat mu_y
    /\ mu_x = np_remainder (x_1 xest) (float_of_nat dim_x)
    /\ mu_y = np_remainder (x_2 xest) (float_of_nat dim_y)
    /\ (0 < dim_x -> is_finite (x_1 xest) = true ->
        (0 <=? mu_x)%float = true
        /\ (mu_x <=? float_of_nat dim_x)%float = true)
    /\ (0 < dim_y -> is_finite (x_2 xest) = true ->
        (0 <=? mu_y)%float = true
        /\ (mu_y <=? float_of_nat dim_y)%float = true)
    /\ ((0 <=? x_1 xest)%float = true ->
        (x_1 xest <? float_of_nat dim_x)%float = true ->
        (mu_x =? x_1 xest)%float = true
        /\ (mu_x <? float_of_nat dim_x)%float = true)
    /\ ((0 <=? x_2 xest)%float = true ->
        (x_2 xest <? float_of_nat dim_y)%float = true ->
        (mu_y =? x_2 xest)%float = true
        /\ (mu_y <? float_of_nat dim_y)%float = true)
    /\ (is_nan (x_1 xest) = true
        \/ (abs (x_1 xest) =? infinity)%float = true ->
        is_nan mu_x = true)
    /\ (is_nan (x_2 xest) = true
        \/ (abs (x_2 xest) =? infinity)%float = true ->
        is_nan mu_y = true).
Proof.
  intros Hs Hx0 Hsol.
  exists
    (mk_MLGaussianFit (VFloat (x_0 xest))
       (VFloat (np_remainder (x_1 xest) (float_of_nat dim_x)))
       (VFloat (np_remainder (x_2 xest) (float_of_nat dim_y)))
       (VFloat (x_3 xest))
       (VArray (mk_ndarray
                  [length (map sqr (residual_function arr dim_y dim_x xest))]
                  (map sqr (residual_function arr dim_y dim_x xest))))
       (VFloat
          (- (1 / np_mean (map sqr (residual_function arr dim_y dim_x xest)))
             / 2
           * np_sum (map sqr (residual_function arr dim_y dim_x xest))
           + float_of_nat (dim_x * dim_y) / 2
             * np_log
                 (1 / np_mean
                        (map sqr (residual_function arr dim_y dim_x xest)))
           - float_of_nat (dim_x * dim_y) / 2 * np_log (2 * np_pi)
           - 5)%float)
       (VFloat
          (1 / np_mean (map sqr (residual_function arr dim_y dim_x xest))))),
    (np_remainder (x_1 xest) (float_of_nat dim_x)),
    (np_remainder (x_2 xest) (float_of_nat dim_y)).
  split; [apply (fit_gaussian_tt_eq arr dim_y dim_x i x0 xest ier Hs Hx0 Hsol)|].
  split; [reflexivity|]. split; [reflexivity|].
  split; [reflexivity|]. split; [reflexivity|].
  split; [intros Hd Hf; apply np_remainder_range;
          [exact Hf | now apply float_of_nat_positive]|].
  split; [intros Hd Hf; apply np_remainder_range;
          [exact Hf | now apply float_of_nat_positive]|].
  split; [intros; now apply np_remainder_in_range|].
  split; [intros; now apply np_remainder_in_range|].
  split; intros; now apply np_remainder_not_finite.
Qed.

End WrappedCentre.

(** C7 (counterexample).  On the 2 x 3 snapshot the solver hands back the
    centre [(-1e-20, 0)]; the stored [mu_x] is the width [3] itself, which
    is not below the width. *)
Lemma fit_gaussian_tt_center_on_seam :
  exists r,
    @fit_gaussian_tt (example_externals converged_at_guess (Raise ValueError))
      (VArray snapshot23) guess_left_of_seam = Ok r
    /\ attr "mu_x" r = VFloat 3
    /\ float_of_nat 3 = 3%float
    /\ (3 <? float_of_nat 3)%float = false.
Proof. eexists. repeat split. Qed.

Lemma fit_gaussian_tt_wraps_center_witness :
  exists r mu_x mu_y,
    @fit_gaussian_tt (example_externals converged_at_guess (Raise ValueError))
      (VArray snapshot23) guess_left_of_seam = Ok r
    /\ attr "mu_x" r = VFloat mu_x /\ attr "mu_y" r = VFloat mu_y
    /\ mu_x = np_remainder tiny_negative (float_of_nat 3)
    /\ mu_y = np_remainder 0 (float_of_nat 2)
    /\ (0 < 3 -> is_finite tiny_negative = true ->
        (0 <=? mu_x)%float = true /\ (mu_x <=? float_of_nat 3)%float = true)
    /\ (0 < 2 -> is_finite 0 = true ->
        (0 <=? mu_y)%float = true /\ (mu_y <=? float_of_nat 2)%float = true)
    /\ ((0 <=? tiny_negative)%float = true ->
        (tiny_negative <? float_of_nat 3)%float = true ->
        (mu_x =? tiny_negative)%float = true
        /\ (mu_x <? float_of_nat 3)%float = true)
    /\ ((0 <=? 0)%float = true ->
        (0 <? float_of_nat 2)%float = true ->
        (mu_y =? 0)%float = true /\ (mu_y <? float_of_nat 2)%float = true)
    /\ (is_nan tiny_negative = true
        \/ (abs tiny_negative =? infinity)%float = true ->
        is_nan mu_x = true)
    /\ (is_nan 0 = true \/ (abs 0 =? infinity)%float = true ->
        is_nan mu_y = true).
Proof.
  apply (@fit_gaussian_tt_wraps_center
           (example_externals converged_at_guess (Raise ValueError))
           snapshot23 2 3 guess_left_of_seam
           (mk_vec4 7 tiny_negative 0 0.75) (mk_vec4 7 tiny_negative 0 0.75)
           1%Z).
  - reflexivity.
  - reflexivity.
  - reflexivity.
Defined.


(** * Further properties of the containers *)

Lemma lookup_update_same (k : string) (v : value) (d : list (string * value)) :
  lookup k (update k v d) = Some v.
Proof.
  induction d as [|[k' v'] d IH]; simpl.
  - now rewrite String.eqb_refl.
  - destruct (String.eqb k k') eqn:E; simpl.
    + now rewrite String.eqb_refl.
    + now rewrite E.
Qed.

Lemma lookup_update_other (k k' : string) (v : value)
  (d : list (string * value)) :
  String.eqb k' k = false ->
  lookup k' (update k v d) = lookup k' d.
Proof.
  intros Hk. induction d as [|[k0 v0] d IH]; simpl.
  - now rewrite Hk.
  - destruct (String.eqb k k0) eqn:E; simpl.
    + apply String.eqb_eq in E. subst k0. now rewrite Hk.
    + destruct (String.eqb k' k0); [reflexivity | exact IH].
Qed.

Lemma attr_obj (c : class) (d : list (string * value)) (k : string)
  (v : value) :
  lookup k d = Some v -> attr k (VObj c d) = v.
Proof. intros H. unfold attr, getattr. now rewrite H. Qed.

(** A successful [self.<name>.append(x)] found a Python list. *)
Lemma append_attr_inv (self : value) (name : string) (rx : result value)
  (self' : value) :
  append_attr self name rx = Ok self' ->
  exists c attrs xs x,
    self = VObj c attrs /\ rx = Ok x
    /\ lookup name attrs = Some (VList xs)
    /\ self' = VObj c (update name (VList (xs ++ [x])) attrs).
Proof.
  unfold append_attr, getattr. destruct self as [| | | | | | |c attrs];
    try discriminate.
  destruct (lookup name attrs) as [l|] eqn:El; [|discriminate]. cbn [bind].
  destruct rx as [x|]; [|discriminate]. cbn [bind].
  destruct l as [| | | |xs| | |]; try discriminate. cbn.
  intros [= <-]. now exists c, attrs, xs, x.
Qed.

Lemma getattr_Ok_attr (o : value) (k : string) (v : value) :
  getattr o k = Ok v -> attr k o = v.
Proof. intros H. unfold attr. now rewrite H. Qed.

Lemma same_len_lists (c : class) (d : list (string * value)) (a b : string)
  (xs ys : list value) :
  lookup a d = Some (VList xs) -> lookup b d = Some (VList ys) ->
  same_len (VObj c d) a b = Ok (length xs =? length ys).
Proof. intros Ha Hb. now apply (same_len_obj c d a b (VList xs) (VList ys)). Qed.

Ltac lookups :=
  repeat (rewrite lookup_update_same
          || rewrite lookup_update_other by reflexivity).

(** One step of an append chain: the object, the list found and the item. *)
Ltac invert_append H c attrs xs L :=
  let c' := fresh "c" in
  let a' := fresh "a" in
  let x := fresh "x" in
  let Eo := fresh "Eo" in
  let Ex := fresh "Ex" in
  apply append_attr_inv in H;
  destruct H as (c' & a' & xs & x & Eo & Ex & L & ->);
  first [ injection Eo as <- <- | (subst; rename c' into c; rename a' into attrs) ];
  first [ apply getattr_Ok_attr in Ex; subst x | injection Ex as <- ].

(** What a successful [MLFitList._append_data] did. *)
Lemma MLFitList__append_data_inv (self d t self' : value) :
  MLFitList__append_data self d t = Ok self' ->
  exists c attrs mu sigma2 ln_lh err2 times,
    self = VObj c attrs /\ isinstance d MLFit = true
    /\ lookup "mu" attrs = Some (VList mu)
    /\ lookup "sigma2" attrs = Some (VList sigma2)
    /\ lookup "ln_lh" attrs = Some (VList ln_lh)
    /\ lookup "err2" attrs = Some (VList err2)
    /\ lookup "times" attrs = Some (VList times)
    /\ self' =
       VObj c
         (update "times" (VList (times ++ [t]))
            (update "err2" (VList (err2 ++ [attr "err2" d]))
               (update "ln_lh" (VList (ln_lh ++ [attr "ln_lh" d]))
                  (update "sigma2" (VList (sigma2 ++ [attr "sigma2" d]))
                     (update "mu" (VList (mu ++ [attr "mu" d])) attrs))))).
Proof.
  unfold MLFitList__append_data.
  destruct (isinstance d MLFit) eqn:Hi; [|discriminate]. cbn [negb].
  intros H.
  apply bind_Ok_inv in H. destruct H as (s1 & H1 & H).
  apply bind_Ok_inv in H. destruct H as (s2 & H2 & H).
  apply bind_Ok_inv in H. destruct H as (s3 & H3 & H).
  apply bind_Ok_inv in H. destruct H as (s4 & H4 & H5).
  invert_append H1 c attrs mu L1.
  invert_append H2 c attrs sigma2 L2.
  invert_append H3 c attrs ln_lh L3.
  invert_append H4 c attrs err2 L4.
  invert_append H5 c attrs times L5.
  revert L2 L3 L4 L5. lookups. intros L2 L3 L4 L5.
  exists c, attrs, mu, sigma2, ln_lh, err2, times. repeat split; assumption.
Qed.

(** What a successful [MLGaussianFitList._append_data] did. *)
Lemma MLGaussianFitList__append_data_inv (self d t self' : value) :
  MLGaussianFitList__append_data self d t = Ok self' ->
  exists c attrs A mu_x mu_y sigma err2 ln_lh lh_precision times,
    self = VObj c attrs /\ isinstance d MLGaussianFit = true
    /\ lookup "A" attrs = Some (VList A)
    /\ lookup "mu_x" attrs = Some (VList mu_x)
    /\ lookup "mu_y" attrs = Some (VList mu_y)
    /\ lookup "sigma" attrs = Some (VList sigma)
    /\ lookup "err2" attrs = Some (VList err2)
    /\ lookup "ln_lh" attrs = Some (VList ln_lh)
    /\ lookup "lh_precision" attrs = Some (VList lh_precision)
    /\ lookup "times" attrs = Some (VList times)
    /\ self' =
       VObj c
         (update "times" (VList (times ++ [t]))
         (update "lh_precision"
            (VList (lh_precision ++ [attr "lh_precision" d]))
         (update "ln_lh" (VList (ln_lh ++ [attr "ln_lh" d]))
         (update "err2" (VList (err2 ++ [attr "err2" d]))
         (update "sigma" (VList (sigma ++ [attr "sigma" d]))
         (update "mu_y" (VList (mu_y ++ [attr "mu_y" d]))
         (update "mu_x" (VList (mu_x ++ [attr "mu_x" d]))
         (update "A" (VList (A ++ [attr "A" d])) attrs)))))))).
Proof.
  unfold MLGaussianFitList__append_data.
  destruct (isinstance d MLGaussianFit) eqn:Hi; [|discriminate]. cbn [negb].
  intros H.
  apply bind_Ok_inv in H. destruct H as (s1 & H1 & H).
  apply bind_Ok_inv in H. destruct H as (s2 & H2 & H).
  apply bind_Ok_inv in H. destruct H as (s3 & H3 & H).
  apply bind_Ok_inv in H. destruct H as (s4 & H4 & H).
  apply bind_Ok_inv in H. destruct H as (s5 & H5 & H).
  apply bind_Ok_inv in H. destruct H as (s6 & H6 & H).
  apply bind_Ok_inv in H. destruct H as (s7 & H7 & H8).
  invert_append H1 c attrs A L1.
  invert_append H2 c attrs mu_x L2.
  invert_append H3 c attrs mu_y L3.
  invert_append H4 c attrs sigma L4.
  invert_append H5 c attrs err2 L5.
  invert_append H6 c attrs ln_lh L6.
  invert_append H7 c attrs lh_precision L7.
  invert_append H8 c attrs times L8.
  revert L2 L3 L4 L5 L6 L7 L8. lookups. intros L2 L3 L4 L5 L6 L7 L8.
  exists c, attrs, A, mu_x, mu_y, sigma, err2, ln_lh, lh_precision, times.
  repeat split; assumption.
Qed.

Lemma eqb_length_snoc {A : Type} (xs ys : list A) (x y : A) :
  (length (xs ++ [x]) =? length (ys ++ [y])) = (length xs =? length ys).
Proof. now rewrite !length_app, !Nat.add_1_r. Qed.

(** X3. [MLFitList._append_data], when it returns, found five Python lists
    (of the values modelled only a list has [append]; the five are owned by
    the container, none is shared) and has put one item at the end of each
    of them: the record's [mu], [sigma2], [ln_lh], [err2] and the time; and
    [_consistent] answers after the call what it answered before. *)
Theorem MLFitList_append_grows (self d t self' : value) :
  MLFitList__append_data self d t = Ok self' ->
  exists mu sigma2 ln_lh err2 times b,
    attr "mu" self = VList mu
    /\ attr "sigma2" self = VList sigma2
    /\ attr "ln_lh" self = VList ln_lh
    /\ attr "err2" self = VList err2
    /\ attr "times" self = VList times
    /\ attr "mu" self' = VList (mu ++ [attr "mu" d])
    /\ attr "sigma2" self' = VList (sigma2 ++ [attr "sigma2" d])
    /\ attr "ln_lh" self' = VList (ln_lh ++ [attr "ln_lh" d])
    /\ attr "err2" self' = VList (err2 ++ [attr "err2" d])
    /\ attr "times" self' = VList (times ++ [t])
    /\ MLFitList__consistent self = Ok b
    /\ MLFitList__consistent self' = Ok b.
Proof.
  intros H. apply MLFitList__append_data_inv in H.
  destruct H as (c & attrs & mu & sigma2 & ln_lh & err2 & times & -> & _
                 & L1 & L2 & L3 & L4 & L5 & ->).
  exists mu, sigma2, ln_lh, err2, times.
  exists ((length mu =? length sigma2) && ((length mu =? length ln_lh)
          && ((length mu =? length err2) && (length mu =? length times)))).
  repeat split; try (apply attr_obj; lookups; assumption || reflexivity).
  - unfold MLFitList__consistent.
    rewrite (same_len_lists c attrs "mu" "sigma2" mu sigma2 L1 L2),
      (same_len_lists c attrs "mu" "ln_lh" mu ln_lh L1 L3),
      (same_len_lists c attrs "mu" "err2" mu err2 L1 L4),
      (same_len_lists c attrs "mu" "times" mu times L1 L5).
    unfold and_then; cbn [bind].
    destruct (length mu =? length sigma2), (length mu =? length ln_lh),
      (length mu =? length err2); reflexivity.
  - unfold MLFitList__consistent.
    rewrite (same_len_lists _ _ "mu" "sigma2" (mu ++ [attr "mu" d])
               (sigma2 ++ [attr "sigma2" d])) by (lookups; reflexivity).
    rewrite (same_len_lists _ _ "mu" "ln_lh" (mu ++ [attr "mu" d])
               (ln_lh ++ [attr "ln_lh" d])) by (lookups; reflexivity).
    rewrite (same_len_lists _ _ "mu" "err2" (mu ++ [attr "mu" d])
               (err2 ++ [attr "err2" d])) by (lookups; reflexivity).
    rewrite (same_len_lists _ _ "mu" "times" (mu ++ [attr "mu" d])
               (times ++ [t])) by (lookups; reflexivity).
    rewrite !eqb_length_snoc.
    unfold and_then; cbn [bind].
    destruct (length mu =? length sigma2), (length mu =? length ln_lh),
      (length mu =? length err2); reflexivity.
Qed.

Lemma MLFitList_append_grows_witness :
  exists mu sigma2 ln_lh err2 times b,
    attr "mu" (mk_MLFitList [] [] [] [] []) = VList mu
    /\ attr "sigma2" (mk_MLFitList [] [] [] [] []) = VList sigma2
    /\ attr "ln_lh" (mk_MLFitList [] [] [] [] []) = VList ln_lh
    /\ attr "err2" (mk_MLFitList [] [] [] [] []) = VList err2
    /\ attr "times" (mk_MLFitList [] [] [] [] []) = VList times
    /\ attr "mu" list_of_d0 = VList (mu ++ [attr "mu" d0])
    /\ attr "sigma2" list_of_d0 = VList (sigma2 ++ [attr "sigma2" d0])
    /\ attr "ln_lh" list_of_d0 = VList (ln_lh ++ [attr "ln_lh" d0])
    /\ attr "err2" list_of_d0 = VList (err2 ++ [attr "err2" d0])
    /\ attr "times" list_of_d0 = VList (times ++ [VFloat 0.5])
    /\ MLFitList__consistent (mk_MLFitList [] [] [] [] []) = Ok b
    /\ MLFitList__consistent list_of_d0 = Ok b.
Proof.
  apply (MLFitList_append_grows (mk_MLFitList [] [] [] [] []) d0 (VFloat 0.5)).
  reflexivity.
Defined.

(** X4. [MLGaussianFitList._append_data], when it returns, found eight
    Python lists (owned by the container, none shared) and has put one item
    at the end of each of them; [_consistent] answers after the call what it
    answered before, and [len] of the list has grown by one. *)
Theorem MLGaussianFitList_append_grows (self d t self' : value) :
  MLGaussianFitList__append_data self d t = Ok self' ->
  exists A mu_x mu_y sigma err2 ln_lh lh_precision times b,
    attr "A" self = VList A
    /\ attr "mu_x" self = VList mu_x
    /\ attr "mu_y" self = VList mu_y
    /\ attr "sigma" self = VList sigma
    /\ attr "err2" self = VList err2
    /\ attr "ln_lh" self = VList ln_lh
    /\ attr "lh_precision" self = VList lh_precision
    /\ attr "times" self = VList times
    /\ attr "A" self' = VList (A ++ [attr "A" d])
    /\ attr "mu_x" self' = VList (mu_x ++ [attr "mu_x" d])
    /\ attr "mu_y" self' = VList (mu_y ++ [attr "mu_y" d])
    /\ attr "sigma" self' = VList (sigma ++ [attr "sigma" d])
    /\ attr "err2" self' = VList (err2 ++ [attr "err2" d])
    /\ attr "ln_lh" self' = VList (ln_lh ++ [attr "ln_lh" d])
    /\ attr "lh_precision" self' =
       VList (lh_precision ++ [attr "lh_precision" d])
    /\ attr "times" self' = VList (times ++ [t])
    /\ MLGaussianFitList__consistent self = Ok b
    /\ MLGaussianFitList__consistent self' = Ok b
    /\ MLGaussianFitList___len__ self = Ok (length A)
    /\ MLGaussianFitList___len__ self' = Ok (S (length A)).
Proof.
  intros H. apply MLGaussianFitList__append_data_inv in H.
  destruct H as (c & attrs & A & mu_x & mu_y & sigma & err2 & ln_lh
                 & lh_precision & times & -> & _
                 & L1 & L2 & L3 & L4 & L5 & L6 & L7 & L8 & ->).
  exists A, mu_x, mu_y, sigma, err2, ln_lh, lh_precision, times.
  exists ((length A =? length mu_x) && ((length A =? length mu_y)
          && ((length A =? length sigma) && ((length A =? length err2)
          && ((length A =? length ln_lh)
          && ((length A =? length lh_precision)
          && (length A =? length times))))))).
  repeat split; try (apply attr_obj; lookups; assumption || reflexivity).
  - unfold MLGaussianFitList__consistent.
    rewrite (same_len_lists c attrs "A" "mu_x" A mu_x L1 L2),
      (same_len_lists c attrs "A" "mu_y" A mu_y L1 L3),
      (same_len_lists c attrs "A" "sigma" A sigma L1 L4),
      (same_len_lists c attrs "A" "err2" A err2 L1 L5),
      (same_len_lists c attrs "A" "ln_lh" A ln_lh L1 L6),
      (same_len_lists c attrs "A" "lh_precision" A lh_precision L1 L7),
      (same_len_lists c attrs "A" "times" A times L1 L8).
    unfold and_then; cbn [bind].
    destruct (length A =? length mu_x), (length A =? length mu_y),
      (length A =? length sigma), (length A =? length err2),
      (length A =? length ln_lh), (length A =? length lh_precision);
      reflexivity.
  - unfold MLGaussianFitList__consistent.
    rewrite (same_len_lists _ _ "A" "mu_x" (A ++ [attr "A" d])
               (mu_x ++ [attr "mu_x" d])) by (lookups; reflexivity).
    rewrite (same_len_lists _ _ "A" "mu_y" (A ++ [attr "A" d])
               (mu_y ++ [attr "mu_y" d])) by (lookups; reflexivity).
    rewrite (same_len_lists _ _ "A" "sigma" (A ++ [attr "A" d])
               (sigma ++ [attr "sigma" d])) by (lookups; reflexivity).
    rewrite (same_len_lists _ _ "A" "err2" (A ++ [attr "A" d])
               (err2 ++ [attr "err2" d])) by (lookups; reflexivity).
    rewrite (same_len_lists _ _ "A" "ln_lh" (A ++ [attr "A" d])
               (ln_lh ++ [attr "ln_lh" d])) by (lookups; reflexivity).
    rewrite (same_len_lists _ _ "A" "lh_precision" (A ++ [attr "A" d])
               (lh_precision ++ [attr "lh_precision" d]))
      by (lookups; reflexivity).
    rewrite (same_len_lists _ _ "A" "times" (A ++ [attr "A" d])
               (times ++ [t])) by (lookups; reflexivity).
    rewrite !eqb_length_snoc.
    unfold and_then; cbn [bind].
    destruct (length A =? length mu_x), (length A =? length mu_y),
      (length A =? length sigma), (length A =? length err2),
      (length A =? length ln_lh), (length A =? length lh_precision);
      reflexivity.
  - unfold MLGaussianFitList___len__, getattr. now rewrite L1.
  - unfold MLGaussianFitList___len__, getattr. lookups. cbn.
    now rewrite length_app, Nat.add_1_r.
Qed.

Lemma MLGaussianFitList_append_grows_witness :
  exists A mu_x mu_y sigma err2 ln_lh lh_precision times b,
    attr "A" (mk_MLGaussianFitList [] [] [] [] [] [] [] []) = VList A
    /\ attr "mu_x" (mk_MLGaussianFitList [] [] [] [] [] [] [] []) = VList mu_x
    /\ attr "mu_y" (mk_MLGaussianFitList [] [] [] [] [] [] [] []) = VList mu_y
    /\ attr "sigma" (mk_MLGaussianFitList [] [] [] [] [] [] [] [])
       = VList sigma
    /\ attr "err2" (mk_MLGaussianFitList [] [] [] [] [] [] [] []) = VList err2
    /\ attr "ln_lh" (mk_MLGaussianFitList [] [] [] [] [] [] [] [])
       = VList ln_lh
    /\ attr "lh_precision" (mk_MLGaussianFitList [] [] [] [] [] [] [] [])
       = VList lh_precision
    /\ attr "times" (mk_MLGaussianFitList [] [] [] [] [] [] [] [])
       = VList times
    /\ attr "A" list_of_g0 = VList (A ++ [attr "A" g0])
    /\ attr "mu_x" list_of_g0 = VList (mu_x ++ [attr "mu_x" g0])
    /\ attr "mu_y" list_of_g0 = VList (mu_y ++ [attr "mu_y" g0])
    /\ attr "sigma" list_of_g0 = VList (sigma ++ [attr "sigma" g0])
    /\ attr "err2" list_of_g0 = VList (err2 ++ [attr "err2" g0])
    /\ attr "ln_lh" list_of_g0 = VList (ln_lh ++ [attr "ln_lh" g0])
    /\ attr "lh_precision" list_of_g0 =
       VList (lh_precision ++ [attr "lh_precision" g0])
    /\ attr "times" list_of_g0 = VList (times ++ [VFloat 0.5])
    /\ MLGaussianFitList__consistent
         (mk_MLGaussianFitList [] [] [] [] [] [] [] []) = Ok b
    /\ MLGaussianFitList__consistent list_of_g0 = Ok b
    /\ MLGaussianFitList___len__
         (mk_MLGaussianFitList [] [] [] [] [] [] [] []) = Ok (length A)
    /\ MLGaussianFitList___len__ list_of_g0 = Ok (S (length A)).
Proof.
  apply (MLGaussianFitList_append_grows
           (mk_MLGaussianFitList [] [] [] [] [] [] [] []) g0 (VFloat 0.5)).
  reflexivity.
Defined.

(** ** Construction *)

(** X1. [MLFitList.__init__] checks the lengths of its five arguments and
    nothing else: with arguments that have a length ([None] standing for an
    empty list) it returns the list when the five lengths agree, and the list
    holds the arguments as given and is consistent; it raises [ValueError]
    when they do not; and if [len(mu)] raises, so does the constructor. *)
Theorem MLFitList_init_lengths (mu sigma2 ln_lh err2 times : value) :
  (forall n1 n2 n3 n4 n5 : nat,
      py_len (default_list mu) = Ok n1 ->
      py_len (default_list sigma2) = Ok n2 ->
      py_len (default_list ln_lh) = Ok n3 ->
      py_len (default_list err2) = Ok n4 ->
      py_len (default_list times) = Ok n5 ->
      (n1 = n2 /\ n1 = n3 /\ n1 = n4 /\ n1 = n5 ->
       exists self,
         new_MLFitList mu sigma2 ln_lh err2 times = Ok self
         /\ isinstance self MLFitList = true
         /\ attr "mu" self = default_list mu
         /\ attr "sigma2" self = default_list sigma2
         /\ attr "ln_lh" self = default_list ln_lh
         /\ attr "err2" self = default_list err2
         /\ attr "times" self = default_list times
         /\ MLFitList__consistent self = Ok true)
      /\ (~ (n1 = n2 /\ n1 = n3 /\ n1 = n4 /\ n1 = n5) ->
          new_MLFitList mu sigma2 ln_lh err2 times = Raise ValueError))
  /\ (forall e : exn,
         py_len (default_list mu) = Raise e ->
         new_MLFitList mu sigma2 ln_lh err2 times = Raise e).
Proof.
  split.
  - intros n1 n2 n3 n4 n5 H1 H2 H3 H4 H5.
    rewrite (new_MLFitList_spec mu sigma2 ln_lh err2 times n1 n2 n3 n4 n5)
      by assumption.
    split.
    + intros (E2 & E3 & E4 & E5). subst n2 n3 n4 n5.
      rewrite !Nat.eqb_refl. cbn [andb].
      eexists. split; [reflexivity|].
      repeat split.
      unfold MLFitList__consistent.
      rewrite (same_len_obj _ _ "mu" "sigma2" (default_list mu)
                 (default_list sigma2) n1 n1),
        (same_len_obj _ _ "mu" "ln_lh" (default_list mu)
           (default_list ln_lh) n1 n1),
        (same_len_obj _ _ "mu" "err2" (default_list mu)
           (default_list err2) n1 n1),
        (same_len_obj _ _ "mu" "times" (default_list mu)
           (default_list times) n1 n1)
        by (reflexivity || assumption).
      now rewrite Nat.eqb_refl.
    + intros Hn.
      destruct (n1 =? n2) eqn:E2; [|reflexivity].
      destruct (n1 =? n3) eqn:E3; [|reflexivity].
      destruct (n1 =? n4) eqn:E4; [|reflexivity].
      destruct (n1 =? n5) eqn:E5; [|reflexivity].
      apply Nat.eqb_eq in E2, E3, E4, E5. tauto.
  - intros e He.
    unfold new_MLFitList, MLFitList___init__, MLFit___init__.
    cbn [setattr bind update String.eqb Ascii.eqb Bool.eqb].
    unfold MLFitList__consistent, and_then, same_len at 1.
    cbn [getattr lookup String.eqb Ascii.eqb Bool.eqb bind].
    rewrite He. reflexivity.
Qed.

Lemma MLFitList_init_lengths_witness :
  (exists self,
      new_MLFitList (VList [VFloat 1; VFloat 2])
        (VArray (mk_ndarray [2] [3%float; 4%float]))
        (VTuple [VFloat 5; VFloat 6]) (VList [VNone; VNone])
        (VList [VFloat 0.5; VFloat 1]) = Ok self
      /\ isinstance self MLFitList = true
      /\ attr "mu" self = VList [VFloat 1; VFloat 2]
      /\ attr "sigma2" self = VArray (mk_ndarray [2] [3%float; 4%float])
      /\ attr "ln_lh" self = VTuple [VFloat 5; VFloat 6]
      /\ attr "err2" self = VList [VNone; VNone]
      /\ attr "times" self = VList [VFloat 0.5; VFloat 1]
      /\ MLFitList__consistent self = Ok true)
  /\ new_MLFitList (VList [VFloat 1]) VNone VNone VNone VNone
     = Raise ValueError
  /\ new_MLFitList (VFloat 1) VNone VNone VNone VNone = Raise TypeError.
Proof.
  split; [|split].
  - apply (proj1 (MLFitList_init_lengths (VList [VFloat 1; VFloat 2])
             (VArray (mk_ndarray [2] [3%float; 4%float]))
             (VTuple [VFloat 5; VFloat 6]) (VList [VNone; VNone])
             (VList [VFloat 0.5; VFloat 1])) 2 2 2 2 2);
      try reflexivity.
    repeat split.
  - apply (proj1 (MLFitList_init_lengths (VList [VFloat 1]) VNone VNone VNone
             VNone) 1 0 0 0 0); try reflexivity.
    intros [H _]. discriminate H.
  - apply (proj2 (MLFitList_init_lengths (VFloat 1) VNone VNone VNone VNone)).
    reflexivity.
Defined.

(** X2. [MLGaussianFitList.__init__] and [__len__]: with eight arguments
    that have a length, the constructor returns the list when the eight
    lengths agree, and [len] of the list is that common length; it raises
    [ValueError] when they do not agree; and if [len(amplitude)] raises, so
    does the constructor. *)
Theorem MLGaussianFitList_init_lengths
  (A mu_x mu_y sigma err2 ln_lh lh_precision times : value) :
  (forall n1 n2 n3 n4 n5 n6 n7 n8 : nat,
      py_len (default_list A) = Ok n1 ->
      py_len (default_list mu_x) = Ok n2 ->
      py_len (default_list mu_y) = Ok n3 ->
      py_len (default_list sigma) = Ok n4 ->
      py_len (default_list err2) = Ok n5 ->
      py_len (default_list ln_lh) = Ok n6 ->
      py_len (default_list lh_precision) = Ok n7 ->
      py_len (default_list times) = Ok n8 ->
      (n1 = n2 /\ n1 = n3 /\ n1 = n4 /\ n1 = n5 /\ n1 = n6 /\ n1 = n7
       /\ n1 = n8 ->
       exists self,
         new_MLGaussianFitList A mu_x mu_y sigma err2 ln_lh lh_precision times
         = Ok self
         /\ isinstance self MLGaussianFitList = true
         /\ attr "A" self = default_list A
         /\ attr "mu_x" self = default_list mu_x
         /\ attr "mu_y" self = default_list mu_y
         /\ attr "sigma" self = default_list sigma
         /\ attr "err2" self = default_list err2
         /\ attr "ln_lh" self = default_list ln_lh
         /\ attr "lh_precision" self = default_list lh_precision
         /\ attr "times" self = default_list times
         /\ MLGaussianFitList__consistent self = Ok true
         /\ py_len self = Ok n1)
      /\ (~ (n1 = n2 /\ n1 = n3 /\ n1 = n4 /\ n1 = n5 /\ n1 = n6 /\ n1 = n7
             /\ n1 = n8) ->
          new_MLGaussianFitList A mu_x mu_y sigma err2 ln_lh lh_precision
            times = Raise ValueError))
  /\ (forall e : exn,
         py_len (default_list A) = Raise e ->
         new_MLGaussianFitList A mu_x mu_y sigma err2 ln_lh lh_precision times
         = Raise e).
Proof.
  split.
  - intros n1 n2 n3 n4 n5 n6 n7 n8 H1 H2 H3 H4 H5 H6 H7 H8.
    rewrite (new_MLGaussianFitList_spec A mu_x mu_y sigma err2 ln_lh
               lh_precision times n1 n2 n3 n4 n5 n6 n7 n8) by assumption.
    split.
    + intros (E2 & E3 & E4 & E5 & E6 & E7 & E8). subst n2 n3 n4 n5 n6 n7 n8.
      rewrite !Nat.eqb_refl. cbn [andb].
      eexists. split; [reflexivity|].
      repeat split.
      * unfold MLGaussianFitList__consistent.
        rewrite (same_len_obj _ _ "A" "mu_x" (default_list A)
                   (default_list mu_x) n1 n1),
          (same_len_obj _ _ "A" "mu_y" (default_list A)
             (default_list mu_y) n1 n1),
          (same_len_obj _ _ "A" "sigma" (default_list A)
             (default_list sigma) n1 n1),
          (same_len_obj _ _ "A" "err2" (default_list A)
             (default_list err2) n1 n1),
          (same_len_obj _ _ "A" "ln_lh" (default_list A)
             (default_list ln_lh) n1 n1),
          (same_len_obj _ _ "A" "lh_precision" (default_list A)
             (default_list lh_precision) n1 n1),
          (same_len_obj _ _ "A" "times" (default_list A)
             (default_list times) n1 n1)
          by (reflexivity || assumption).
        now rewrite Nat.eqb_refl.
      * rewrite py_len_MLGaussianFitList.
        unfold MLGaussianFitList___len__.
        cbn [getattr lookup String.eqb Ascii.eqb Bool.eqb bind].
        exact H1.
    + intros Hn.
      destruct (n1 =? n2) eqn:E2; [|reflexivity].
      destruct (n1 =? n3) eqn:E3; [|reflexivity].
      destruct (n1 =? n4) eqn:E4; [|reflexivity].
      destruct (n1 =? n5) eqn:E5; [|reflexivity].
      destruct (n1 =? n6) eqn:E6; [|reflexivity].
      destruct (n1 =? n7) eqn:E7; [|reflexivity].
      destruct (n1 =? n8) eqn:E8; [|reflexivity].
      apply Nat.eqb_eq in E2, E3, E4, E5, E6, E7, E8. tauto.
  - intros e He.
    unfold new_MLGaussianFitList, MLGaussianFitList___init__,
      MLGaussianFit___init__, SymmetricGaussianParams___init__.
    cbn [setattr bind update String.eqb Ascii.eqb Bool.eqb].
    unfold MLGaussianFitList__consistent, and_then, same_len at 1.
    cbn [getattr lookup String.eqb Ascii.eqb Bool.eqb bind].
    rewrite He. reflexivity.
Qed.

Lemma MLGaussianFitList_init_lengths_witness :
  (exists self,
      new_MLGaussianFitList (VList [VFloat 1; VFloat 2])
        (VArray (mk_ndarray [2] [3%float; 4%float]))
        (VTuple [VFloat 5; VFloat 6]) (VList [VNone; VNone])
        (VList [VNone; VNone]) (VList [VNone; VNone]) (VList [VNone; VNone])
        (VList [VFloat 0.5; VFloat 1]) = Ok self
      /\ isinstance self MLGaussianFitList = true
      /\ attr "A" self = VList [VFloat 1; VFloat 2]
      /\ attr "mu_x" self = VArray (mk_ndarray [2] [3%float; 4%float])
      /\ attr "mu_y" self = VTuple [VFloat 5; VFloat 6]
      /\ attr "sigma" self = VList [VNone; VNone]
      /\ attr "err2" self = VList [VNone; VNone]
      /\ attr "ln_lh" self = VList [VNone; VNone]
      /\ attr "lh_precision" self = VList [VNone; VNone]
      /\ attr "times" self = VList [VFloat 0.5; VFloat 1]
      /\ MLGaussianFitList__consistent self = Ok true
      /\ py_len self = Ok 2)
  /\ new_MLGaussianFitList (VList [VFloat 1]) VNone VNone VNone VNone VNone
       VNone VNone = Raise ValueError
  /\ new_MLGaussianFitList (VFloat 1) VNone VNone VNone VNone VNone VNone
       VNone = Raise TypeError.
Proof.
  split; [|split].
  - apply (proj1 (MLGaussianFitList_init_lengths (VList [VFloat 1; VFloat 2])
             (VArray (mk_ndarray [2] [3%float; 4%float]))
             (VTuple [VFloat 5; VFloat 6]) (VList [VNone; VNone])
             (VList [VNone; VNone]) (VList [VNone; VNone])
             (VList [VNone; VNone]) (VList [VFloat 0.5; VFloat 1]))
             2 2 2 2 2 2 2 2);
      try reflexivity.
    repeat split.
  - apply (proj1 (MLGaussianFitList_init_lengths (VList [VFloat 1]) VNone
             VNone VNone VNone VNone VNone VNone) 1 0 0 0 0 0 0 0);
      try reflexivity.
    intros [H _]. discriminate H.
  - apply (proj2 (MLGaussianFitList_init_lengths (VFloat 1) VNone VNone VNone
             VNone VNone VNone VNone)).
    reflexivity.
Defined.

(** ** The two families of records *)

(** X5. No object is accepted by both kinds of list: whatever [d] is,
    [MLFitList._append_data] or [MLGaussianFitList._append_data] raises
    [TypeError] on it.  In particular each kind of list rejects the records
    and the lists of the other kind. *)
Theorem no_record_for_both_lists (d : value) :
  (forall self t, MLFitList__append_data self d t = Raise TypeError)
  \/ (forall self t, MLGaussianFitList__append_data self d t = Raise TypeError).
Proof.
  destruct (isinstance d MLFit) eqn:H.
  - right. intros self t. apply MLGaussianFitList__append_data_TypeError.
    destruct d as [| | | | | | |c a]; try reflexivity.
    destruct c; try reflexivity; discriminate H.
  - left. intros self t. now apply MLFitList__append_data_TypeError.
Qed.

(** ** Indexing *)

Lemma norm_index_out (z : Z) (n : nat) :
  (z < - Z.of_nat n \/ Z.of_nat n <= z)%Z -> norm_index z n = None.
Proof.
  intros H. unfold norm_index.
  destruct (0 <=? z)%Z eqn:E0, (z <? Z.of_nat n)%Z eqn:E1,
    (z <? 0)%Z eqn:E2, (- Z.of_nat n <=? z)%Z eqn:E3; cbn; try reflexivity;
    lia.
Qed.

Lemma norm_index_in (z : Z) (n : nat) :
  (- Z.of_nat n <= z < Z.of_nat n)%Z ->
  exists i, norm_index z n = Some i /\ i < n.
Proof.
  intros H. unfold norm_index.
  destruct (0 <=? z)%Z eqn:E0, (z <? Z.of_nat n)%Z eqn:E1,
    (z <? 0)%Z eqn:E2, (- Z.of_nat n <=? z)%Z eqn:E3; cbn;
    try lia; eexists; (split; [reflexivity|lia]).
Qed.

Lemma norm_index_neg (z : Z) (n : nat) :
  (- Z.of_nat n <= z < 0)%Z ->
  norm_index z n = norm_index (Z.of_nat n + z) n.
Proof.
  intros H. unfold norm_index.
  destruct (0 <=? z)%Z eqn:E0; [lia|].
  destruct (z <? 0)%Z eqn:E2; [|lia].
  destruct (- Z.of_nat n <=? z)%Z eqn:E3; [|lia].
  destruct (0 <=? Z.of_nat n + z)%Z eqn:E4; [|lia].
  destruct (Z.of_nat n + z <? Z.of_nat n)%Z eqn:E5; [|lia].
  reflexivity.
Qed.

Lemma list_item_out {A : Type} (l : list A) (z : Z) :
  (z < - Z.of_nat (length l) \/ Z.of_nat (length l) <= z)%Z ->
  list_item l z = Raise IndexError.
Proof. intros H. unfold list_item. now rewrite norm_index_out. Qed.

Lemma list_item_in {A : Type} (l : list A) (z : Z) :
  (- Z.of_nat (length l) <= z < Z.of_nat (length l))%Z ->
  exists x, list_item l z = Ok x.
Proof.
  intros H. unfold list_item.
  destruct (norm_index_in z (length l) H) as (i & -> & Hi).
  destruct (nth_error l i) as [x|] eqn:E; [now exists x|].
  apply nth_error_None in E. lia.
Qed.

Lemma list_item_neg {A : Type} (l : list A) (z : Z) :
  (- Z.of_nat (length l) <= z < 0)%Z ->
  list_item l z = list_item l (Z.of_nat (length l) + z).
Proof. intros H. unfold list_item. now rewrite norm_index_neg. Qed.

(** X6. [MLFitList.__getitem__] on a list of [n] records, with an integer
    key: a key outside [-n, n) raises [IndexError]; a key in [-n, n) gives a
    pair; and a negative key [-k] gives what the key [n - k] gives, as for a
    Python list. *)
Theorem MLFitList_getitem_index (mu sigma2 ln_lh err2 times : list value)
  (z : Z) :
  length sigma2 = length mu -> length ln_lh = length mu ->
  let lst := mk_MLFitList mu sigma2 ln_lh err2 times in
  let n := Z.of_nat (length mu) in
  ((z < - n \/ n <= z)%Z ->
   MLFitList___getitem__ lst (VInt z) = Raise IndexError)
  /\ ((- n <= z < n)%Z ->
      exists m s l,
        MLFitList___getitem__ lst (VInt z)
        = Ok (VTuple [mk_MLFit m s l (VList err2); VList times])
        /\ list_item mu z = Ok m /\ list_item sigma2 z = Ok s
        /\ list_item ln_lh z = Ok l)
  /\ ((- n <= z < 0)%Z ->
      MLFitList___getitem__ lst (VInt z)
      = MLFitList___getitem__ lst (VInt (n + z))).
Proof.
  intros Hs Hl lst n. subst lst n.
  unfold MLFitList___getitem__, mk_MLFitList.
  cbn [getattr lookup String.eqb Ascii.eqb Bool.eqb bind py_index].
  split; [|split].
  - intros H. now rewrite (list_item_out mu z H).
  - intros H.
    destruct (list_item_in mu z H) as (m & Hm).
    destruct (list_item_in sigma2 z) as (s & Hs'); [now rewrite Hs|].
    destruct (list_item_in ln_lh z) as (l & Hl'); [now rewrite Hl|].
    exists m, s, l. rewrite Hm, Hs', Hl'. cbn [bind].
    now rewrite new_MLFit_eq.
  - intros H.
    rewrite (list_item_neg mu z H).
    rewrite (list_item_neg sigma2 z) by now rewrite Hs.
    rewrite (list_item_neg ln_lh z) by now rewrite Hl.
    now rewrite Hs, Hl.
Qed.

Lemma MLFitList_getitem_index_witness :
  let lst := mk_MLFitList [VFloat 1; VFloat 2] [VFloat 3; VFloat 4]
               [VFloat 5; VFloat 6] [VNone; VNone] [VFloat 0.5; VFloat 1] in
  MLFitList___getitem__ lst (VInt 2) = Raise IndexError
  /\ MLFitList___getitem__ lst (VInt (-3)) = Raise IndexError
  /\ MLFitList___getitem__ lst (VInt (-1)) = MLFitList___getitem__ lst (VInt 1)
  /\ exists m s l,
      MLFitList___getitem__ lst (VInt (-1))
      = Ok (VTuple [mk_MLFit m s l (VList [VNone; VNone]);
                    VList [VFloat 0.5; VFloat 1]])
      /\ list_item [VFloat 1; VFloat 2] (-1) = Ok m
      /\ list_item [VFloat 3; VFloat 4] (-1) = Ok s
      /\ list_item [VFloat 5; VFloat 6] (-1) = Ok l.
Proof.
  intros lst.
  pose proof (fun z => MLFitList_getitem_index [VFloat 1; VFloat 2]
                [VFloat 3; VFloat 4] [VFloat 5; VFloat 6] [VNone; VNone]
                [VFloat 0.5; VFloat 1] z eq_refl eq_refl) as H.
  cbv zeta in H.
  split; [|split; [|split]].
  - apply (proj1 (H 2%Z)). cbn. lia.
  - apply (proj1 (H (-3)%Z)). cbn. lia.
  - apply (proj2 (proj2 (H (-1)%Z))). cbn. lia.
  - apply (proj1 (proj2 (H (-1)%Z))). cbn. lia.
Defined.

Lemma is_ok_bind_false {A B : Type} (c : result A) (k : A -> result B) :
  (forall a, is_ok (k a) = false) -> is_ok (bind c k) = false.
Proof. intros H. destruct c; [apply H | reflexivity]. Qed.

Lemma new_MLGaussianFitList_inv
  (A mu_x mu_y sigma err2 ln_lh lh_precision times self : value) :
  new_MLGaussianFitList A mu_x mu_y sigma err2 ln_lh lh_precision times
  = Ok self ->
  self = VObj MLGaussianFitList
           [("A", default_list A); ("mu_x", default_list mu_x);
            ("mu_y", default_list mu_y); ("sigma", default_list sigma);
            ("err2", default_list err2); ("ln_lh", default_list ln_lh);
            ("lh_precision", default_list lh_precision);
            ("times", default_list times)].
Proof.
  unfold new_MLGaussianFitList, MLGaussianFitList___init__,
    MLGaussianFit___init__, SymmetricGaussianParams___init__.
  cbn [setattr bind update String.eqb Ascii.eqb Bool.eqb].
  destruct (MLGaussianFitList__consistent _) as [[|]|]; cbn;
    congruence.
Qed.

Lemma append_all_MLGaussianFitList_no__times (dts : list (value * value)) :
  forall (c : class) (attrs : list (string * value)) (lst : value),
    lookup "_times" attrs = None ->
    append_all MLGaussianFitList__append_data (VObj c attrs) dts = Ok lst ->
    getattr lst "_times" = Raise AttributeError.
Proof.
  induction dts as [|[d t] dts IH]; intros c attrs lst Hn H.
  - cbn in H. injection H as <-. unfold getattr. now rewrite Hn.
  - cbn [append_all] in H. apply bind_Ok_inv in H.
    destruct H as (s1 & H1 & H).
    apply MLGaussianFitList__append_data_inv in H1.
    destruct H1 as (c' & attrs' & A & mu_x & mu_y & sigma & err2 & ln_lh
                    & lh_precision & times & Eo & _ & _ & _ & _ & _ & _ & _
                    & _ & _ & ->).
    injection Eo as <- <-.
    eapply IH; [|exact H].
    lookups. exact Hn.
Qed.

(** X7. [MLGaussianFitList.__getitem__] never returns on a list made by the
    constructor and any number of [_append_data] calls, whatever the key: it
    reads [self._times], which neither of them sets.  With an integer key
    outside [-n, n), [n] being the length of the list [self.A], the exception
    is the [IndexError] of [self.A[key]]. *)
Theorem MLGaussianFitList_getitem_never_returns :
  (forall (A mu_x mu_y sigma err2 ln_lh lh_precision times self lst key : value)
          (dts : list (value * value)),
      new_MLGaussianFitList A mu_x mu_y sigma err2 ln_lh lh_precision times
      = Ok self ->
      append_all MLGaussianFitList__append_data self dts = Ok lst ->
      is_ok (MLGaussianFitList___getitem__ lst key) = false)
  /\ (forall (A mu_x mu_y sigma err2 ln_lh lh_precision times : list value)
             (z : Z),
         (z < - Z.of_nat (length A) \/ Z.of_nat (length A) <= z)%Z ->
         MLGaussianFitList___getitem__
           (mk_MLGaussianFitList A mu_x mu_y sigma err2 ln_lh lh_precision
              times) (VInt z) = Raise IndexError).
Proof.
  split.
  - intros A mu_x mu_y sigma err2 ln_lh lh_precision times self lst key dts
      Hnew Happ.
    apply new_MLGaussianFitList_inv in Hnew. subst self.
    apply append_all_MLGaussianFitList_no__times in Happ; [|reflexivity].
    unfold MLGaussianFitList___getitem__.
    do 13 (apply is_ok_bind_false; intros ?).
    rewrite Happ. reflexivity.
  - intros A mu_x mu_y sigma err2 ln_lh lh_precision times z H.
    unfold MLGaussianFitList___getitem__, mk_MLGaussianFitList.
    cbn [getattr lookup String.eqb Ascii.eqb Bool.eqb bind py_index].
    now rewrite (list_item_out A z H).
Qed.

Lemma MLGaussianFitList_getitem_never_returns_witness :
  is_ok (MLGaussianFitList___getitem__ list_of_g0 (VInt 0)) = false
  /\ MLGaussianFitList___getitem__ list_of_g0 (VInt 1) = Raise IndexError.
Proof.
  split.
  - apply (proj1 MLGaussianFitList_getitem_never_returns VNone VNone VNone
             VNone VNone VNone VNone VNone
             (mk_MLGaussianFitList [] [] [] [] [] [] [] []) list_of_g0
             (VInt 0) [(g0, VFloat 0.5)]); reflexivity.
  - apply (proj2 MLGaussianFitList_getitem_never_returns [VFloat 1]
             [VFloat 2] [VFloat 3] [VFloat 1]
             [VArray (mk_ndarray [2] [4%float; 5%float])] [VFloat 7]
             [VFloat 8] [VFloat 0.5] 1%Z).
    cbn. lia.
Defined.

(** * Further properties of the Gaussian fit *)

(** ** What the fit reads of its guess *)

Section GuessRead.
Context {E : Externals}.

Lemma fit_gaussian_tt_initial_vector (sig_f i i' : value) :
  initial_vector i = initial_vector i' ->
  fit_gaussian_tt sig_f i = fit_gaussian_tt sig_f i'.
Proof.
  intros H. unfold fit_gaussian_tt.
  destruct sig_f as [| | |arr| | | |]; try reflexivity.
  destruct (shape arr) as [|dy [|dx [|? ?]]]; try reflexivity;
    now rewrite H.
Qed.

(** X8. [fit_gaussian_tt] reads [A], [mu_x], [mu_y] and [sigma] of its guess
    and nothing else: the class of the guess and its [err2] field do not
    change the outcome. *)
Theorem fit_gaussian_tt_ignores_err2 (sig_f : value) (c c' : class)
  (attrs : list (string * value)) (v : value) :
  fit_gaussian_tt sig_f (VObj c' (update "err2" v attrs))
  = fit_gaussian_tt sig_f (VObj c attrs).
Proof.
  apply fit_gaussian_tt_initial_vector.
  unfold initial_vector, getattr. now lookups.
Qed.

End GuessRead.

(** ** Signals that are not two-dimensional *)

(** A signal of shape [(2, 3, 1)] has as many items as the grid has points
    and is fitted; one of shape [(2, 3, 2)] has twice as many, and the
    residual function raises the [ValueError] of the broadcast; a flat
    signal has no [shape[1]]. *)
Example fit_gaussian_tt_other_shapes :
  is_ok (@fit_gaussian_tt (example_externals stalled (Raise ValueError))
           (VArray (mk_ndarray [2; 3; 1] [1; 7; 2; 7; 0; 3]%float)) guess23)
  = true
  /\ @fit_gaussian_tt (example_externals stalled (Raise ValueError))
       (VArray (mk_ndarray [2; 3; 2]
                  [1; 7; 2; 7; 0; 3; 1; 7; 2; 7; 0; 3]%float)) guess23
     = Raise ValueError
  /\ @fit_gaussian_tt (example_externals stalled (Raise ValueError))
       (VArray (mk_ndarray [6] [1; 7; 2; 7; 0; 3]%float)) guess23
     = Raise IndexError.
Proof. repeat split. Qed.

(** ** Signs of the amplitude and of the width *)

Lemma abs_opp (a : float) : abs (- a) = abs a.
Proof.
  apply Prim2SF_inj. rewrite !abs_spec, opp_spec.
  now destruct (Prim2SF a).
Qed.

Lemma sqr_opp (s : float) : sqr (- s) = sqr s.
Proof.
  unfold sqr. apply Prim2SF_inj. rewrite !mul_spec, opp_spec.
  destruct (Prim2SF s) as [[|]|[|]| |[|] m e]; reflexivity.
Qed.

Section Signs.
Context {E : Externals}.

(** X9. The residual function depends on the amplitude through its absolute
    value and on the width through its square: changing the sign of [x[0]],
    of [x[3]] or of both leaves every residual as it is. *)
Theorem gaussian_diff_signs (others : Pair2D (list float)) (dim : Pair2D nat)
  (f_flattened : list float) (a mu_x mu_y s : float) :
  gaussian_diff others dim f_flattened (mk_vec4 (- a) mu_x mu_y s)
  = gaussian_diff others dim f_flattened (mk_vec4 a mu_x mu_y s)
  /\ gaussian_diff others dim f_flattened (mk_vec4 a mu_x mu_y (- s))
     = gaussian_diff others dim f_flattened (mk_vec4 a mu_x mu_y s)
  /\ gaussian_diff others dim f_flattened (mk_vec4 (- a) mu_x mu_y (- s))
     = gaussian_diff others dim f_flattened (mk_vec4 a mu_x mu_y s).
Proof.
  unfold gaussian_diff. cbn [x_0 x_1 x_2 x_3].
  now rewrite abs_opp, sqr_opp.
Qed.

End Signs.

(** ** The grid *)

Lemma nth_flat_map_rows {A : Type} (f : nat -> list A) (dx : nat) (d : A) :
  (forall r, length (f r) = dx) ->
  forall n a k,
    k < n * dx ->
    nth k (flat_map f (seq a n)) d = nth (k mod dx) (f (a + k / dx)) d.
Proof.
  intros Hlen. induction n as [|n IH]; intros a k Hk; [lia|].
  assert (Hx : dx <> 0) by (intros ->; lia).
  cbn [seq flat_map].
  destruct (Nat.lt_ge_cases k dx) as [Hlt|Hge].
  - rewrite app_nth1 by now rewrite Hlen.
    now rewrite Nat.mod_small, Nat.div_small, Nat.add_0_r.
  - rewrite app_nth2 by now rewrite Hlen.
    rewrite Hlen, IH by (cbn in Hk; lia).
    replace k with ((k - dx) + 1 * dx) at 3 4 by lia.
    rewrite Nat.Div0.mod_add, Nat.div_add by exact Hx.
    f_equal. f_equal. lia.
Qed.

Lemma length_flat_map_rows {A : Type} (f : nat -> list A) (dx : nat) :
  (forall r, length (f r) = dx) ->
  forall n a, length (flat_map f (seq a n)) = n * dx.
Proof.
  intros Hlen. induction n as [|n IH]; intros a; [reflexivity|].
  cbn [seq flat_map]. rewrite length_app, Hlen, IH. reflexivity.
Qed.

Lemma meshgrid_flat_nth (dx dy k : nat) :
  k < dy * dx ->
  nth k (x_ (meshgrid_flat dx dy)) nan = float_of_nat (k mod dx)
  /\ nth k (y_ (meshgrid_flat dx dy)) nan = float_of_nat (k / dx).
Proof.
  intros Hk. assert (Hx : dx <> 0) by (intros ->; lia).
  assert (Hm : k mod dx < dx) by now apply Nat.mod_upper_bound.
  unfold meshgrid_flat. cbn [x_ y_]. split.
  - rewrite (nth_flat_map_rows _ dx) by
      (try exact Hk; intros; now rewrite length_map, length_seq).
    rewrite (nth_indep _ nan (float_of_nat 0))
      by now rewrite length_map, length_seq.
    now rewrite map_nth, seq_nth.
  - rewrite (nth_flat_map_rows _ dx) by
      (try exact Hk; intros; now rewrite length_map, length_seq).
    rewrite (nth_indep _ nan ((fun _ => float_of_nat (0 + k / dx)) 0))
      by now rewrite length_map, length_seq.
    now rewrite (map_nth (fun _ => float_of_nat (0 + k / dx))).
Qed.

Lemma meshgrid_flat_length (dx dy : nat) :
  length (x_ (meshgrid_flat dx dy)) = dy * dx
  /\ length (y_ (meshgrid_flat dx dy)) = dy * dx.
Proof.
  unfold meshgrid_flat. cbn [x_ y_].
  split; apply length_flat_map_rows; intros;
    now rewrite length_map, length_seq.
Qed.

Lemma array_item2_flat (arr : ndarray) (dim_y dim_x k : nat) :
  shape arr = [dim_y; dim_x] ->
  length (data arr) = dim_y * dim_x ->
  k < dim_y * dim_x ->
  array_item2 arr (k / dim_x) (k mod dim_x) = Ok (nth k (data arr) nan).
Proof.
  intros Hs Hl Hk.
  assert (Hx : dim_x <> 0) by (intros ->; lia).
  assert (Hkk : k / dim_x * dim_x + k mod dim_x = k).
  { rewrite (Nat.div_mod_eq k dim_x) at 3. lia. }
  assert (Hmx : k mod dim_x < dim_x) by (apply Nat.mod_upper_bound, Hx).
  assert (Hmy : k / dim_x < dim_y).
  { apply Nat.Div0.div_lt_upper_bound. lia. }
  unfold array_item2. rewrite Hs.
  apply Nat.ltb_lt in Hmx, Hmy. rewrite Hmx, Hmy. simpl.
  rewrite Hkk. rewrite (nth_error_nth' _ nan); [reflexivity|lia].
Qed.

(** X10. The grid of [fit_gaussian_tt] is aligned with the flattened signal:
    on a [dim_y] by [dim_x] signal both coordinate lists have
    [dim_y * dim_x] items, and the point paired with the [k]-th sample has
    the coordinates [(k mod dim_x, k div dim_x)] of the column and the row
    where that sample is in the signal. *)
Theorem meshgrid_aligned (arr : ndarray) (dim_y dim_x k : nat) :
  shape arr = [dim_y; dim_x] ->
  length (data arr) = dim_y * dim_x ->
  k < dim_y * dim_x ->
  length (x_ (meshgrid_flat dim_x dim_y)) = length (data arr)
  /\ length (y_ (meshgrid_flat dim_x dim_y)) = length (data arr)
  /\ nth k (x_ (meshgrid_flat dim_x dim_y)) nan = float_of_nat (k mod dim_x)
  /\ nth k (y_ (meshgrid_flat dim_x dim_y)) nan = float_of_nat (k / dim_x)
  /\ array_item2 arr (k / dim_x) (k mod dim_x) = Ok (nth k (data arr) nan).
Proof.
  intros Hs Hl Hk.
  destruct (meshgrid_flat_length dim_x dim_y) as [Lx Ly].
  destruct (meshgrid_flat_nth dim_x dim_y k Hk) as [Nx Ny].
  rewrite Lx, Ly, Hl. repeat split; try assumption.
  now apply (array_item2_flat arr dim_y dim_x k).
Qed.

Lemma meshgrid_aligned_witness :
  length (x_ (meshgrid_flat 3 2)) = length (data snapshot23)
  /\ length (y_ (meshgrid_flat 3 2)) = length (data snapshot23)
  /\ nth 4 (x_ (meshgrid_flat 3 2)) nan = float_of_nat (4 mod 3)
  /\ nth 4 (y_ (meshgrid_flat 3 2)) nan = float_of_nat (4 / 3)
  /\ array_item2 snapshot23 (4 / 3) (4 mod 3)
     = Ok (nth 4 (data snapshot23) nan).
Proof.
  apply (meshgrid_aligned snapshot23 2 3 4); try reflexivity. cbn. lia.
Defined.

(** * Signs of the moments *)

Lemma binary_round_aux_sign_clear (m e : Z) (l : location) :
  sign_clear (binary_round_aux prec emax false m e l) = true.
Proof.
  unfold binary_round_aux.
  destruct (shr_fexp prec emax m e l) as [mrs' e'].
  destruct (shr_fexp prec emax _ e' loc_Exact) as [mrs'' e''].
  destruct (shr_m mrs''); try reflexivity.
  now destruct (e'' <=? emax - prec)%Z.
Qed.

Lemma binary_round_sign_clear (m : positive) (e : Z) :
  sign_clear (binary_round prec emax false m e) = true.
Proof.
  unfold binary_round. destruct (shl_align m e _) as [mz ez].
  apply binary_round_aux_sign_clear.
Qed.

Lemma SFadd_sign_clear (f g : spec_float) :
  sign_clear f = true -> sign_clear g = true ->
  sign_clear (SFadd prec emax f g) = true.
Proof.
  destruct f as [[|]|[|]| |[|] mf ef], g as [[|]|[|]| |[|] mg eg];
    try discriminate; try reflexivity.
  intros _ _. cbn [SFadd cond_Zopp Z.add binary_normalize].
  apply binary_round_sign_clear.
Qed.

Lemma SFmul_sign_clear (f : spec_float) :
  sign_clear (SFmul prec emax f f) = true.
Proof.
  destruct f as [[|]|[|]| |[|] mf ef]; try reflexivity;
    cbn [SFmul xorb]; apply binary_round_aux_sign_clear.
Qed.

Lemma SFdiv_sign_clear (f g : spec_float) :
  sign_clear f = true -> sign_clear g = true ->
  sign_clear (SFdiv prec emax f g) = true.
Proof.
  destruct f as [[|]|[|]| |[|] mf ef], g as [[|]|[|]| |[|] mg eg];
    try discriminate; try reflexivity.
  intros _ _. cbn [SFdiv xorb].
  destruct (SFdiv_core_binary prec emax (Z.pos mf) ef (Z.pos mg) eg)
    as [[mz ez] lz].
  apply binary_round_aux_sign_clear.
Qed.

Lemma not_negative_add (x y : float) :
  not_negative x = true -> not_negative y = true ->
  not_negative (x + y) = true.
Proof.
  unfold not_negative. rewrite add_spec. apply SFadd_sign_clear.
Qed.

Lemma not_negative_sqr (x : float) : not_negative (sqr x) = true.
Proof.
  unfold not_negative, sqr. rewrite mul_spec. apply SFmul_sign_clear.
Qed.

Lemma not_negative_div (x y : float) :
  not_negative x = true -> not_negative y = true ->
  not_negative (x / y) = true.
Proof.
  unfold not_negative. rewrite div_spec. apply SFdiv_sign_clear.
Qed.

Lemma not_negative_float_of_nat (n : nat) :
  not_negative (float_of_nat n) = true.
Proof.
  destruct n as [|n]; [reflexivity|].
  unfold not_negative.
  destruct (positive_SF (float_of_nat (S n))) as [->|(m & e & -> & _)];
    [apply float_of_nat_positive; lia | reflexivity | reflexivity].
Qed.

Lemma eqb_zero_SF (r : float) :
  (r =? 0)%float = true -> exists s, Prim2SF r = S754_zero s.
Proof.
  rewrite FloatAxioms.eqb_spec, Prim2SF_zero.
  destruct (Prim2SF r) as [s|[|]| |[|] m e]; try discriminate.
  intros _. now exists s.
Qed.

Lemma SF_zero_eqb (r : float) (s : bool) :
  Prim2SF r = S754_zero s -> (r =? 0)%float = true.
Proof. intros H. now rewrite FloatAxioms.eqb_spec, Prim2SF_zero, H. Qed.

(** The sum of two doubles, each with a clear sign bit or [-0.], is again
    such a double. *)
Lemma SFadd_clear_or_negative_zero (f g : spec_float) :
  sign_clear f = true \/ f = S754_zero true ->
  sign_clear g = true \/ g = S754_zero true ->
  sign_clear (SFadd prec emax f g) = true
  \/ SFadd prec emax f g = S754_zero true.
Proof.
  destruct f as [[|]|[|]| |[|] mf ef], g as [[|]|[|]| |[|] mg eg];
    intros [Hf|Hf] [Hg|Hg]; try discriminate; cbn [SFadd sign_clear negb];
    auto.
  left. cbn [cond_Zopp Z.add binary_normalize].
  apply binary_round_sign_clear.
Qed.

(** A sum of doubles whose sign bits are clear has a clear sign bit, or is
    the [-0.] of an empty sum. *)
Lemma is_sum_of_sign (l : list float) (s : float) :
  is_sum_of l s ->
  Forall (fun v => not_negative v = true) l ->
  not_negative s = true \/ Prim2SF s = S754_zero true.
Proof.
  induction 1 as [z Hz|x|l l1 l2 s1 s2 _ IH1 _ IH2 Hp]; intros Hl.
  - destruct (eqb_zero_SF z Hz) as ([|] & Hs); [now right|].
    left. unfold not_negative. now rewrite Hs.
  - left. now inversion Hl.
  - assert (Hl' : Forall (fun v => not_negative v = true) (l1 ++ l2)).
    { apply Forall_forall. intros v Hv.
      apply (proj1 (Forall_forall _ _) Hl).
      now apply (Permutation_in v (Permutation_sym Hp)). }
    apply Forall_app in Hl'. destruct Hl' as [H1 H2].
    unfold not_negative. rewrite add_spec.
    apply SFadd_clear_or_negative_zero; [now apply IH1 | now apply IH2].
Qed.

Lemma not_negative_np_sum (l : list float) :
  Forall (fun v => not_negative v = true) l -> not_negative (np_sum l) = true.
Proof.
  intros H. unfold np_sum, not_negative. rewrite add_spec, Prim2SF_zero.
  destruct (is_sum_of_sign l _ (pairwise_sum_is_sum (length l) l) H)
    as [Hc| ->]; [|reflexivity].
  now apply SFadd_sign_clear.
Qed.

Lemma not_negative_np_mean (l : list float) :
  Forall (fun v => not_negative v = true) l -> not_negative (np_mean l) = true.
Proof.
  intros H. apply not_negative_div;
    [now apply not_negative_np_sum | apply not_negative_float_of_nat].
Qed.

Lemma Forall_map_sqr (f : float -> float) (l : list float) :
  Forall (fun v => not_negative v = true) (map (fun v => sqr (f v)) l).
Proof.
  apply Forall_forall. intros x Hx. apply in_map_iff in Hx.
  destruct Hx as (v & <- & _). apply not_negative_sqr.
Qed.

Lemma not_negative_np_var (l : list float) : not_negative (np_var l) = true.
Proof.
  unfold np_var, np_var_ddof. apply not_negative_div.
  - apply not_negative_np_sum. rewrite map_map.
    apply (Forall_map_sqr (fun v => (v - np_sum l / float_of_nat (length l))%float)).
  - apply not_negative_float_of_nat.
Qed.

(** A double whose sign bit is clear is not below zero, and is not [-0]. *)
Lemma not_negative_ltb (x : float) :
  not_negative x = true -> (x <? 0)%float = false.
Proof.
  unfold not_negative. rewrite FloatAxioms.ltb_spec, Prim2SF_zero.
  now destruct (Prim2SF x) as [[|]|[|]| |[|] m e].
Qed.

Section UniformMoments.
Context {E : Externals}.

(** X13. The variance that [fit_maximum_lh] reports is never negative: for
    every array, [sigma2] is [+0], a positive double, [+inf] or NaN, so that
    [sigma2 < 0] is false, and so is every item of [err2]. *)
Theorem fit_maximum_lh_variance_not_negative (arr : ndarray) :
  exists r s2 e,
    fit_maximum_lh (VArray arr) = Ok r
    /\ attr "sigma2" r = VFloat s2
    /\ not_negative s2 = true
    /\ (s2 <? 0)%float = false
    /\ attr "err2" r = VArray e
    /\ Forall (fun v => not_negative v = true /\ (v <? 0)%float = false)
         (data e).
Proof.
  rewrite fit_maximum_lh_eq.
  eexists _, _, _. split; [reflexivity|].
  rewrite attr_MLFit_sigma2, attr_MLFit_err2.
  split; [reflexivity|].
  split; [apply not_negative_np_var|].
  split; [apply not_negative_ltb, not_negative_np_var|].
  split; [reflexivity|].
  cbn [data]. unfold residuals.
  apply Forall_forall. intros x Hx. apply in_map_iff in Hx.
  destruct Hx as (v & <- & _).
  split; [|apply not_negative_ltb]; apply not_negative_sqr.
Qed.

End UniformMoments.

(** ** Degenerate likelihoods *)

Lemma sqr_zero (r : float) : (r =? 0)%float = true -> sqr r = 0%float.
Proof.
  intros H. destruct (eqb_zero_SF r H) as (s & Hs).
  unfold sqr. apply Prim2SF_inj. rewrite mul_spec, Hs, Prim2SF_zero.
  now destruct s.
Qed.

(** A sum of zeros is a zero. *)
Lemma is_sum_of_zeros (l : list float) (s : float) :
  is_sum_of l s ->
  Forall (fun v => (v =? 0)%float = true) l ->
  (s =? 0)%float = true.
Proof.
  induction 1 as [z Hz|x|l l1 l2 s1 s2 _ IH1 _ IH2 Hp]; intros Hl.
  - exact Hz.
  - now inversion Hl.
  - assert (Hl' : Forall (fun v => (v =? 0)%float = true) (l1 ++ l2)).
    { apply Forall_forall. intros v Hv.
      apply (proj1 (Forall_forall _ _) Hl).
      now apply (Permutation_in v (Permutation_sym Hp)). }
    apply Forall_app in Hl'. destruct Hl' as [H1 H2].
    destruct (eqb_zero_SF s1 (IH1 H1)) as (a & Ha).
    destruct (eqb_zero_SF s2 (IH2 H2)) as (b & Hb).
    rewrite FloatAxioms.eqb_spec, add_spec, Ha, Hb, Prim2SF_zero.
    now destruct a, b.
Qed.

(** [np.sum] of zeros is [+0.], whatever their signs. *)
Lemma np_sum_of_zeros (l : list float) :
  Forall (fun v => (v =? 0)%float = true) l -> np_sum l = 0%float.
Proof.
  intros H.
  destruct (eqb_zero_SF _ (is_sum_of_zeros l _
                             (pairwise_sum_is_sum (length l) l) H))
    as (a & Ha).
  unfold np_sum. apply Prim2SF_inj.
  rewrite add_spec, Ha, Prim2SF_zero. now destruct a.
Qed.

Lemma np_sum_zeros (l : list float) :
  Forall (fun v => v = 0%float) l -> np_sum l = 0%float.
Proof.
  intros H. apply np_sum_of_zeros.
  apply Forall_forall. intros v Hv.
  now rewrite (proj1 (Forall_forall _ _) H v Hv).
Qed.

Lemma zero_div_positive (b : float) :
  (0 <? b)%float = true -> (0 / b)%float = 0%float.
Proof.
  intros H. apply Prim2SF_inj. rewrite div_spec, Prim2SF_zero.
  destruct (positive_SF b H) as [->|(m & e & -> & _)]; reflexivity.
Qed.

Lemma nan_add (x : float) : (nan + x)%float = nan.
Proof.
  apply Prim2SF_inj. rewrite add_spec.
  change (Prim2SF nan) with S754_nan. reflexivity.
Qed.

Lemma nan_sub (x : float) : (nan - x)%float = nan.
Proof.
  apply Prim2SF_inj. rewrite sub_spec.
  change (Prim2SF nan) with S754_nan. reflexivity.
Qed.

Lemma np_mean_zero_squares (l : list float) :
  l <> [] ->
  Forall (fun r => (r =? 0)%float = true) l ->
  np_sum (map sqr l) = 0%float /\ np_mean (map sqr l) = 0%float.
Proof.
  intros Hne H.
  assert (Hs : np_sum (map sqr l) = 0%float).
  { apply np_sum_zeros. apply Forall_forall. intros x Hx.
    apply in_map_iff in Hx. destruct Hx as (v & <- & Hv).
    apply sqr_zero. now apply (proj1 (Forall_forall _ _) H). }
  split; [exact Hs|].
  unfold np_mean. rewrite Hs, length_map.
  apply zero_div_positive, float_of_nat_positive.
  destruct l; [congruence | cbn; lia].
Qed.

Lemma attr_MLGaussianFit_err2 (A mu_x mu_y sigma err2 ln_lh lh_precision : value) :
  attr "err2" (mk_MLGaussianFit A mu_x mu_y sigma err2 ln_lh lh_precision)
  = err2.
Proof. reflexivity. Qed.

Lemma attr_MLGaussianFit_ln_lh (A mu_x mu_y sigma err2 ln_lh lh_precision : value) :
  attr "ln_lh" (mk_MLGaussianFit A mu_x mu_y sigma err2 ln_lh lh_precision)
  = ln_lh.
Proof. reflexivity. Qed.

Lemma attr_MLGaussianFit_lh_precision
  (A mu_x mu_y sigma err2 ln_lh lh_precision : value) :
  attr "lh_precision"
    (mk_MLGaussianFit A mu_x mu_y sigma err2 ln_lh lh_precision)
  = lh_precision.
Proof. reflexivity. Qed.

Section GaussianMoments.
Context {E : Externals}.

(** X11. The precision that [fit_gaussian_tt] reports is never negative:
    whenever the solver returns, [lh_precision] is [+0], a positive double,
    [+inf] or NaN, and so is every item of [err2]. *)
Theorem fit_gaussian_tt_precision_not_negative
  (arr : ndarray) (dim_y dim_x : nat) (i : value) (x0 xest : vec4)
  (ier : Z) :
  shape arr = [dim_y; dim_x] ->
  initial_vector i = Ok x0 ->
  leastsq (residual_function arr dim_y dim_x) x0 = Ok (xest, ier) ->
  exists r beta e,
    fit_gaussian_tt (VArray arr) i = Ok r
    /\ attr "lh_precision" r = VFloat beta
    /\ not_negative beta = true
    /\ (beta <? 0)%float = false
    /\ attr "err2" r = VArray e
    /\ Forall (fun v => not_negative v = true /\ (v <? 0)%float = false)
         (data e).
Proof.
  intros Hs Hi Hl.
  rewrite (fit_gaussian_tt_eq arr dim_y dim_x i x0 xest ier Hs Hi Hl).
  eexists _, _, _. split; [reflexivity|].
  rewrite attr_MLGaussianFit_lh_precision, attr_MLGaussianFit_err2.
  assert (Hsq : Forall (fun v => not_negative v = true)
                  (map sqr (residual_function arr dim_y dim_x xest))).
  { rewrite <- (map_id (residual_function arr dim_y dim_x xest)), map_map.
    apply (Forall_map_sqr (fun v => v)). }
  assert (Hb : not_negative
                 (1 / np_mean (map sqr (residual_function arr dim_y dim_x xest)))
               = true).
  { apply not_negative_div; [reflexivity|now apply not_negative_np_mean]. }
  split; [reflexivity|]. split; [exact Hb|].
  split; [now apply not_negative_ltb|]. split; [reflexivity|].
  cbn [data]. apply Forall_forall. intros x Hx.
  pose proof (proj1 (Forall_forall _ _) Hsq x Hx) as Hn.
  split; [exact Hn | now apply not_negative_ltb].
Qed.

(** X12. A perfect fit has no likelihood: when the solver returns an
    estimate at which every residual of a non-empty signal is zero,
    [fit_gaussian_tt] reports the precision [+inf] and the log-likelihood
    NaN, whatever [np.log] is. *)
Theorem fit_gaussian_tt_perfect_fit
  (arr : ndarray) (dim_y dim_x : nat) (i : value) (x0 xest : vec4)
  (ier : Z) :
  shape arr = [dim_y; dim_x] ->
  initial_vector i = Ok x0 ->
  leastsq (residual_function arr dim_y dim_x) x0 = Ok (xest, ier) ->
  residual_function arr dim_y dim_x xest <> [] ->
  Forall (fun r => (r =? 0)%float = true)
    (residual_function arr dim_y dim_x xest) ->
  exists r,
    fit_gaussian_tt (VArray arr) i = Ok r
    /\ attr "lh_precision" r = VFloat infinity
    /\ attr "ln_lh" r = VFloat nan
    /\ attr "err2" r =
       VArray (mk_ndarray [length (residual_function arr dim_y dim_x xest)]
                 (map (fun _ => 0%float)
                    (residual_function arr dim_y dim_x xest))).
Proof.
  intros Hs Hi Hl Hne Hz.
  rewrite (fit_gaussian_tt_eq arr dim_y dim_x i x0 xest ier Hs Hi Hl).
  eexists. split; [reflexivity|].
  rewrite attr_MLGaussianFit_lh_precision, attr_MLGaussianFit_ln_lh,
    attr_MLGaussianFit_err2.
  destruct (np_mean_zero_squares _ Hne Hz) as [Hsum Hmean].
  rewrite Hmean, Hsum.
  split; [reflexivity|]. split.
  - f_equal.
    change (- (1 / 0) / 2 * 0)%float with nan.
    now rewrite nan_add, !nan_sub.
  - rewrite length_map. do 2 f_equal.
    apply map_ext_in. intros v Hv. apply sqr_zero.
    now apply (proj1 (Forall_forall _ _) Hz).
Qed.

End GaussianMoments.

Lemma fit_gaussian_tt_precision_not_negative_witness :
  exists r beta e,
    @fit_gaussian_tt (example_externals stalled (Raise ValueError))
      (VArray snapshot23) guess23 = Ok r
    /\ attr "lh_precision" r = VFloat beta
    /\ not_negative beta = true
    /\ (beta <? 0)%float = false
    /\ attr "err2" r = VArray e
    /\ Forall (fun v => not_negative v = true /\ (v <? 0)%float = false)
         (data e).
Proof.
  apply (@fit_gaussian_tt_precision_not_negative
           (example_externals stalled (Raise ValueError))
           snapshot23 2 3 guess23 (mk_vec4 7 1 0 0.75) (mk_vec4 7 1 0 0.75) 5);
    reflexivity.
Defined.

Lemma fit_gaussian_tt_perfect_fit_witness :
  exists r,
    @fit_gaussian_tt (example_externals stalled (Raise ValueError))
      (VArray zeros12) flat_guess = Ok r
    /\ attr "lh_precision" r = VFloat infinity
    /\ attr "ln_lh" r = VFloat nan
    /\ attr "err2" r = VArray (mk_ndarray [2] [0%float; 0%float]).
Proof.
  apply (@fit_gaussian_tt_perfect_fit
           (example_externals stalled (Raise ValueError))
           zeros12 1 2 flat_guess (mk_vec4 0 0 0 1) (mk_vec4 0 0 0 1) 5);
    try reflexivity.
  - discriminate.
  - repeat constructor.
Defined.

(** * The bump fit and the solver *)

Section BumpFit.
Context {E : Externals}.

Lemma fit_gaussian_bump_tt_eq (arr : ndarray) (dim_y dim_x k : nat) :
  shape arr = [dim_y; dim_x] ->
  length (data arr) = dim_y * dim_x ->
  np_argmax (data arr) = Ok k ->
  k < dim_y * dim_x ->
  fit_gaussian_bump_tt (VArray arr) =
  fit_gaussian_tt (VArray arr)
    (mk_SymmetricGaussianParams (VFloat (nth k (data arr) nan))
       (VInt (Z.of_nat (k mod dim_x))) (VInt (Z.of_nat (k / dim_x)))
       (VFloat (float_of_nat (Nat.max dim_y dim_x) / 4)) VNone).
Proof.
  intros Hs Hl Hk Hlt.
  unfold fit_gaussian_bump_tt. rewrite Hs, Hk. cbn [bind].
  unfold np_unravel_index.
  replace (k <? dim_y * dim_x) with true by (symmetry; now apply Nat.ltb_lt).
  cbn [bind].
  now rewrite (array_item2_flat arr dim_y dim_x k Hs Hl Hlt).
Qed.

(** X14. On a non-empty [dim_y] by [dim_x] snapshot [fit_gaussian_bump_tt]
    starts the solver on a node of the grid: the vector handed to
    [leastsq] holds the largest sample, the grid coordinates paired with that
    sample and a quarter of the larger dimension.  The call then fails only
    as the solver fails, with the solver's exception, and returns whenever
    the solver returns. *)
Theorem fit_gaussian_bump_tt_solver_start (arr : ndarray) (dim_y dim_x : nat) :
  shape arr = [dim_y; dim_x] ->
  length (data arr) = dim_y * dim_x ->
  data arr <> [] ->
  exists (k : nat) (x0 : vec4),
    np_argmax (data arr) = Ok k
    /\ k < length (data arr)
    /\ x_0 x0 = nth k (data arr) nan
    /\ x_1 x0 = nth k (x_ (meshgrid_flat dim_x dim_y)) nan
    /\ x_2 x0 = nth k (y_ (meshgrid_flat dim_x dim_y)) nan
    /\ x_3 x0 = (float_of_nat (Nat.max dim_y dim_x) / 4)%float
    /\ (forall e,
           leastsq (residual_function arr dim_y dim_x) x0 = Raise e ->
           fit_gaussian_bump_tt (VArray arr) = Raise e)
    /\ (forall xest ier,
           leastsq (residual_function arr dim_y dim_x) x0 = Ok (xest, ier) ->
           exists r,
             fit_gaussian_bump_tt (VArray arr) = Ok r
             /\ isinstance r MLGaussianFit = true
             /\ has_attrs MLGaussianFit_attrs r = true).
Proof.
  intros Hs Hl Hne.
  destruct (np_argmax_spec (data arr) Hne) as (k & Hk & Hlt & _).
  assert (Hlt' : k < dim_y * dim_x) by now rewrite <- Hl.
  destruct (meshgrid_flat_nth dim_x dim_y k Hlt') as [Nx Ny].
  set (x0 := mk_vec4 (nth k (data arr) nan) (float_of_nat (k mod dim_x))
               (float_of_nat (k / dim_x))
               (float_of_nat (Nat.max dim_y dim_x) / 4)%float).
  assert (Hi : initial_vector
                 (mk_SymmetricGaussianParams (VFloat (nth k (data arr) nan))
                    (VInt (Z.of_nat (k mod dim_x)))
                    (VInt (Z.of_nat (k / dim_x)))
                    (VFloat (float_of_nat (Nat.max dim_y dim_x) / 4)) VNone)
               = Ok x0) by reflexivity.
  exists k, x0.
  split; [exact Hk|]. split; [exact Hlt|]. split; [reflexivity|].
  split; [now rewrite Nx|]. split; [now rewrite Ny|]. split; [reflexivity|].
  rewrite (fit_gaussian_bump_tt_eq arr dim_y dim_x k Hs Hl Hk Hlt').
  split.
  - intros e He.
    exact (fit_gaussian_tt_solver_raises arr dim_y dim_x _ x0 e Hs Hi He).
  - intros xest ier Hsol.
    rewrite (fit_gaussian_tt_eq arr dim_y dim_x _ x0 xest ier Hs Hi Hsol).
    eexists. split; [reflexivity|]. split; reflexivity.
Qed.

(** X15. [fit_gaussian_bump_tt] raises [ValueError] before the solver is
    called on an empty two-dimensional snapshot and on an array that does
    not have two dimensions. *)
Theorem fit_gaussian_bump_tt_rejects (arr : ndarray) :
  ((exists dim_y dim_x, shape arr = [dim_y; dim_x]) -> data arr = [] ->
   fit_gaussian_bump_tt (VArray arr) = Raise ValueError)
  /\ (length (shape arr) <> 2 ->
      fit_gaussian_bump_tt (VArray arr) = Raise ValueError).
Proof.
  unfold fit_gaussian_bump_tt. split.
  - intros (dim_y & dim_x & ->) ->. reflexivity.
  - intros H. destruct (shape arr) as [|dy [|dx [|? ?]]]; try reflexivity.
    now elim H.
Qed.

End BumpFit.

Lemma fit_gaussian_bump_tt_solver_start_witness :
  exists (k : nat) (x0 : vec4),
    np_argmax (data snapshot23) = Ok k
    /\ k < length (data snapshot23)
    /\ x_0 x0 = nth k (data snapshot23) nan
    /\ x_1 x0 = nth k (x_ (meshgrid_flat 3 2)) nan
    /\ x_2 x0 = nth k (y_ (meshgrid_flat 3 2)) nan
    /\ x_3 x0 = (float_of_nat (Nat.max 2 3) / 4)%float
    /\ (forall e,
           @leastsq (example_externals stalled (Raise ValueError))
             (@residual_function (example_externals stalled (Raise ValueError))
                snapshot23 2 3) x0 = Raise e ->
           @fit_gaussian_bump_tt (example_externals stalled (Raise ValueError))
             (VArray snapshot23) = Raise e)
    /\ (forall xest ier,
           @leastsq (example_externals stalled (Raise ValueError))
             (@residual_function (example_externals stalled (Raise ValueError))
                snapshot23 2 3) x0 = Ok (xest, ier) ->
           exists r,
             @fit_gaussian_bump_tt
               (example_externals stalled (Raise ValueError))
               (VArray snapshot23) = Ok r
             /\ isinstance r MLGaussianFit = true
             /\ has_attrs MLGaussianFit_attrs r = true).
Proof.
  apply (@fit_gaussian_bump_tt_solver_start
           (example_externals stalled (Raise ValueError)) snapshot23 2 3);
    [reflexivity | reflexivity | discriminate].
Defined.

Lemma fit_gaussian_bump_tt_rejects_witness :
  @fit_gaussian_bump_tt (example_externals stalled (Raise ValueError))
    (VArray (mk_ndarray [0; 3] [])) = Raise ValueError
  /\ @fit_gaussian_bump_tt (example_externals stalled (Raise ValueError))
       (VArray (mk_ndarray [3] [1%float; 2%float; 3%float]))
     = Raise ValueError.
Proof.
  split.
  - apply (proj1 (@fit_gaussian_bump_tt_rejects
                    (example_externals stalled (Raise ValueError))
                    (mk_ndarray [0; 3] []))); [now exists 0, 3 | reflexivity].
  - apply (proj2 (@fit_gaussian_bump_tt_rejects
                    (example_externals stalled (Raise ValueError))
                    (mk_ndarray [3] [1%float; 2%float; 3%float]))).
    cbn. discriminate.
Defined.

(** * The uniform fit on samples that equal their mean *)

Section ExactMean.
Context {E : Externals}.

(** X16. When the mean of a non-empty array is computed without error, so
    that every sample minus the mean compares equal to zero,
    [fit_maximum_lh] reports the variance [+0], the log-likelihood [+inf]
    and an [err2] of zeros. *)
Theorem fit_maximum_lh_exact_mean (arr : ndarray) :
  data arr <> [] ->
  Forall (fun v => (v - np_mean (data arr) =? 0)%float = true) (data arr) ->
  fit_maximum_lh (VArray arr) =
  Ok (mk_MLFit (VFloat (np_mean (data arr))) (VFloat 0) (VFloat np_inf)
        (VArray (mk_ndarray [length (data arr)]
                   (map (fun _ => 0%float) (data arr))))).
Proof.
  intros Hne Hz.
  assert (Hr : residuals (data arr) = map (fun _ => 0%float) (data arr)).
  { unfold residuals. apply map_ext_in. intros v Hv.
    apply sqr_zero. rewrite <- np_mean_sample_mean.
    now apply (proj1 (Forall_forall _ _) Hz). }
  assert (Hv : np_var (data arr) = 0%float).
  { rewrite np_var_population_variance. unfold population_variance.
    rewrite Hr, np_sum_zeros.
    - apply zero_div_positive, float_of_nat_positive.
      destruct (data arr); [congruence | cbn; lia].
    - apply Forall_forall. intros x Hx. apply in_map_iff in Hx.
      now destruct Hx as (v & <- & _). }
  rewrite fit_maximum_lh_eq, Hv, Hr, length_map. reflexivity.
Qed.

End ExactMean.

Lemma fit_maximum_lh_exact_mean_witness :
  @fit_maximum_lh (example_externals stalled (Raise ValueError))
    (VArray (mk_ndarray [2; 2] [2; 2; 2; 2]%float)) =
  Ok (mk_MLFit (VFloat 2) (VFloat 0) (VFloat np_inf)
        (VArray (mk_ndarray [4] [0; 0; 0; 0]%float))).
Proof.
  apply (@fit_maximum_lh_exact_mean
           (example_externals stalled (Raise ValueError))
           (mk_ndarray [2; 2] [2; 2; 2; 2]%float)).
  - discriminate.
  - repeat constructor.
Defined.

(** * The uniform fit on constant arrays *)

Lemma residuals_constant (l : list float) (c : float) :
  Forall (fun v => v = c) l ->
  residuals l = map (fun _ => sqr (c - np_mean l)) l.
Proof.
  intros H. unfold residuals. apply map_ext_in. intros v Hv.
  rewrite <- np_mean_sample_mean.
  now rewrite (proj1 (Forall_forall _ _) H v Hv).
Qed.

Lemma float_of_length_positive {A : Type} (l : list A) :
  l <> [] -> (0 <? float_of_nat (length l))%float = true.
Proof.
  intros H. apply float_of_nat_positive.
  destruct l; [congruence | cbn; lia].
Qed.

Lemma np_var_of_zero_residuals (l : list float) :
  l <> [] ->
  Forall (fun v => (v =? 0)%float = true) (residuals l) ->
  np_var l = 0%float.
Proof.
  intros Hne H. rewrite np_var_population_variance.
  unfold population_variance. rewrite (np_sum_of_zeros _ H).
  now apply zero_div_positive, float_of_length_positive.
Qed.

Lemma np_mean_of_zeros (l : list float) :
  l <> [] ->
  Forall (fun v => (v =? 0)%float = true) l ->
  np_mean l = 0%float.
Proof.
  intros Hne H. unfold np_mean. rewrite (np_sum_of_zeros _ H).
  now apply zero_div_positive, float_of_length_positive.
Qed.

Lemma zero_sub_zero (c : float) :
  (c =? 0)%float = true -> (c - 0 =? 0)%float = true.
Proof.
  intros H. destruct (eqb_zero_SF c H) as (s & Hs).
  rewrite FloatAxioms.eqb_spec, sub_spec, Hs, Prim2SF_zero.
  now destruct s.
Qed.

Section ConstantArray.
Context {E : Externals}.

(** C6 (amended).  On a non-empty array whose elements all equal [c],
    [fit_maximum_lh] returns a record, never an error; [mu] is a sample
    mean, [sigma2] a population variance about it, and [err2] holds
    [(c - mu)^2] for every element.  Whenever that square compares equal to
    zero (and so whenever [c - mu] does, as it does for [c = 0] and any
    length) the record has [sigma2 = +0] and [ln_lh = +inf].  In every case
    [ln_lh] is [+inf] when [sigma2] compares equal to zero, the constant of
    that branch, in which [np.log] plays no part, and the value of the
    formula with the logarithm when it does not. *)
Theorem fit_maximum_lh_constant (arr : ndarray) (c : float) :
  data arr <> [] ->
  Forall (fun v => v = c) (data arr) ->
  exists r mu sigma2,
    fit_maximum_lh (VArray arr) = Ok r
    /\ isinstance r MLFit = true
    /\ has_attrs MLFit_attrs r = true
    /\ attr "mu" r = VFloat mu
    /\ attr "sigma2" r = VFloat sigma2
    /\ is_sample_mean (data arr) mu
    /\ is_population_variance (data arr) mu sigma2
    /\ attr "err2" r =
       VArray (mk_ndarray [length (data arr)]
                 (map (fun _ => sqr (c - mu)) (data arr)))
    /\ ((sqr (c - mu) =? 0)%float = true ->
        sigma2 = 0%float /\ attr "ln_lh" r = VFloat np_inf)
    /\ ((c - mu =? 0)%float = true -> (sqr (c - mu) =? 0)%float = true)
    /\ ((c =? 0)%float = true -> (c - mu =? 0)%float = true)
    /\ ((sigma2 =? 0)%float = true -> attr "ln_lh" r = VFloat np_inf)
    /\ ((sigma2 =? 0)%float = false ->
        attr "ln_lh" r = VFloat (ln_lh_formula (data arr))).
Proof.
  intros Hne Hc.
  pose proof (residuals_constant (data arr) c Hc) as Hr.
  eexists _, (np_mean (data arr)), (np_var (data arr)).
  split; [apply fit_maximum_lh_eq|].
  split; [reflexivity|]. split; [reflexivity|].
  split; [reflexivity|]. split; [reflexivity|].
  split; [exists (np_sum (data arr)); split;
          [apply np_sum_is_sum | reflexivity]|].
  split.
  { exists (np_sum (residuals (data arr))). split.
    - apply (np_sum_is_sum (residuals (data arr))).
    - now rewrite np_var_population_variance. }
  split; [now rewrite attr_MLFit_err2, Hr, length_map|].
  assert (Hz : (sqr (c - np_mean (data arr)) =? 0)%float = true ->
               np_var (data arr) = 0%float).
  { intros H. apply np_var_of_zero_residuals; [exact Hne|].
    rewrite Hr. apply Forall_forall. intros x Hx.
    apply in_map_iff in Hx. now destruct Hx as (v & <- & _). }
  split.
  { intros H. split; [now apply Hz|].
    unfold attr, mk_MLFit. cbn [getattr lookup String.eqb Ascii.eqb Bool.eqb].
    now rewrite (Hz H). }
  split; [intros H; now rewrite (sqr_zero _ H)|].
  split.
  { intros H. rewrite np_mean_of_zeros; [now apply zero_sub_zero|exact Hne|].
    apply Forall_forall. intros v Hv.
    now rewrite (proj1 (Forall_forall _ _) Hc v Hv). }
  split; intros H; unfold attr, mk_MLFit;
    cbn [getattr lookup String.eqb Ascii.eqb Bool.eqb]; now rewrite H.
Qed.

End ConstantArray.

(** A constant array whose mean is computed without rounding. *)
Lemma fit_maximum_lh_constant_witness :
  exists r mu sigma2,
    @fit_maximum_lh (example_externals stalled (Raise ValueError))
      (VArray (mk_ndarray [4] [2; 2; 2; 2]%float)) = Ok r
    /\ isinstance r MLFit = true
    /\ has_attrs MLFit_attrs r = true
    /\ attr "mu" r = VFloat mu
    /\ attr "sigma2" r = VFloat sigma2
    /\ is_sample_mean [2; 2; 2; 2]%float mu
    /\ is_population_variance [2; 2; 2; 2]%float mu sigma2
    /\ attr "err2" r =
       VArray (mk_ndarray [4] (map (fun _ => sqr (2 - mu)) [2; 2; 2; 2]%float))
    /\ ((sqr (2 - mu) =? 0)%float = true ->
        sigma2 = 0%float /\ attr "ln_lh" r = VFloat np_inf)
    /\ ((2 - mu =? 0)%float = true -> (sqr (2 - mu) =? 0)%float = true)
    /\ ((2 =? 0)%float = true -> (2 - mu =? 0)%float = true)
    /\ ((sigma2 =? 0)%float = true -> attr "ln_lh" r = VFloat np_inf)
    /\ ((sigma2 =? 0)%float = false ->
        attr "ln_lh" r =
        VFloat (@ln_lh_formula (example_externals stalled (Raise ValueError))
                  [2; 2; 2; 2]%float)).
Proof.
  apply (@fit_maximum_lh_constant
           (example_externals stalled (Raise ValueError))
           (mk_ndarray [4] [2; 2; 2; 2]%float) 2%float).
  - discriminate.
  - repeat constructor.
Defined.

(** On [[2, 2, 2, 2]] the mean is [2], every deviation is zero, and the
    record has [sigma2 = 0] and [ln_lh = +inf]. *)
Example fit_maximum_lh_constant_exact :
  @fit_maximum_lh (example_externals stalled (Raise ValueError))
    (VArray (mk_ndarray [4] [2; 2; 2; 2]%float)) =
  Ok (mk_MLFit (VFloat 2) (VFloat 0) (VFloat np_inf)
        (VArray (mk_ndarray [4] [0; 0; 0; 0]%float))).
Proof. reflexivity. Qed.

(** The mean need not be exact for the variance to vanish: three copies of
    [0.1 * 2^-600] have a mean above them, and a squared deviation that
    underflows to zero. *)
Example fit_maximum_lh_constant_underflow :
  (np_mean [tiny_tenth; tiny_tenth; tiny_tenth] =? tiny_tenth)%float = false
  /\ sqr (tiny_tenth - np_mean [tiny_tenth; tiny_tenth; tiny_tenth])
     = 0%float
  /\ @fit_maximum_lh (example_externals stalled (Raise ValueError))
       (VArray (mk_ndarray [3] [tiny_tenth; tiny_tenth; tiny_tenth])) =
     Ok (mk_MLFit
           (VFloat (np_mean [tiny_tenth; tiny_tenth; tiny_tenth]))
           (VFloat 0) (VFloat np_inf)
           (VArray (mk_ndarray [3] [0; 0; 0]%float))).
Proof. split; [reflexivity|]. split; reflexivity. Qed.

(** * Further properties of a run *)

Lemma collect_length (body : nat -> result value) (idx : list nat) :
  forall ds, collect body idx = Ok ds -> length ds = length idx.
Proof.
  induction idx as [|k idx IH]; intros ds H.
  - cbn in H. now injection H as <-.
  - apply collect_cons_inv in H. destruct H as (d & ds' & _ & H & ->).
    cbn. f_equal. now apply IH.
Qed.

Lemma collect_total (body : nat -> result value) (idx : list nat) :
  Forall (fun k => exists d, body k = Ok d) idx ->
  exists ds, collect body idx = Ok ds.
Proof.
  induction 1 as [|k idx (d & Hd) _ (ds & IH)].
  - now exists [].
  - exists (d :: ds). cbn [collect]. now rewrite Hd, IH.
Qed.

Lemma for_each_app (idx1 idx2 : list nat)
  (body : value -> nat -> result value) :
  forall res,
    for_each (idx1 ++ idx2) body res
    = (r <- for_each idx1 body res ;; for_each idx2 body r).
Proof.
  induction idx1 as [|k idx1 IH]; intros res; [reflexivity|].
  cbn [app for_each]. destruct (body res k) as [r|e]; [|reflexivity].
  cbn [bind]. apply IH.
Qed.

Lemma seq_split_at (n k : nat) :
  k < n -> seq 0 n = seq 0 k ++ k :: seq (S k) (n - S k).
Proof.
  intros H. replace n with (k + S (n - S k)) at 1 by lia.
  rewrite seq_app. reflexivity.
Qed.

Lemma seq_bound_le (k n : nat) : k <= n -> Forall (fun j => j < n) (seq 0 k).
Proof.
  intros H. apply Forall_forall. intros j Hj. apply in_seq in Hj. lia.
Qed.

Section Run.
Context {E : Externals}.

Lemma fit_window_raises (fit_callable : value -> result value)
  (full_err : bool) (F : ndarray) (Ft : list float) (res : value) (k : nat)
  (e : exn) :
  (s <- slice_last F k ;; fit_callable s) = Raise e ->
  fit_window fit_callable full_err F Ft res k = Raise e.
Proof.
  unfold fit_window. destruct (slice_last F k) as [s|e']; cbn [bind].
  - now intros ->.
  - now intros ->.
Qed.

Lemma bump_position_eq (self : SingleBumpPopulation)
  (tstart tend dt win_len : float) (full_err : bool) (F : ndarray)
  (Ft : list float) :
  slidingFiringRate self tstart tend dt win_len = Ok (F, Ft) ->
  bump_position self tstart tend dt win_len full_err
  = for_each (seq 0 (length Ft))
      (fit_window fit_gaussian_bump_tt full_err F Ft)
      (mk_MLGaussianFitList [] [] [] [] [] [] [] []).
Proof.
  intros H. unfold bump_position, SingleBumpPopulation__perform_fit.
  rewrite H. cbn [bind instantiate].
  now rewrite new_MLGaussianFitList_empty.
Qed.

Lemma uniform_fit_eq (self : SingleBumpPopulation)
  (tstart tend dt win_len : float) (full_err : bool) (F : ndarray)
  (Ft : list float) :
  slidingFiringRate self tstart tend dt win_len = Ok (F, Ft) ->
  uniform_fit self tstart tend dt win_len full_err
  = for_each (seq 0 (length Ft))
      (fit_window fit_maximum_lh full_err F Ft)
      (mk_MLFitList [] [] [] [] []).
Proof.
  intros H. unfold uniform_fit, SingleBumpPopulation__perform_fit.
  rewrite H. cbn [bind instantiate].
  now rewrite new_MLFitList_empty.
Qed.

(** X17. A run that returns has fitted every window: when [bump_position]
    returns a list, each of the [len(Ft)] windows of [F] was fitted, the
    list holds the window times [Ft] in order, it is consistent, its eight
    backing lists have [len(Ft)] items each and its [len] is [len(Ft)]; and
    likewise for [uniform_fit] and the five backing lists of its list. *)
Theorem run_fits_every_window
  (self : SingleBumpPopulation) (tstart tend dt win_len : float)
  (full_err : bool) (F : ndarray) (Ft : list float) (r : value) :
  slidingFiringRate self tstart tend dt win_len = Ok (F, Ft) ->
  (bump_position self tstart tend dt win_len full_err = Ok r ->
   exists ds,
     window_fits fit_gaussian_bump_tt F (length Ft) = Ok ds
     /\ length ds = length Ft
     /\ isinstance r MLGaussianFitList = true
     /\ attr "times" r = VList (map VFloat Ft)
     /\ Forall (fun name => py_len (attr name r) = Ok (length Ft))
          MLGaussianFitList_arrays
     /\ MLGaussianFitList__consistent r = Ok true
     /\ py_len r = Ok (length Ft))
  /\ (uniform_fit self tstart tend dt win_len full_err = Ok r ->
      exists ds,
        window_fits fit_maximum_lh F (length Ft) = Ok ds
        /\ length ds = length Ft
        /\ isinstance r MLFitList = true
        /\ attr "times" r = VList (map VFloat Ft)
        /\ Forall (fun name => py_len (attr name r) = Ok (length Ft))
             MLFitList_arrays
        /\ MLFitList__consistent r = Ok true).
Proof.
  intros Hs. split; intros Hr.
  - rewrite (bump_position_eq _ _ _ _ _ _ F Ft Hs) in Hr.
    destruct (for_each_raises _ _ _ _ _ _ _ Hr) as (ds & Hds).
    pose proof (collect_length _ _ _ Hds) as Hlen.
    rewrite length_seq in Hlen.
    rewrite (for_each_Gaussian _ _ _ _ _ ds [] [] [] [] [] [] [] [] Hds
               (window_fits_Gaussian F (length Ft) ds Hds)
               (seq_bound (length Ft))) in Hr.
    injection Hr as <-. cbn [app]. rewrite map_nth_seq.
    exists ds. split; [exact Hds|]. split; [exact Hlen|].
    split; [reflexivity|]. split; [reflexivity|].
    split.
    + unfold MLGaussianFitList_arrays.
      repeat (apply Forall_cons || apply Forall_nil);
        cbn; rewrite length_map, ?Hlen; reflexivity.
    + split.
      * unfold MLGaussianFitList__consistent, and_then, same_len.
        cbn [mk_MLGaussianFitList getattr lookup String.eqb Ascii.eqb
             Bool.eqb bind py_len].
        rewrite !length_map, Hlen, Nat.eqb_refl. reflexivity.
      * cbn. rewrite length_map. now rewrite Hlen.
  - rewrite (uniform_fit_eq _ _ _ _ _ _ F Ft Hs) in Hr.
    destruct (for_each_raises _ _ _ _ _ _ _ Hr) as (ds & Hds).
    pose proof (collect_length _ _ _ Hds) as Hlen.
    rewrite length_seq in Hlen.
    rewrite (for_each_uniform _ _ _ _ _ ds [] [] [] [] [] Hds
               (window_fits_uniform F (length Ft) ds Hds)
               (seq_bound (length Ft))) in Hr.
    injection Hr as <-. cbn [app]. rewrite map_nth_seq.
    exists ds. split; [exact Hds|]. split; [exact Hlen|].
    split; [reflexivity|]. split; [reflexivity|].
    split.
    + unfold MLFitList_arrays.
      repeat (apply Forall_cons || apply Forall_nil);
        cbn; rewrite length_map, ?Hlen; reflexivity.
    + unfold MLFitList__consistent, and_then, same_len.
      cbn [mk_MLFitList getattr lookup String.eqb Ascii.eqb Bool.eqb bind
           py_len].
      rewrite !length_map, Hlen, Nat.eqb_refl. reflexivity.
Qed.

(** X18. The first window that cannot be fitted ends the run with its own
    exception: if the rate service raises, the run raises the same; and if
    the windows before the [k]-th are fitted and slicing or fitting the
    [k]-th raises [e], then the run raises [e]. *)
Theorem run_raises_first_failure
  (self : SingleBumpPopulation) (tstart tend dt win_len : float)
  (full_err : bool) (e : exn) :
  (slidingFiringRate self tstart tend dt win_len = Raise e ->
   bump_position self tstart tend dt win_len full_err = Raise e
   /\ uniform_fit self tstart tend dt win_len full_err = Raise e)
  /\ (forall F Ft k,
         slidingFiringRate self tstart tend dt win_len = Ok (F, Ft) ->
         k < length Ft ->
         (is_ok (window_fits fit_gaussian_bump_tt F k) = true ->
          (s <- slice_last F k ;; fit_gaussian_bump_tt s) = Raise e ->
          bump_position self tstart tend dt win_len full_err = Raise e)
         /\ (is_ok (window_fits fit_maximum_lh F k) = true ->
             (s <- slice_last F k ;; fit_maximum_lh s) = Raise e ->
             uniform_fit self tstart tend dt win_len full_err = Raise e)).
Proof.
  split.
  - intros H. unfold bump_position, uniform_fit,
      SingleBumpPopulation__perform_fit. now rewrite H.
  - intros F Ft k Hs Hk. split; intros Hok He.
    + rewrite (bump_position_eq _ _ _ _ _ _ F Ft Hs).
      destruct (window_fits fit_gaussian_bump_tt F k) as [ds|] eqn:Hds;
        [|discriminate].
      rewrite (seq_split_at (length Ft) k Hk), for_each_app.
      rewrite (for_each_Gaussian _ _ _ _ _ ds [] [] [] [] [] [] [] [] Hds
                 (window_fits_Gaussian F k ds Hds)
                 (seq_bound_le k (length Ft) (Nat.lt_le_incl _ _ Hk))).
      cbn [bind for_each]. now rewrite (fit_window_raises _ _ _ _ _ _ e He).
    + rewrite (uniform_fit_eq _ _ _ _ _ _ F Ft Hs).
      destruct (window_fits fit_maximum_lh F k) as [ds|] eqn:Hds;
        [|discriminate].
      rewrite (seq_split_at (length Ft) k Hk), for_each_app.
      rewrite (for_each_uniform _ _ _ _ _ ds [] [] [] [] [] Hds
                 (window_fits_uniform F k ds Hds)
                 (seq_bound_le k (length Ft) (Nat.lt_le_incl _ _ Hk))).
      cbn [bind for_each]. now rewrite (fit_window_raises _ _ _ _ _ _ e He).
Qed.

Lemma window_fits_uniform_total (F : ndarray) (ny nx nt n : nat) :
  shape F = [ny; nx; nt] -> n <= nt ->
  exists ds, window_fits fit_maximum_lh F n = Ok ds.
Proof.
  intros Hs Hn. apply collect_total.
  apply Forall_forall. intros k Hk. apply in_seq in Hk.
  unfold slice_last. rewrite Hs.
  replace (k <? nt) with true by (symmetry; apply Nat.ltb_lt; lia).
  cbn [bind]. rewrite fit_maximum_lh_eq. now eexists.
Qed.

(** X19. [uniform_fit] depends on the shape of the rates only: when the
    rate service returns a three-dimensional [F] with at least [len(Ft)]
    windows the run returns, whatever the rates are; when [F] has fewer
    windows than [Ft] has times the run raises [IndexError]. *)
Theorem uniform_fit_returns
  (self : SingleBumpPopulation) (tstart tend dt win_len : float)
  (full_err : bool) (F : ndarray) (Ft : list float) (ny nx nt : nat) :
  slidingFiringRate self tstart tend dt win_len = Ok (F, Ft) ->
  shape F = [ny; nx; nt] ->
  (length Ft <= nt ->
   exists r, uniform_fit self tstart tend dt win_len full_err = Ok r)
  /\ (nt < length Ft ->
      uniform_fit self tstart tend dt win_len full_err = Raise IndexError).
Proof.
  intros Hs Hsh. rewrite (uniform_fit_eq _ _ _ _ _ _ F Ft Hs). split.
  - intros Hn.
    destruct (window_fits_uniform_total F ny nx nt (length Ft) Hsh Hn)
      as (ds & Hds).
    rewrite (for_each_uniform _ _ _ _ _ ds [] [] [] [] [] Hds
               (window_fits_uniform F (length Ft) ds Hds)
               (seq_bound (length Ft))).
    now eexists.
  - intros Hn.
    destruct (window_fits_uniform_total F ny nx nt nt Hsh (Nat.le_refl nt))
      as (ds & Hds).
    rewrite (seq_split_at (length Ft) nt Hn), for_each_app.
    rewrite (for_each_uniform _ _ _ _ _ ds [] [] [] [] [] Hds
               (window_fits_uniform F nt ds Hds)
               (seq_bound_le nt (length Ft) (Nat.lt_le_incl _ _ Hn))).
    cbn [bind for_each]. rewrite (fit_window_raises _ _ _ _ _ _ IndexError).
    + reflexivity.
    + unfold slice_last. rewrite Hsh. now rewrite Nat.ltb_irrefl.
Qed.

End Run.

Lemma run_fits_every_window_witness :
  exists r ds,
    @uniform_fit externals12 population12 0 1 0.5 0.5 true = Ok r
    /\ window_fits (@fit_maximum_lh externals12) rates12 2 = Ok ds
    /\ length ds = 2
    /\ isinstance r MLFitList = true
    /\ attr "times" r = VList [VFloat 0.5; VFloat 1]
    /\ Forall (fun name => py_len (attr name r) = Ok 2) MLFitList_arrays
    /\ MLFitList__consistent r = Ok true.
Proof.
  destruct (@uniform_fit externals12 population12 0 1 0.5 0.5 true)
    as [r|e] eqn:Hr.
  - exists r.
    destruct (proj2 (@run_fits_every_window externals12 population12 0 1 0.5
                       0.5 true rates12 [0.5; 1]%float r eq_refl) Hr)
      as (ds & H).
    exists ds. split; [reflexivity | exact H].
  - vm_compute in Hr. discriminate Hr.
Defined.

Lemma run_raises_first_failure_witness :
  (@bump_position externals_no_rates population12 0 1 0.5 0.5 true
   = Raise ValueError
   /\ @uniform_fit externals_no_rates population12 0 1 0.5 0.5 true
      = Raise ValueError)
  /\ @bump_position externals_failing population12 0 1 0.5 0.5 true
     = Raise ValueError
  /\ @uniform_fit externals_short population12 0 1 0.5 0.5 true
     = Raise IndexError.
Proof.
  split; [|split].
  - apply (proj1 (@run_raises_first_failure externals_no_rates population12
                    0 1 0.5 0.5 true ValueError)).
    reflexivity.
  - apply (proj1 (proj2 (@run_raises_first_failure externals_failing
                           population12 0 1 0.5 0.5 true ValueError)
                    rates12 [0.5; 1]%float 0 eq_refl (Nat.lt_0_succ 1)));
      reflexivity.
  - apply (proj2 (proj2 (@run_raises_first_failure externals_short
                           population12 0 1 0.5 0.5 true IndexError)
                    rates12 [0.5; 1; 1.5]%float 2 eq_refl
                    (Nat.lt_succ_diag_r 2)));
      reflexivity.
Defined.

Lemma uniform_fit_returns_witness :
  (exists r, @uniform_fit externals12 population12 0 1 0.5 0.5 false = Ok r)
  /\ @uniform_fit externals_short population12 0 1 0.5 0.5 false
     = Raise IndexError.
Proof.
  split.
  - apply (proj1 (@uniform_fit_returns externals12 population12 0 1 0.5 0.5
                    false rates12 [0.5; 1]%float 1 2 2 eq_refl eq_refl)).
    cbn. lia.
  - apply (proj2 (@uniform_fit_returns externals_short population12 0 1 0.5
                    0.5 false rates12 [0.5; 1; 1.5]%float 1 2 2 eq_refl
                    eq_refl)).
    cbn. lia.
Defined.

(** * Runs of the bump fit *)


Section BumpRun.
Context {E : Externals}.



End BumpRun.

